(** * ARGO forecasting engine ([lib/forecastlib/models.py]): a shallow embedding

    The development follows the Python module class by class:
    - [Py]: the fragment of Python / numpy semantics the module relies on
      (slices with negative bounds, [list.index], [np.hstack], exceptions);
    - a state-and-exception monad [M] in which method bodies are written
      statement by statement;
    - [Predictor]: [data_process] and [predict];
    - [Geo_model]: [init_predictor], [init_prediction_layer], [ensemble],
      [save_predictions];
    - the properties of the walk-forward / ensemble alignment logic.

    numpy arrays hold IEEE doubles, modelled by Rocq's primitive [float];
    one-dimensional arrays are [list float], two-dimensional ones are lists
    of rows.  Arrays and date lists are never written in place by this module
    (attributes are rebound to fresh slices), so they are values here.  The
    input dictionaries ARE updated in place ([self.X[key] = ...]) and live in
    an explicit store of dictionary objects addressed by location. *)

From Stdlib Require Import PrimFloat ZArith String Ascii.
From stdpp Require Import gmap strings list fin_maps.

Local Open Scope string_scope.
Local Open Scope list_scope.
Local Open Scope Z_scope.

(** ** Python and numpy primitives *)

Module Py.

(** Exceptions, by class.  [LibraryError] stands for whatever an external
    collaborator (loader, transform, model provider) raises; every class
    here derives from Python's [Exception]. *)
Inductive exn : Type :=
| NameError (name : string)
| TypeError
| ValueError
| KeyError (key : string)
| IndexError
| AssertionError (msg : string)
| AttributeError (name : string)
| LibraryError (tag : string).

Inductive result (A : Type) : Type :=
| Ok (a : A)
| Err (e : exn).
Arguments Ok {A} a.
Arguments Err {A} e.

(** Evaluation of an expression stops at the first exception. *)
Definition and_then {A B} (r : result A) (k : A -> result B) : result B :=
  match r with
  | Ok a => k a
  | Err e => Err e
  end.

(** [[f(a) for a in l]] for a callee that may raise. *)
Fixpoint map_r {A B} (f : A -> result B) (l : list A) : result (list B) :=
  match l with
  | [] => Ok []
  | a :: l' => and_then (f a) (fun b => and_then (map_r f l') (fun bs => Ok (b :: bs)))
  end.

(** A calendar date as a day number: [d + datetime.timedelta(6)] is [d + 6]. *)
Definition date : Type := Z.

(** Two-dimensional array: the list of its rows. *)
Definition matrix : Type := list (list float).

(** Normalisation of one slice bound against a sequence of length [n]:
    negative bounds count from the end, and everything is clamped. *)
Definition slice_bound (n : nat) (i : Z) : nat :=
  if i <? 0 then Z.to_nat (Z.of_nat n + i) else Nat.min (Z.to_nat i) n.

(** [l[i:]] *)
Definition slice_from {A} (i : Z) (l : list A) : list A :=
  drop (slice_bound (length l) i) l.

(** [l[:j]] *)
Definition slice_to {A} (j : Z) (l : list A) : list A :=
  take (slice_bound (length l) j) l.

(** [l[i:j]] *)
Definition slice {A} (i j : Z) (l : list A) : list A :=
  let s := slice_bound (length l) i in
  let e := slice_bound (length l) j in
  take (e - s)%nat (drop s l).

(** [l[i]] *)
Definition getitem {A} (l : list A) (i : Z) : result A :=
  let k := if i <? 0 then Z.of_nat (length l) + i else i in
  if k <? 0 then Err IndexError
  else match l !! Z.to_nat k with
       | Some x => Ok x
       | None => Err IndexError
       end.

(** [l.index(x)]: position of the first occurrence. *)
Fixpoint index_of (x : date) (l : list date) : option nat :=
  match l with
  | [] => None
  | y :: l' => if decide (y = x) then Some 0%nat else S <$> index_of x l'
  end.

Definition list_index (l : list date) (x : date) : result Z :=
  match index_of x l with
  | Some i => Ok (Z.of_nat i)
  | None => Err ValueError
  end.

(** [l * n] on lists: [n] copies of [l] end to end, none when [n <= 0]. *)
Definition list_mul {A} (l : list A) (n : Z) : list A :=
  concat (replicate (Z.to_nat n) l).

(** [np.insert(arr, 0, values)] on a one-dimensional array. *)
Definition np_insert0 (arr values : list float) : list float := values ++ arr.

(** [v[:, None]]: a vector as a one-column matrix. *)
Definition as_column (v : list float) : matrix := (fun x => [x]) <$> v.

(** [m[:, j]]: the [j]-th column of a matrix. *)
Definition column (j : nat) (m : matrix) : list float :=
  omap (fun row => row !! j) m.

(** [np.hstack] of two-dimensional blocks: row-wise concatenation.  numpy
    refuses an empty sequence and blocks whose row counts differ. *)
Definition hcat (a b : matrix) : matrix := zip_with app a b.

Definition hstack (blocks : list matrix) : result matrix :=
  match blocks with
  | [] => Err ValueError
  | b :: bs =>
      if forallb (fun b' => Nat.eqb (length b') (length b)) bs
      then Ok (foldl hcat b bs)
      else Err ValueError
  end.

(** The objects [slice] positions are computed from in [data_process]:
    an integer, or (for the default [AR_terms]) a string. *)
Inductive pyobj : Type :=
| PInt (z : Z)
| PStr (s : string).

(** [a[d:]] for a slice start of either kind: a string is not an index. *)
Definition slice_from_obj {A} (d : pyobj) (l : list A) : result (list A) :=
  match d with
  | PInt z => Ok (slice_from z l)
  | PStr _ => Err TypeError
  end.

(** [max(s)] on a non-empty string: the character with the largest code. *)
Definition ascii_max (a b : ascii) : ascii :=
  if (nat_of_ascii a <? nat_of_ascii b)%nat then b else a.

Fixpoint string_max (c : ascii) (s : string) : ascii :=
  match s with
  | EmptyString => c
  | String c' s' => string_max (ascii_max c c') s'
  end.

(** [max(l)] on a non-empty list of integers. *)
Definition list_max (z : Z) (l : list Z) : Z := foldl Z.max z l.

End Py.
Export Py.

(** ** State and exceptions

    A method body runs against a state [S] (the receiver, the dictionary
    store, the console).  It finishes normally, raises, or loops forever;
    in every case the state reached so far is returned, so that what an
    aborted call has already written stays visible. *)

Inductive outcome (A : Type) : Type :=
| Done (a : A)
| Raise (e : exn)
| Diverge.
Arguments Done {A} a.
Arguments Raise {A} e.
Arguments Diverge {A}.

Definition M (S A : Type) : Type := S -> outcome A * S.

Definition ret {S A} (a : A) : M S A := fun s => (Done a, s).

Definition bind {S A B} (m : M S A) (k : A -> M S B) : M S B :=
  fun s =>
    match m s with
    | (Done a, s') => k a s'
    | (Raise e, s') => (Raise e, s')
    | (Diverge, s') => (Diverge, s')
    end.

Definition raise {S A} (e : exn) : M S A := fun s => (Raise e, s).
Definition diverge {S A} : M S A := fun s => (Diverge, s).
Definition get {S} : M S S := fun s => (Done s, s).
Definition gets {S A} (f : S -> A) : M S A := fun s => (Done (f s), s).
Definition modify {S} (f : S -> S) : M S unit := fun s => (Done tt, f s).

(** Value or exception of a pure callee. *)
Definition lift {S A} (r : result A) : M S A :=
  match r with
  | Ok a => ret a
  | Err e => raise e
  end.

(** [try: body except Exception as e: handler e] (and the bare [except:]):
    the handler starts from the state the body had reached. *)
Definition try_except {S A} (body : M S A) (handler : exn -> M S A) : M S A :=
  fun s =>
    match body s with
    | (Raise e, s') => handler e s'
    | r => r
    end.

Definition when {S} (b : bool) (m : M S unit) : M S unit :=
  if b then m else ret tt.

Declare Scope py_scope.
Delimit Scope py_scope with py.
Notation "x <- m ;; k" := (bind m (fun x => k))
  (at level 100, m at next level, right associativity,
   format "'[v' x  <-  m  ;;  '/' k ']'") : py_scope.
Notation "m ;;; k" := (bind m (fun _ => k))
  (at level 100, right associativity,
   format "'[v' m  ;;;  '/' k ']'") : py_scope.
Local Open Scope py_scope.

(** [[f(a) for a in l]] and [for a in l: f(a)]. *)
Fixpoint map_m {S A B} (f : A -> M S B) (l : list A) : M S (list B) :=
  match l with
  | [] => ret []
  | a :: l' => b <- f a ;; bs <- map_m f l' ;; ret (b :: bs)
  end.

Fixpoint for_each {S A} (f : A -> M S unit) (l : list A) : M S unit :=
  match l with
  | [] => ret tt
  | a :: l' => f a ;;; for_each f l'
  end.

(** ** The world outside the receiver

    [dicts] is the store of dictionary objects: [Geo_model.inputs] and every
    [Predictor.X] are locations into it, and [self.X[key] = v] writes the
    object in place.  [stdout] collects what the [print] statements emit,
    one entry per statement. *)

Inductive pitem : Type :=
| PS (s : string)
| PE (e : exn)
| PD (d : date)
| PN (n : Z)
| PNow.

Abbreviation loc := positive.
Abbreviation pydict := (gmap string matrix).

Record world : Type := mkWorld {
  dicts : gmap loc pydict;
  stdout : list (list pitem)
}.

Definition dict_at (w : world) (l : loc) : pydict := default ∅ (dicts w !! l).

Definition set_dict (l : loc) (d : pydict) (w : world) : world :=
  {| dicts := <[l := d]> (dicts w); stdout := stdout w |}.

Definition emit (line : list pitem) (w : world) : world :=
  {| dicts := dicts w; stdout := stdout w ++ [line] |}.

(** A new dictionary object holding [d]. *)
Definition alloc_dict (d : pydict) (w : world) : loc * world :=
  let l := fresh (dom (dicts w)) in (l, set_dict l d w).

Definition print {T} (line : list pitem) : M (T * world) unit :=
  modify (fun s => (s.1, emit line s.2)).

Definition tab : string := String (ascii_of_nat 9) "".

(** ** The modules [models.py] calls into

    They are other modules of the package; each is taken at its interface.
    A callee either returns or raises. *)

(** The [AR_terms] argument of [data_process]. *)
Inductive ar_terms : Type :=
| ARNone
| ARInt (n : Z)
| ARList (lags : list Z)
| ARStr (s : string).

(** Keyword arguments passed through to the provider. *)
Definition kwargs : Type := list (string * pyobj).

(** [processing_functions]: the transforms act on arrays of either rank. *)
Record processing_functions : Type := {
  logit_percent : list float -> result (list float);
  logit_percent_2d : matrix -> result matrix;
  gtlog : matrix -> result matrix;
  inverse_logit_percent : list float -> result (list float);
  create_ar_stack : list float -> ar_terms -> result matrix
}.

(** [argo_class]: [ARGO(X, target, transform).make_predictions(method,
    horizon, training=, in_sample=, **params)]. *)
Record argo_class : Type := {
  make_predictions :
    matrix -> list float -> bool -> string -> Z -> Z -> bool -> kwargs ->
    result (list float)
}.

(** [argo_functions]: the ensemble dispatch table and the metrics report. *)
Record argo_functions : Type := {
  ensemble_dispatcher :
    string -> option (matrix -> list float -> Z -> Z -> bool -> result (list float));
  metrics : list float -> list float -> result unit
}.

(** The names visible in the module's namespace when a method runs.
    [models.py] imports [processing_functions], [argo_class] and [pandas];
    it has no import of [argo_functions], so that name is bound only if
    something else put it into the namespace: [None] is the module as
    written.  [dict_keys] is the interpreter's iteration order of a
    dictionary, which the language leaves unspecified. *)
Record globals : Type := {
  g_processing : processing_functions;
  g_argo_class : argo_class;
  g_argo_functions : option argo_functions;
  to_datetime : string -> result date;
  dict_keys : pydict -> list string
}.

(** The namespace with the name [argo_functions] rebound. *)
Definition with_argo_functions (af : option argo_functions) (G : globals) : globals :=
  {| g_processing := g_processing G;
     g_argo_class := g_argo_class G;
     g_argo_functions := af;
     to_datetime := to_datetime G;
     dict_keys := dict_keys G |}.

(** Resolving the global name [argo_functions]. *)
Definition lookup_argo_functions {S} (G : globals) : M S argo_functions :=
  match g_argo_functions G with
  | Some m => ret m
  | None => raise (NameError "argo_functions")
  end.

(** ** class Predictor *)

Module Predictor.

Record t : Type := mk {
  X : loc;
  target : list float;
  target_reserve : list float;
  label : string;
  start_date : string;
  datelist : list date;
  resolution : string;
  verbose : bool;
  transform_target : bool;
  predictions : option (list float)
}.

Definition set_target (v : list float) (p : t) : t :=
  mk (X p) v (target_reserve p) (label p) (start_date p) (datelist p)
     (resolution p) (verbose p) (transform_target p) (predictions p).
Definition set_target_reserve (v : list float) (p : t) : t :=
  mk (X p) (target p) v (label p) (start_date p) (datelist p)
     (resolution p) (verbose p) (transform_target p) (predictions p).
Definition set_datelist (v : list date) (p : t) : t :=
  mk (X p) (target p) (target_reserve p) (label p) (start_date p) v
     (resolution p) (verbose p) (transform_target p) (predictions p).
Definition set_transform_target (v : bool) (p : t) : t :=
  mk (X p) (target p) (target_reserve p) (label p) (start_date p) (datelist p)
     (resolution p) (verbose p) v (predictions p).
Definition set_predictions (v : option (list float)) (p : t) : t :=
  mk (X p) (target p) (target_reserve p) (label p) (start_date p) (datelist p)
     (resolution p) (verbose p) (transform_target p) v.

(** [__init__]: the arguments are stored as received; the reserve is a copy
    of the target. *)
Definition init (geo_model_inputs : loc) (target : list float) (label start_date : string)
    (datelist : list date) (resolution : string) (verbose : bool) (w : world) : t * world :=
  (mk geo_model_inputs target target label start_date datelist resolution verbose false None,
   emit [PS "Predictor object initialized: "; PS label]
     (emit [PS "-------------------------------------------------"] w)).

(** Method bodies run on the receiver and the world. *)
Definition st : Type := t * world.

Definition self {A} (f : t -> A) : M st A := gets (fun s => f s.1).
Definition assign (f : t -> t) : M st unit := modify (fun s => (f s.1, s.2)).

(** [self.X], [self.X[key]] and [self.X[key] = v]. *)
Definition read_X : M st pydict := gets (fun s => dict_at s.2 (X s.1)).
Definition write_X (d : pydict) : M st unit :=
  modify (fun s => (s.1, set_dict (X s.1) d s.2)).
Definition getitem_X (key : string) : M st matrix :=
  d <- read_X ;;
  match d !! key with
  | Some a => ret a
  | None => raise (KeyError key)
  end.
Definition setitem_X (key : string) (a : matrix) : M st unit :=
  d <- read_X ;; write_X (<[key := a]> d).

Definition truthy (a : ar_terms) : bool :=
  match a with
  | ARNone => false
  | ARInt n => negb (n =? 0)
  | ARList [] => false
  | ARList (_ :: _) => true
  | ARStr EmptyString => false
  | ARStr (String _ _) => true
  end.

(** [AR_terms if isinstance(AR_terms, (int, long)) else max(AR_terms)] *)
Definition discard_of (a : ar_terms) : result pyobj :=
  match a with
  | ARInt n => Ok (PInt n)
  | ARList (z :: l) => Ok (PInt (list_max z l))
  | ARList [] => Err ValueError
  | ARStr (String c s) => Ok (PStr (String (string_max c s) EmptyString))
  | ARStr EmptyString => Err ValueError
  | ARNone => Err TypeError
  end.

(** [for key in self.X: self.X[key] = self.X[key][discard:]].  With an
    integer every entry is sliced; with a string the first slice raises
    before anything is stored, whichever key comes first, and an empty
    dictionary runs no iteration. *)
Definition discard_inputs (discard : pyobj) : M st unit :=
  d <- read_X ;;
  match discard with
  | PInt z => write_X (slice_from z <$> d)
  | PStr _ => if decide (d = ∅) then ret tt else raise TypeError
  end.

(** The [while len(self.X.keys()) > 1] loop.  The key popped is always the
    first of a fresh key list; when that key is ['ar'] the body changes
    nothing and the loop test is evaluated again on the same state. *)
Definition ar_trim (G : globals) : M st unit :=
  d <- read_X ;;
  if (1 <? size d)%nat then
    match dict_keys G d with
    | [] => raise IndexError
    | other_key :: _ =>
        if decide (other_key = "ar") then diverge
        else
          ar <- getitem_X "ar" ;;
          other <- getitem_X other_key ;;
          setitem_X "ar" (slice_to (Z.of_nat (length other)) ar)
    end
  else ret tt.

(** The lines printed when a transform raises. *)
Definition target_error : string := tab +:+ "Error: target may contain 0 or NaNs.".
Definition ath_error : string := tab +:+ "Error: athenahealth data may contain 0 or NaNs.".
Definition gt_error : string := tab +:+ "Error: GT data may contain 0 or NaNs.".

Definition process_target (G : globals) (transform_target : bool) : M st unit :=
  when transform_target
    (try_except
       (tg <- self target ;;
        r <- lift (logit_percent (g_processing G) tg) ;;
        assign (set_target r) ;;;
        assign (set_transform_target true) ;;;
        v <- self verbose ;;
        when v (print [PS (tab +:+ "Target transformed.")]))
       (fun e =>
          print [PS target_error; PE e] ;;;
          assign (set_transform_target false))).

Definition process_ath (G : globals) (transform_ath : bool) : M st unit :=
  d <- read_X ;;
  when (transform_ath && bool_decide (is_Some (d !! "ath")))
    (try_except
       (a <- getitem_X "ath" ;;
        r <- lift (logit_percent_2d (g_processing G) a) ;;
        setitem_X "ath" r ;;;
        v <- self verbose ;;
        when v (print [PS (tab +:+ "Athenahealth transformed.")]))
       (fun e => print [PS ath_error; PE e])).

Definition process_gt (G : globals) (transform_gt : bool) : M st unit :=
  d <- read_X ;;
  when (transform_gt && bool_decide (is_Some (d !! "gt")))
    (try_except
       (a <- getitem_X "gt" ;;
        r <- lift (gtlog (g_processing G) a) ;;
        setitem_X "gt" r ;;;
        v <- self verbose ;;
        when v (print [PS (tab +:+ "Google Trends transformed.")]))
       (fun e => print [PS gt_error; PE e])).

Definition ar_text (a : ar_terms) : pitem :=
  match a with
  | ARInt n => PN n
  | ARStr s => PS s
  | ARNone => PS "None"
  | ARList _ => PS "[...]"
  end.

Definition process_ar (G : globals) (AR_terms : ar_terms) : M st unit :=
  when (truthy AR_terms)
    (discard <- lift (discard_of AR_terms) ;;
     discard_inputs discard ;;;
     dl <- self datelist ;;
     dl' <- lift (slice_from_obj discard dl) ;;
     assign (set_datelist dl') ;;;
     try_except
       (tg <- self target ;;
        ar <- lift (create_ar_stack (g_processing G) tg AR_terms) ;;
        setitem_X "ar" ar ;;;
        ar_trim G ;;;
        v <- self verbose ;;
        when v (print [PS (tab +:+ "AR"); ar_text AR_terms; PS " matrix created."]))
       (fun e => print [PS "Error: AR matrix creation unsuccessful."; PE e]) ;;;
     tg <- self target ;;
     tg' <- lift (slice_from_obj discard tg) ;;
     assign (set_target tg') ;;;
     tr <- self target_reserve ;;
     tr' <- lift (slice_from_obj discard tr) ;;
     assign (set_target_reserve tr')).

(** The default of the [AR_terms] parameter is the string ['None']. *)
Definition AR_terms_default : ar_terms := ARStr "None".

Definition announce : M st unit :=
  v <- self verbose ;;
  lb <- self label ;;
  when v (print [PS ("Processing data for " +:+ lb +:+ ": ")]).

Definition data_process (G : globals)
    (transform_target transform_ath transform_gt : bool) (AR_terms : ar_terms) : M st unit :=
  announce ;;;
  process_target G transform_target ;;;
  process_ath G transform_ath ;;;
  process_gt G transform_gt ;;;
  process_ar G AR_terms.

(** The [input_vars] and [train_len] arguments of [predict]. *)
Inductive input_vars : Type :=
| IVAll
| IVList (terms : list string).

Inductive train_len_arg : Type :=
| TLDefault
| TLInt (n : Z).

(** [d[key]] *)
Definition dict_getitem (d : pydict) (key : string) : result matrix :=
  match d !! key with
  | Some a => Ok a
  | None => Err (KeyError key)
  end.

(** [np.hstack([self.X['ath'], self.X['gt'], self.X['ar']])], or the
    blocks the caller names: an expression over the dictionary. *)
Definition stacked (d : pydict) (iv : input_vars) : result matrix :=
  and_then
    (map_r (dict_getitem d)
       match iv with
       | IVAll => ["ath"; "gt"; "ar"]
       | IVList terms => terms
       end)
    hstack.

Definition stack_inputs (iv : input_vars) : M st matrix :=
  d <- read_X ;; lift (stacked d iv).

(** The default window: 104 for weeks, 24 for months; with any other
    resolution [train_len] stays the string ['default'] ([None] here). *)
Definition resolve_train_len (tl : train_len_arg) (resolution : string) : option Z :=
  match tl with
  | TLInt n => Some n
  | TLDefault =>
      if decide (resolution = "week") then Some 104
      else if decide (resolution = "month") then Some 24
      else None
  end.

(** [self.predictions] used as an array: [None] supports none of the
    operations applied to it. *)
Definition read_predictions : M st (list float) :=
  p <- self predictions ;;
  match p with
  | Some a => ret a
  | None => raise TypeError
  end.

Definition not_enough_data : string :=
  tab +:+ "Error: Not enough data before prediction start date".

(** [predict] is laid out as in the source: pre-prediction processing,
    the provider run, post-prediction processing, the metrics report.  The
    first part hands the stacked inputs and the resolved window width to
    the second. *)
Definition pre_prediction (G : globals) (iv : input_vars) (method : string)
    (train_len : train_len_arg) (in_sample : bool) : M st (matrix * Z) :=
  v <- self verbose ;;
  lb <- self label ;;
  when v (print [PS ("Running method for " +:+ lb +:+ ": "); PS method]) ;;;
  X_stack <- stack_inputs iv ;;
  res <- self resolution ;;
  sd <- self start_date ;;
  d <- lift (to_datetime G sd) ;;
  dl <- self datelist ;;
  shift <- lift (list_index dl d) ;;
  train_len <- match resolve_train_len train_len res with
               | Some n => ret n
               | None => raise TypeError
               end ;;
  let shift_vars := shift - train_len in
  let shift_dates := shift - train_len * (if in_sample then 1 else 0) in
  (if 0 <=? shift_vars then ret tt else raise (AssertionError not_enough_data)) ;;;
  when v
    (when in_sample
       (x <- lift (getitem dl shift_dates) ;;
        print [PS (tab +:+ "First in sample prediction: "); PD x]) ;;;
     x <- lift (getitem dl shift) ;;
     print [PS (tab +:+ "First out of sample prediction: "); PD x]) ;;;
  tg <- self target ;;
  assign (set_target (slice_from shift_vars tg)) ;;;
  tr <- self target_reserve ;;
  assign (set_target_reserve (slice_from shift_vars tr)) ;;;
  assign (set_datelist (slice_from shift_dates dl)) ;;;
  ret (slice_from shift_vars X_stack, train_len).

Definition run_prediction (G : globals) (X_stack : matrix) (method : string)
    (horizon train_len : Z) (in_sample : bool) (params : kwargs) : M st unit :=
  v <- self verbose ;;
  tg <- self target ;;
  dl <- self datelist ;;
  when v
    (print [PS (tab +:+ "Target length: "); PN (Z.of_nat (length tg));
            PS (tab +:+ "Predictor length: "); PN (Z.of_nat (length X_stack))] ;;;
     print [PS (tab +:+ "Prediction length: ");
            PN (Z.of_nat (length dl) + (horizon - 3))]) ;;;
  flag <- self transform_target ;;
  raw <- lift (make_predictions (g_argo_class G) X_stack tg flag method horizon
                 train_len in_sample params) ;;
  assign (set_predictions (Some raw)).

Definition post_prediction (G : globals) (horizon train_len : Z) (in_sample : bool) :
    M st unit :=
  flag <- self transform_target ;;
  when flag
    (p <- read_predictions ;;
     p' <- lift (inverse_logit_percent (g_processing G) p) ;;
     assign (set_predictions (Some p')) ;;;
     tg <- self target ;;
     tg' <- lift (inverse_logit_percent (g_processing G) tg) ;;
     assign (set_target tg')) ;;;
  when (negb in_sample)
    (tg <- self target ;;
     assign (set_target (slice_from train_len tg))) ;;;
  p <- read_predictions ;;
  assign (set_predictions (Some (np_insert0 p (list_mul [nan] (horizon * 2))))).

(** [try: argo_functions.metrics(...) except: 'Metric reporting error.'];
    the handler is a bare string expression and prints nothing. *)
Definition report_metrics (G : globals) (horizon : Z) : M st unit :=
  try_except
    (af <- lookup_argo_functions G ;;
     p <- read_predictions ;;
     tg <- self target ;;
     lift (metrics af (slice (2 * horizon) (- (1 + horizon)) p)
                      (slice_from (2 * horizon) tg)))
    (fun _ => ret tt).

Definition predict (G : globals) (iv : input_vars) (method : string) (horizon : Z)
    (train_len : train_len_arg) (in_sample : bool) (params : kwargs) : M st unit :=
  pre <- pre_prediction G iv method train_len in_sample ;;
  let X_stack := pre.1 in
  let train_len := pre.2 in
  run_prediction G X_stack method horizon train_len in_sample params ;;;
  post_prediction G horizon train_len in_sample ;;;
  report_metrics G horizon ;;;
  v <- self verbose ;;
  when v
    (print [PS "Prediction complete."] ;;;
     print [PS "-------------------------------------------------"]).

End Predictor.

(** ** class Ens_predictor

    Built from keyword arguments only; [ensemble] passes these four. *)

Module Ens_predictor.

Record t : Type := mk {
  target : list float;
  predictions : list float;
  label : string;
  datelist : list date
}.

End Ens_predictor.

(** An entry of [Geo_model.model_list]: the two classes are used through
    the attributes [label], [target], [predictions] and [datelist] only. *)
Inductive model : Type :=
| MPredictor (p : Predictor.t)
| MEns (e : Ens_predictor.t).

Definition model_label (m : model) : string :=
  match m with
  | MPredictor p => Predictor.label p
  | MEns e => Ens_predictor.label e
  end.

Definition model_target (m : model) : list float :=
  match m with
  | MPredictor p => Predictor.target p
  | MEns e => Ens_predictor.target e
  end.

Definition model_datelist (m : model) : list date :=
  match m with
  | MPredictor p => Predictor.datelist p
  | MEns e => Ens_predictor.datelist e
  end.

Definition model_predictions (m : model) : option (list float) :=
  match m with
  | MPredictor p => Predictor.predictions p
  | MEns e => Some (Ens_predictor.predictions e)
  end.

(** The three attribute assignments of [save_predictions]. *)
Definition model_reslice (dl : list date) (tg pr : list float) (m : model) : model :=
  match m with
  | MPredictor p =>
      MPredictor (Predictor.set_predictions (Some pr)
                    (Predictor.set_target tg (Predictor.set_datelist dl p)))
  | MEns e => MEns (Ens_predictor.mk tg pr (Ens_predictor.label e) dl)
  end.

(** ** class Geo_model *)

Module Geo_model.

(** The attributes read by the methods below, for a model whose data has
    been loaded ([geo_level], [geo_id] and [use_data_from] only reach the
    loaders). *)
Record t : Type := mk {
  resolution : string;
  pred_start_date : string;
  verbose : bool;
  inputs : loc;
  target : list float;
  datelist : list date;
  model_list : list model
}.

Definition set_model_list (l : list model) (g : t) : t :=
  mk (resolution g) (pred_start_date g) (verbose g) (inputs g) (target g) (datelist g) l.

Definition st : Type := t * world.

Definition self {A} (f : t -> A) : M st A := gets (fun s => f s.1).
Definition assign (f : t -> t) : M st unit := modify (fun s => (f s.1, s.2)).

(** [Predictor(copy.deepcopy(self.inputs), np.copy(self.target), label,
    self.pred_start_date, copy.copy(self.datelist), self.resolution,
    self.verbose)]: the deep copy is a new dictionary object with the same
    contents. *)
Definition new_predictor (label : result string) : M st Predictor.t :=
  fun s =>
    let g := s.1 in
    let (l, w1) := alloc_dict (dict_at s.2 (inputs g)) s.2 in
    match label with
    | Err e => (Raise e, (g, w1))
    | Ok lb =>
        let (p, w2) := Predictor.init l (target g) lb (pred_start_date g)
                         (datelist g) (resolution g) (verbose g) w1 in
        (Done p, (g, w2))
    end.

(** [init_predictor]: the new object is appended to [model_list] and
    returned; it is identified here by its position in the list. *)
Definition init_predictor (label : string) : M st nat :=
  p <- new_predictor (Ok label) ;;
  ms <- self model_list ;;
  assign (set_model_list (ms ++ [MPredictor p])) ;;;
  ret (length ms).

(** A method call on the [i]-th entry of [model_list], which must be a
    [Predictor] ([Ens_predictor] has none of its methods). *)
Definition on_predictor {A} (i : nat) (name : string) (m : M Predictor.st A) : M st A :=
  fun s =>
    match model_list s.1 !! i with
    | None => (Raise IndexError, s)
    | Some (MEns _) => (Raise (AttributeError name), s)
    | Some (MPredictor p) =>
        let (r, s') := m (p, s.2) in
        (r, (set_model_list (<[i := MPredictor s'.1]> (model_list s.1)) s.1, s'.2))
    end.

Definition process_spec : Type := bool * bool * bool * ar_terms.
Definition predict_spec : Type :=
  Predictor.input_vars * string * Z * Predictor.train_len_arg * bool.

Definition run_data_process (G : globals) (i : nat) (a : process_spec) : M st unit :=
  let '(tt_, ta, tgt, ar) := a in
  on_predictor i "data_process" (Predictor.data_process G tt_ ta tgt ar).

Definition run_predict (G : globals) (i : nat) (a : predict_spec) (params : kwargs) :
    M st unit :=
  let '(iv, method, horizon, tl, ins) := a in
  on_predictor i "predict" (Predictor.predict G iv method horizon tl ins params).

(** A call made on one of the predictors of [model_list]. *)
Inductive call : Type :=
| DataProcess (a : process_spec)
| Predict (b : predict_spec) (params : kwargs).

Definition perform (G : globals) (i : nat) (c : call) : M st unit :=
  match c with
  | DataProcess a => run_data_process G i a
  | Predict b params => run_predict G i b params
  end.

(** [init_prediction_layer]: [model_list] is replaced by [n_models] new
    predictors, then each is processed and run in turn. *)
Definition init_prediction_layer (G : globals) (n_models : Z) (labels : list string)
    (process_specs : list process_spec) (predict_specs : list predict_spec) : M st unit :=
  ps <- map_m
          (fun i => new_predictor (getitem labels (Z.of_nat i)))
          (seq 0 (Z.to_nat n_models)) ;;
  assign (set_model_list (MPredictor <$> ps)) ;;;
  ms <- self model_list ;;
  for_each
    (fun i =>
       a <- lift (getitem process_specs (Z.of_nat i)) ;;
       perform G i (DataProcess a) ;;;
       b <- lift (getitem predict_specs (Z.of_nat i)) ;;
       perform G i (Predict b []))
    (seq 0 (length ms)).

(** [[m for m in self.model_list if m.label in ind_labels]] *)
Definition compat_list (ms : list model) (ind_labels : list string) : list model :=
  filter (fun m => model_label m ∈ ind_labels) ms.

(** [x.predictions[2 * horizon:, None]] *)
Definition compat_pred (horizon : Z) (x : model) : result matrix :=
  match model_predictions x with
  | Some p => Ok (as_column (slice_from (2 * horizon) p))
  | None => Err TypeError
  end.

Definition ensemble (G : globals) (method ens_label : string) (ind_labels : list string)
    (horizon train_len : Z) (in_sample : bool) : M st unit :=
  v <- self verbose ;;
  when v (print [PS "Running ensemble model: "; PS method]) ;;;
  ms <- self model_list ;;
  let compat := compat_list ms ind_labels in
  compat_pred_list <- lift (map_r (compat_pred horizon) compat) ;;
  model_stack <- lift (hstack compat_pred_list) ;;
  first <- lift (getitem compat 0) ;;
  let ens_target := model_target first in
  let ens_datelist := model_datelist first in
  af <- lookup_argo_functions G ;;
  run <- match ensemble_dispatcher af method with
         | Some f => ret f
         | None => raise (KeyError method)
         end ;;
  ens_pred <- lift (run model_stack ens_target horizon train_len in_sample) ;;
  let ens_target := if in_sample then ens_target else slice_from train_len ens_target in
  let ens_datelist := if in_sample then ens_datelist else slice_from train_len ens_datelist in
  let ens_pred := np_insert0 ens_pred (list_mul (list_mul [nan] horizon) 2) in
  lift (metrics af (slice (2 * horizon) (- (1 + horizon)) ens_pred)
                   (slice_from (2 * horizon) ens_target)) ;;;
  ms <- self model_list ;;
  assign (set_model_list
            (ms ++ [MEns (Ens_predictor.mk ens_target ens_pred ens_label ens_datelist)])).

(** The [model_labels] argument of [save_predictions]: the string ['all'],
    a list of labels, or an object on which [in] is not defined. *)
Inductive labels_arg : Type :=
| LabelsAll
| LabelsList (l : list string)
| LabelsOther.

(** The models [save_predictions] works on are objects of [model_list];
    a selection is the list of their positions. *)
Definition positions (ms : list model) : list nat := seq 0 (length ms).

Definition matching (ms : list model) (l : list string) : list nat :=
  (filter (fun im => model_label im.2 ∈ l) (zip (positions ms) ms)).*1.

Definition select (model_labels : labels_arg) : M st (list nat) :=
  ms <- self model_list ;;
  match model_labels with
  | LabelsAll => ret (positions ms)
  | _ =>
      try_except
        (match model_labels with
         | LabelsList l => ret (matching ms l)
         | _ => match ms with
                | [] => ret []
                | _ :: _ => raise TypeError
                end
         end)
        (fun _ =>
           print [PS (tab +:+ "Error in specified model labels. Printing all models to file.")] ;;;
           ret (positions ms))
  end.

(** One iteration of the re-indexing loop, on the model at position [i];
    it yields the column [pd.Series(model.predictions, name=model.label)]. *)
Definition reindex (G : globals) (i : nat) : M st (string * list float) :=
  ms <- self model_list ;;
  m <- lift (getitem ms (Z.of_nat i)) ;;
  psd <- self pred_start_date ;;
  d <- lift (to_datetime G psd) ;;
  shift <- lift (list_index (model_datelist m) d) ;;
  let dl := slice_from shift (model_datelist m) in
  let tg := slice_from shift (model_target m) in
  match model_predictions m with
  | None =>
      let m' := match m with
                | MPredictor p =>
                    MPredictor (Predictor.set_target tg (Predictor.set_datelist dl p))
                | MEns _ => m
                end in
      assign (set_model_list (<[i := m']> ms)) ;;;
      raise TypeError
  | Some pr =>
      let pr := slice_from shift pr in
      assign (set_model_list (<[i := model_reslice dl tg pr m]> ms)) ;;;
      ret (model_label m, pr)
  end.

(** The table handed to [to_csv]. *)
Record table : Type := mkTable {
  col_week : list date;
  col_target : list float;
  col_preds : list (string * list float)
}.

Definition save_predictions (G : globals) (model_labels : labels_arg)
    (end_saturday : bool) : M st table :=
  v <- self verbose ;;
  when v (print [PS "Saving predictions to file. "]) ;;;
  s <- select model_labels ;;
  preds <- map_m (reindex G) s ;;
  ms <- self model_list ;;
  i0 <- lift (getitem s 0) ;;
  m0 <- lift (getitem ms (Z.of_nat i0)) ;;
  let tmp := model_datelist m0 in
  let tmp := if end_saturday then (fun x => x + 6) <$> tmp else tmp in
  print [PS (String (ascii_of_nat 10) ""); PNow] ;;;
  print [PS "----------------------END-----------------------"] ;;;
  ret (mkTable tmp (model_target m0) preds).

End Geo_model.

(** ** Ownership of the input dictionaries

    [frames m]: the method body [m] keeps the receiver's [X] pointing at
    the same dictionary object, writes no other dictionary, and does not
    lose its own. *)
Definition frames {A} (m : M Predictor.st A) : Prop :=
  forall s,
    Predictor.X (m s).2.1 = Predictor.X s.1 /\
    (forall l, l <> Predictor.X s.1 -> dicts (m s).2.2 !! l = dicts s.2 !! l) /\
    (is_Some (dicts s.2 !! Predictor.X s.1) ->
     is_Some (dicts (m s).2.2 !! Predictor.X s.1)).

(** [separated s]: the orchestrator's dictionary and those of its
    predictors are distinct objects of the store. *)
Definition separated (s : Geo_model.st) : Prop :=
  is_Some (dicts s.2 !! Geo_model.inputs s.1) /\
  (forall i p, Geo_model.model_list s.1 !! i = Some (MPredictor p) ->
     is_Some (dicts s.2 !! Predictor.X p) /\
     Predictor.X p <> Geo_model.inputs s.1) /\
  (forall i j p q, i <> j ->
     Geo_model.model_list s.1 !! i = Some (MPredictor p) ->
     Geo_model.model_list s.1 !! j = Some (MPredictor q) ->
     Predictor.X p <> Predictor.X q).

(** [only_touches i s s']: going from [s] to [s'] left the orchestrator's
    own data, its dictionary, every entry of [model_list] other than the
    [i]-th and the dictionaries of those entries exactly as they were. *)
Definition only_touches (i : nat) (s s' : Geo_model.st) : Prop :=
  Geo_model.inputs s'.1 = Geo_model.inputs s.1 /\
  Geo_model.target s'.1 = Geo_model.target s.1 /\
  Geo_model.datelist s'.1 = Geo_model.datelist s.1 /\
  dicts s'.2 !! Geo_model.inputs s.1 = dicts s.2 !! Geo_model.inputs s.1 /\
  (forall j, j <> i ->
     Geo_model.model_list s'.1 !! j = Geo_model.model_list s.1 !! j /\
     forall q, Geo_model.model_list s.1 !! j = Some (MPredictor q) ->
               dicts s'.2 !! Predictor.X q = dicts s.2 !! Predictor.X q).

(** [preserves P m]: running [m] from a state satisfying [P] ends, however
    it ends, in a state satisfying [P]. *)
Definition preserves {S A} (P : S -> Prop) (m : M S A) : Prop :=
  forall s, P s -> P (m s).2.

(** ** A concrete namespace

    Stand-ins for the collaborators, used to run the embedding on examples:
    a halving / doubling pair of transforms that refuses zeros and NaNs, a
    provider whose forecast is the target past the training window,
    shifted by the horizon, with the last value repeated once, a row-mean ensemble, a metrics report that
    insists on equal lengths, and ISO dates counted in days. *)

Module Sample.

Definition bad (x : float) : bool := PrimFloat.eqb x 0 || negb (PrimFloat.eqb x x).

Definition halve (l : list float) : result (list float) :=
  if existsb bad l then Err (LibraryError "zero or NaN")
  else Ok ((fun x => PrimFloat.div x 2) <$> l).

Definition halve_2d (m : matrix) : result matrix :=
  if existsb (existsb bad) m then Err (LibraryError "zero or NaN")
  else Ok (List.map (fun x => PrimFloat.div x 2) <$> m).

Definition double (l : list float) : result (list float) :=
  Ok ((fun x => PrimFloat.mul x 2) <$> l).

Definition lags (n : nat) (tg : list float) : matrix :=
  (fun i => reverse (take n (drop i tg))) <$> seq 0 (length tg + 1 - n).

Definition ar_stack (tg : list float) (a : ar_terms) : result matrix :=
  match a with
  | ARInt n => Ok (lags (Z.to_nat n) tg)
  | ARList (z :: l) => Ok (lags (Z.to_nat (list_max z l)) tg)
  | _ => Err TypeError
  end.

Definition processing : processing_functions :=
  {| logit_percent := halve;
     logit_percent_2d := halve_2d;
     gtlog := halve_2d;
     inverse_logit_percent := double;
     create_ar_stack := ar_stack |}.

Definition persistence (X : matrix) (tg : list float) (flag : bool) (method : string)
    (horizon training : Z) (in_sample : bool) (params : kwargs) : result (list float) :=
  if decide (method = "ARGO") then
    let body := if in_sample then tg else slice_from training tg in
    Ok (slice_from horizon (body ++ [List.last tg 0%float]))
  else Err (KeyError method).

Definition provider : argo_class := {| make_predictions := persistence |}.

Definition count (row : list float) : float :=
  foldl (fun n _ => PrimFloat.add n 1) 0%float row.

Definition row_mean (row : list float) : float :=
  PrimFloat.div (foldl PrimFloat.add 0%float row) (count row).

Definition mean_ensemble (stack : matrix) (tg : list float) (horizon training : Z)
    (in_sample : bool) : result (list float) :=
  Ok (row_mean <$> (if in_sample then stack else slice_from training stack)).

Definition same_length (a b : list float) : result unit :=
  if Nat.eqb (length a) (length b) then Ok tt else Err ValueError.

Definition functions : argo_functions :=
  {| ensemble_dispatcher :=
       fun method => if decide (method = "mean") then Some mean_ensemble else None;
     metrics := same_length |}.

Definition digit (c : ascii) : option Z :=
  let n := Z.of_nat (nat_of_ascii c) in
  if (48 <=? n) && (n <=? 57) then Some (n - 48) else None.

Fixpoint number (acc : Z) (s : string) : option Z :=
  match s with
  | EmptyString => Some acc
  | String c s' => d ← digit c; number (10 * acc + d) s'
  end.

(** Days since 1970-01-01 of a proleptic Gregorian date. *)
Definition days_from_civil (y m d : Z) : Z :=
  let y := if m <=? 2 then y - 1 else y in
  let era := y / 400 in
  let yoe := y - era * 400 in
  let doy := (153 * (if 2 <? m then m - 3 else m + 9) + 2) / 5 + d - 1 in
  let doe := yoe * 365 + yoe / 4 - yoe / 100 + doy in
  era * 146097 + doe - 719468.

Definition iso_date (s : string) : result date :=
  match number 0 (substring 0 4 s), number 0 (substring 5 2 s),
        number 0 (substring 8 2 s) with
  | Some y, Some m, Some d =>
      if decide (String.length s = 10%nat) then Ok (days_from_civil y m d)
      else Err ValueError
  | _, _, _ => Err ValueError
  end.

Definition keys (d : pydict) : list string := (map_to_list d).*1.

(** The namespace of [models.py] as written: [argo_functions] unbound. *)
Definition as_written : globals :=
  {| g_processing := processing;
     g_argo_class := provider;
     g_argo_functions := None;
     to_datetime := iso_date;
     dict_keys := keys |}.

(** The same namespace once [argo_functions] has been bound in it. *)
Definition bound : globals :=
  {| g_processing := processing;
     g_argo_class := provider;
     g_argo_functions := Some functions;
     to_datetime := iso_date;
     dict_keys := keys |}.

(** Six weeks from 2013-01-06, a five-point target, inputs one step longer. *)
Definition weeks : list date := (fun k => 15711 + 7 * Z.of_nat k) <$> seq 0 6.

Definition series : list float := [1; 2; 3; 4; 5]%float.

Definition inputs : pydict :=
  <["ath" := [[10]; [20]; [30]; [40]; [50]; [60]]%float]>
    (<["gt" := [[1; 2]; [3; 4]; [5; 6]; [7; 8]; [9; 10]; [11; 12]]%float]> ∅).

Definition world0 : world := mkWorld (<[1%positive := inputs]> ∅) [].

Definition geo (start : string) : Geo_model.t :=
  Geo_model.mk "week" start false 1%positive series weeks [].

(** A predictor holding the loaded data (its dictionary is the one at
    location 1), to start on 2013-01-20, the third week. *)
Definition unit0 : Predictor.t :=
  Predictor.mk 1%positive series series "A" "2013-01-20" weeks "week" false false None.

(** The same predictor when the target starts with a zero. *)
Definition unit_zero : Predictor.t :=
  Predictor.set_target [0; 2; 3; 4; 5]%float unit0.

(** The same with no athenahealth block among its inputs. *)
Definition world_gt : world :=
  mkWorld (<[1%positive := delete "ath" inputs]> ∅) [].

(** Two predictors "A" and "B" built, processed with one autoregressive
    term and run at horizon 1 with a one-week window. *)
Definition layer (G : globals) : M Geo_model.st unit :=
  Geo_model.init_prediction_layer G 2 ["A"; "B"]
    [(false, false, false, ARInt 1); (true, true, false, ARInt 1)]
    [(Predictor.IVAll, "ARGO", 1, Predictor.TLInt 1, false);
     (Predictor.IVList ["gt"; "ar"], "ARGO", 1, Predictor.TLInt 1, false)].

Definition trained_geo (G : globals) : Geo_model.t :=
  (layer G (geo "2013-01-20", world0)).2.1.

Definition trained_world (G : globals) : world :=
  (layer G (geo "2013-01-20", world0)).2.2.

End Sample.

(** ** [ensemble], in two parts

    The body of [Geo_model.ensemble] cut in front of its metrics report:
    [ensemble_before_report] is the code up to and including [np.insert]
    (selection, stacking, reference series, dispatch, window and padding),
    [ensemble_report_and_register] the report and the [append] after it. *)
Definition ensemble_before_report (G : globals) (method : string)
    (ind_labels : list string) (horizon train_len : Z) (in_sample : bool) :
    M Geo_model.st (argo_functions * (list float * list float * list date)) :=
  v <- Geo_model.self Geo_model.verbose ;;
  when v (print [PS "Running ensemble model: "; PS method]) ;;;
  ms <- Geo_model.self Geo_model.model_list ;;
  let compat := Geo_model.compat_list ms ind_labels in
  compat_pred_list <- lift (map_r (Geo_model.compat_pred horizon) compat) ;;
  model_stack <- lift (hstack compat_pred_list) ;;
  first <- lift (getitem compat 0) ;;
  let ens_target := model_target first in
  let ens_datelist := model_datelist first in
  af <- lookup_argo_functions G ;;
  run <- match ensemble_dispatcher af method with
         | Some f => ret f
         | None => raise (KeyError method)
         end ;;
  ens_pred <- lift (run model_stack ens_target horizon train_len in_sample) ;;
  let ens_target := if in_sample then ens_target else slice_from train_len ens_target in
  let ens_datelist := if in_sample then ens_datelist else slice_from train_len ens_datelist in
  let ens_pred := np_insert0 ens_pred (list_mul (list_mul [nan] horizon) 2) in
  ret (af, (ens_pred, ens_target, ens_datelist)).

Definition ensemble_report_and_register (af : argo_functions) (ens_label : string)
    (horizon : Z) (ens_pred ens_target : list float) (ens_datelist : list date) :
    M Geo_model.st unit :=
  lift (metrics af (slice (2 * horizon) (- (1 + horizon)) ens_pred)
                   (slice_from (2 * horizon) ens_target)) ;;;
  ms <- Geo_model.self Geo_model.model_list ;;
  Geo_model.assign
    (Geo_model.set_model_list
       (ms ++ [MEns (Ens_predictor.mk ens_target ens_pred ens_label ens_datelist)])).

(** ** Loading the data of a [Geo_model]

    [loading_functions] is another module of the package, taken at its
    interface like the others: a loader returns the series it read from
    the file it was given, or raises.  [load_athena] is always called with
    [smoothing=None]. *)
Record loading_functions : Type := {
  load_target : option string -> string -> option pyobj -> string -> result (list float);
  load_gt : string -> string -> result matrix;
  load_athena : string -> string -> option pyobj -> string -> result matrix;
  load_fny : string -> string -> result matrix;
  validate_vars : pydict -> list float -> result (pydict * list float);
  create_datelist : pydict -> list float -> string -> string -> result (list date);
  load_singlefile :
    string -> string -> string -> kwargs -> result (list float * pydict * string)
}.

Module Geo_model_load.

(** The attributes of a [Geo_model] that only the loaders are handed. *)
Record region : Type := mkRegion {
  geo_level : string;
  geo_id : option pyobj;
  use_data_from : string
}.

Definition set_target (tg : list float) (g : Geo_model.t) : Geo_model.t :=
  Geo_model.mk (Geo_model.resolution g) (Geo_model.pred_start_date g)
    (Geo_model.verbose g) (Geo_model.inputs g) tg (Geo_model.datelist g)
    (Geo_model.model_list g).

Definition set_datelist (dl : list date) (g : Geo_model.t) : Geo_model.t :=
  Geo_model.mk (Geo_model.resolution g) (Geo_model.pred_start_date g)
    (Geo_model.verbose g) (Geo_model.inputs g) (Geo_model.target g) dl
    (Geo_model.model_list g).

Definition set_inputs (l : loc) (g : Geo_model.t) : Geo_model.t :=
  Geo_model.mk (Geo_model.resolution g) (Geo_model.pred_start_date g)
    (Geo_model.verbose g) l (Geo_model.target g) (Geo_model.datelist g)
    (Geo_model.model_list g).

(** [self.inputs], [self.inputs[key] = a] (the object is written in
    place) and [self.inputs = d] (the attribute is bound to the object the
    callee returned, taken as a new one: the methods of this file only ever
    deep-copy [self.inputs], so they cannot tell). *)
Definition read_inputs : M Geo_model.st pydict :=
  gets (fun s => dict_at s.2 (Geo_model.inputs s.1)).

Definition setitem_inputs (key : string) (a : matrix) : M Geo_model.st unit :=
  modify (fun s =>
    (s.1, set_dict (Geo_model.inputs s.1)
            (<[key := a]> (dict_at s.2 (Geo_model.inputs s.1))) s.2)).

Definition rebind_inputs (d : pydict) : M Geo_model.st unit :=
  fun s => let (l, w1) := alloc_dict d s.2 in (Done tt, (set_inputs l s.1, w1)).

(** [if file:] holds for a file name other than [None] and ['']. *)
Definition given (file : option string) : option string :=
  match file with
  | Some f => if decide (f = "") then None else Some f
  | None => None
  end.

(** One optional source:
    [if file: try: self.inputs[key] = loader(file) except Exception as e: print msg, e] *)
Definition load_source (key : string) (file : option string)
    (loader : string -> result matrix) (msg : string) : M Geo_model.st unit :=
  match given file with
  | Some f =>
      try_except
        (a <- lift (loader f) ;; setitem_inputs key a)
        (fun e => print [PS msg; PE e])
  | None => ret tt
  end.

Definition data_load (L : loading_functions) (R : region)
    (target_file gt_file ath_file fny_file : option string) : M Geo_model.st unit :=
  v <- Geo_model.self Geo_model.verbose ;;
  when v (print [PS "Loading data sources:"]) ;;;
  tg <- lift (load_target L target_file (geo_level R) (geo_id R) (use_data_from R)) ;;
  Geo_model.assign (set_target tg) ;;;
  load_source "gt" gt_file (fun f => load_gt L f (use_data_from R))
    "Error loading GT. " ;;;
  load_source "ath" ath_file
    (fun f => load_athena L f (geo_level R) (geo_id R) (use_data_from R))
    "Error loading ath. " ;;;
  load_source "fny" fny_file (fun f => load_fny L f (use_data_from R))
    "Error loading FNY. " ;;;
  d <- read_inputs ;;
  tg <- Geo_model.self Geo_model.target ;;
  r <- lift (validate_vars L d tg) ;;
  rebind_inputs r.1 ;;;
  Geo_model.assign (set_target r.2) ;;;
  d <- read_inputs ;;
  tg <- Geo_model.self Geo_model.target ;;
  res <- Geo_model.self Geo_model.resolution ;;
  dl <- lift (create_datelist L d tg (use_data_from R) res) ;;
  Geo_model.assign (set_datelist dl).

Definition data_load_from_file (L : loading_functions) (file_loc date_col target_col : string)
    (otherdata : kwargs) : M Geo_model.st unit :=
  r <- lift (load_singlefile L file_loc date_col target_col otherdata) ;;
  Geo_model.assign (set_target r.1.1) ;;;
  rebind_inputs r.1.2 ;;;
  d <- read_inputs ;;
  tg <- Geo_model.self Geo_model.target ;;
  res <- Geo_model.self Geo_model.resolution ;;
  dl <- lift (create_datelist L d tg r.2 res) ;;
  Geo_model.assign (set_datelist dl).

End Geo_model_load.

(** The sources a [data_load] call adds to the dictionary it finds: those
    whose file was given and whose loader returned. *)
Definition with_source (key : string) (file : option string)
    (loader : string -> result matrix) (d : pydict) : pydict :=
  match Geo_model_load.given file with
  | Some f => match loader f with
              | Ok a => <[key := a]> d
              | Err _ => d
              end
  | None => d
  end.

(** The sources [data_load] was given, merged into the dictionary it found. *)
Definition merged (L : loading_functions) (R : Geo_model_load.region)
    (gt_file ath_file fny_file : option string) (d : pydict) : pydict :=
  with_source "fny" fny_file (fun f => load_fny L f (Geo_model_load.use_data_from R))
    (with_source "ath" ath_file
       (fun f => load_athena L f (Geo_model_load.geo_level R) (Geo_model_load.geo_id R)
                   (Geo_model_load.use_data_from R))
       (with_source "gt" gt_file (fun f => load_gt L f (Geo_model_load.use_data_from R))
          d)).

(** Two states of a [Geo_model] that differ at most in what has been
    printed, and the method bodies that cannot tell them apart. *)
Definition alike (s s' : Geo_model.st) : Prop :=
  s.1 = s'.1 /\ dicts s.2 = dicts s'.2.

Definition blind {A} (m : M Geo_model.st A) : Prop :=
  forall s s', alike s s' -> (m s).1 = (m s').1 /\ alike (m s).2 (m s').2.

(** ** Relations between the state before and after a call *)

(** [keeps R m]: however [m] ends, the state it leaves is related by [R] to
    the one it started from. *)
Definition keeps {S A} (R : S -> S -> Prop) (m : M S A) : Prop :=
  forall s, R s (m s).2.

(** What [predict] leaves alone: the dictionary store, and every attribute
    of the receiver other than [target], [target_reserve], [datelist] and
    [predictions]. *)
Definition predict_fixes (s s' : Predictor.st) : Prop :=
  dicts s'.2 = dicts s.2 /\
  Predictor.X s'.1 = Predictor.X s.1 /\
  Predictor.label s'.1 = Predictor.label s.1 /\
  Predictor.start_date s'.1 = Predictor.start_date s.1 /\
  Predictor.resolution s'.1 = Predictor.resolution s.1 /\
  Predictor.verbose s'.1 = Predictor.verbose s.1 /\
  Predictor.transform_target s'.1 = Predictor.transform_target s.1.

(** What [data_process] leaves alone. *)
Definition data_process_fixes (s s' : Predictor.st) : Prop :=
  Predictor.X s'.1 = Predictor.X s.1 /\
  Predictor.label s'.1 = Predictor.label s.1 /\
  Predictor.start_date s'.1 = Predictor.start_date s.1 /\
  Predictor.resolution s'.1 = Predictor.resolution s.1 /\
  Predictor.verbose s'.1 = Predictor.verbose s.1 /\
  Predictor.predictions s'.1 = Predictor.predictions s.1.

(** ** What the export does to a unit *)

(** The units a [model_labels] argument designates once the selection has
    been made: those whose label it lists, every unit otherwise. *)
Definition chosen (model_labels : Geo_model.labels_arg) (m : model) : Prop :=
  match model_labels with
  | Geo_model.LabelsList l => model_label m ∈ l
  | _ => True
  end.

#[global] Instance chosen_dec model_labels m : Decision (chosen model_labels m).
Proof. destruct model_labels; simpl; apply _. Defined.

(** The positions of the designated units of [ms], counted from [k]. *)
Definition designated (model_labels : Geo_model.labels_arg) (k : nat) (ms : list model) :
    list nat :=
  (filter (fun im => chosen model_labels im.2) (zip (seq k (length ms)) ms)).*1.

(** A unit whose calendar, target and predictions start at the first
    occurrence of the date [d] in its calendar. *)
Definition reindexed (d : date) (m : model) : option model :=
  shift ← index_of d (model_datelist m);
  pr ← model_predictions m;
  Some (model_reslice (drop shift (model_datelist m)) (drop shift (model_target m))
          (drop shift pr) m).

(** ** Further concrete inputs *)
Module Examples.

Definition unit_daily : Predictor.t :=
  Predictor.mk 1%positive Sample.series Sample.series "A" "2013-01-20" Sample.weeks
    "day" false false None.

(** A builder of the autoregressive block that refuses a target with
    fewer observations than lags, in the sample namespace. *)
Definition strict_ar_stack (tg : list float) (a : ar_terms) : result matrix :=
  match Predictor.discard_of a with
  | Ok (PInt k) =>
      if Z.of_nat (length tg) <? k then Err ValueError else Sample.ar_stack tg a
  | _ => Err TypeError
  end.

Definition strict : globals :=
  {| g_processing :=
       {| logit_percent := Sample.halve;
          logit_percent_2d := Sample.halve_2d;
          gtlog := Sample.halve_2d;
          inverse_logit_percent := Sample.double;
          create_ar_stack := strict_ar_stack |};
     g_argo_class := Sample.provider;
     g_argo_functions := None;
     to_datetime := Sample.iso_date;
     dict_keys := Sample.keys |}.

(** An interpreter whose dictionaries list the key ['ar'] first. *)
Definition ar_first : globals :=
  {| g_processing := Sample.processing;
     g_argo_class := Sample.provider;
     g_argo_functions := None;
     to_datetime := Sample.iso_date;
     dict_keys := fun d =>
       if decide (is_Some (d !! "ar"))
       then "ar" :: filter (fun key => key <> "ar") (Sample.keys d)
       else Sample.keys d |}.

(** A store in which the dictionary of the sample predictor is empty. *)
Definition no_inputs : world := mkWorld (<[1%positive := ∅]> ∅) [].

(** The two sample predictors fitted in sample, so that their calendars
    start one week before the prediction start date. *)
Definition fitted (G : globals) : Geo_model.st :=
  (Geo_model.init_prediction_layer G 2 ["A"; "B"]
     [(false, false, false, ARInt 1); (true, true, false, ARInt 1)]
     [(Predictor.IVAll, "ARGO", 1, Predictor.TLInt 1, true);
      (Predictor.IVList ["gt"; "ar"], "ARGO", 1, Predictor.TLInt 1, true)]
     (Sample.geo "2013-01-20", Sample.world0)).2.

(** A predictor registered and not yet run. *)
Definition registered : Geo_model.st :=
  (Geo_model.init_predictor "A" (Sample.geo "2013-01-20", Sample.world0)).2.

(** Loaders for the sample data: the target is the sample series, the
    only Google Trends file is ["gt.csv"], the other sources cannot be
    read, validation refuses a model without inputs, and no calendar can
    be made for an empty target. *)
Definition loaders : loading_functions :=
  {| load_target := fun file _ _ _ =>
       match file with
       | Some _ => Ok Sample.series
       | None => Err (LibraryError "no target file")
       end;
     load_gt := fun file _ =>
       if decide (file = "gt.csv")
       then Ok [[1; 2]; [3; 4]; [5; 6]; [7; 8]; [9; 10]; [11; 12]]%float
       else Err (LibraryError "no such file");
     load_athena := fun _ _ _ _ => Err (LibraryError "no such file");
     load_fny := fun _ _ => Err (LibraryError "no such file");
     validate_vars := fun d tg =>
       if (size d =? 0)%nat then Err ValueError else Ok (d, tg);
     create_datelist := fun d tg _ _ =>
       if (length tg =? 0)%nat then Err ValueError else Ok Sample.weeks;
     load_singlefile := fun _ _ _ _ => Ok ([], ∅, "2013-01-06") |}.

Definition national : Geo_model_load.region :=
  Geo_model_load.mkRegion "National" None "2013-01-06".

(** A model that has loaded nothing yet: an empty dictionary object and
    no units.  The target and the calendar, [None] in the source until the
    first load, are assigned before they are read. *)
Definition blank : Geo_model.st :=
  (Geo_model.mk "week" "2013-01-20" false 1%positive [] [] [], no_inputs).

End Examples.

(** * Properties *)

(** ** Slices and padding *)

Section Slices.
Context {A : Type}.
Implicit Types (l : list A) (i : Z).

Lemma slice_bound_nonneg n i : 0 <= i -> slice_bound n i = Nat.min (Z.to_nat i) n.
Proof. unfold slice_bound. intros Hi. destruct (Z.ltb_spec i 0); [lia | done]. Qed.

Lemma slice_from_nonneg i l : 0 <= i -> slice_from i l = drop (Z.to_nat i) l.
Proof.
  intros Hi. unfold slice_from. rewrite slice_bound_nonneg by done.
  destruct (Nat.min_spec (Z.to_nat i) (length l)) as [[_ ->] | [Hle ->]]; [done |].
  rewrite !drop_ge; [done | lia | lia].
Qed.

Lemma slice_from_length i l :
  0 <= i -> length (slice_from i l) = (length l - Z.to_nat i)%nat.
Proof. intros Hi. rewrite slice_from_nonneg by done. apply length_drop. Qed.

Lemma list_mul_single (x : A) n : list_mul [x] n = replicate (Z.to_nat n) x.
Proof.
  unfold list_mul. induction (Z.to_nat n) as [| k IH]; simpl; [done |].
  by rewrite IH.
Qed.

Lemma list_mul_twice (x : A) n :
  list_mul (list_mul [x] n) 2 = replicate (Z.to_nat (n * 2)) x.
Proof.
  rewrite list_mul_single. unfold list_mul. simpl. rewrite app_nil_r.
  rewrite <- replicate_add. f_equal. lia.
Qed.

End Slices.

(** ** Running monadic code *)

Section Run.
Context {S A B : Type}.

Lemma bind_Done (m : M S A) (k : A -> M S B) s b s' :
  bind m k s = (Done b, s') <->
  exists a s1, m s = (Done a, s1) /\ k a s1 = (Done b, s').
Proof.
  unfold bind. split.
  - destruct (m s) as [[a | e |] s1]; [eauto | done | done].
  - intros (a & s1 & -> & Hk). done.
Qed.

Lemma bind_run (m : M S A) (k : A -> M S B) s a s1 :
  m s = (Done a, s1) -> bind m k s = k a s1.
Proof. unfold bind. by intros ->. Qed.

Lemma bind_ext (m : M S A) (k k' : A -> M S B) s :
  (forall a s1, m s = (Done a, s1) -> k a s1 = k' a s1) ->
  bind m k s = bind m k' s.
Proof. unfold bind. destruct (m s) as [[a | e |] s1]; auto. Qed.

Lemma bind_raise (m : M S A) (k : A -> M S B) s e s1 :
  m s = (Raise e, s1) -> bind m k s = (Raise e, s1).
Proof. unfold bind. by intros ->. Qed.

Lemma bind_diverge (m : M S A) (k : A -> M S B) s s1 :
  m s = (Diverge, s1) -> bind m k s = (Diverge, s1).
Proof. unfold bind. by intros ->. Qed.

End Run.

(** Unfolding of the state primitives, for symbolic execution of a method
    body on a given receiver. *)
Ltac run_prims :=
  unfold Predictor.stack_inputs, Predictor.read_predictions, Predictor.getitem_X,
    Predictor.setitem_X, Predictor.read_X, Predictor.write_X, Predictor.self,
    Predictor.assign, Geo_model.self, Geo_model.assign, lookup_argo_functions,
    try_except, bind, when, print, lift, gets, modify, ret, raise, diverge in *.

Ltac run_cases := repeat (case_match; simplify_eq/=).

(** ** [predict]: the successful run, phase by phase *)

Lemma pre_prediction_Done G iv method tl ins p w Xs' n p1 w1 :
  Predictor.pre_prediction G iv method tl ins (p, w) = (Done (Xs', n), (p1, w1)) ->
  exists Xs d shift,
    Predictor.stacked (dict_at w (Predictor.X p)) iv = Ok Xs /\
    to_datetime G (Predictor.start_date p) = Ok d /\
    list_index (Predictor.datelist p) d = Ok shift /\
    Predictor.resolve_train_len tl (Predictor.resolution p) = Some n /\
    0 <= shift - n /\
    Xs' = slice_from (shift - n) Xs /\
    p1 = Predictor.mk (Predictor.X p)
           (slice_from (shift - n) (Predictor.target p))
           (slice_from (shift - n) (Predictor.target_reserve p))
           (Predictor.label p) (Predictor.start_date p)
           (slice_from (shift - n * (if ins then 1 else 0)) (Predictor.datelist p))
           (Predictor.resolution p) (Predictor.verbose p)
           (Predictor.transform_target p) (Predictor.predictions p) /\
    dicts w1 = dicts w.
Proof.
  unfold Predictor.pre_prediction. run_prims.
  destruct p as [X tg tr lb sd dl res v flag pr]. simpl. intros H.
  run_cases.
  all: match goal with H : (0 <=? _) = true |- _ => apply Z.leb_le in H end.
  all: eexists _, _, _; repeat split; eauto.
Qed.

Lemma run_prediction_Done G Xs method horizon n ins params p w p2 w2 :
  Predictor.run_prediction G Xs method horizon n ins params (p, w) = (Done tt, (p2, w2)) ->
  exists raw,
    make_predictions (g_argo_class G) Xs (Predictor.target p)
      (Predictor.transform_target p) method horizon n ins params = Ok raw /\
    p2 = Predictor.set_predictions (Some raw) p /\
    dicts w2 = dicts w.
Proof.
  unfold Predictor.run_prediction. run_prims.
  destruct p as [X tg tr lb sd dl res v flag pr]. simpl. intros H.
  run_cases; eauto.
Qed.

Lemma post_prediction_Done G horizon n ins p w p3 w3 :
  Predictor.post_prediction G horizon n ins (p, w) = (Done tt, (p3, w3)) ->
  exists raw preds tinv,
    Predictor.predictions p = Some raw /\
    (if Predictor.transform_target p
     then inverse_logit_percent (g_processing G) raw = Ok preds /\
          inverse_logit_percent (g_processing G) (Predictor.target p) = Ok tinv
     else preds = raw /\ tinv = Predictor.target p) /\
    p3 = Predictor.mk (Predictor.X p)
           (if ins then tinv else slice_from n tinv)
           (Predictor.target_reserve p) (Predictor.label p) (Predictor.start_date p)
           (Predictor.datelist p) (Predictor.resolution p) (Predictor.verbose p)
           (Predictor.transform_target p)
           (Some (list_mul [nan] (horizon * 2) ++ preds)) /\
    w3 = w.
Proof.
  unfold Predictor.post_prediction. run_prims.
  destruct p as [X tg tr lb sd dl res v flag pr]. simpl. intros H.
  run_cases.
  all: eexists _, _, _; repeat split; eauto.
Qed.

(** Whatever happens inside the metrics report, the statement completes
    and leaves the state alone. *)
Lemma report_metrics_Done G horizon s :
  Predictor.report_metrics G horizon s = (Done tt, s).
Proof.
  unfold Predictor.report_metrics. run_prims.
  destruct s as [p w]. simpl. run_cases; by repeat match goal with u : unit |- _ => destruct u end.
Qed.

Lemma predict_Done G iv method horizon tl ins params p w p' w' :
  Predictor.predict G iv method horizon tl ins params (p, w) = (Done tt, (p', w')) ->
  exists Xs d shift n raw preds tinv,
    Predictor.stacked (dict_at w (Predictor.X p)) iv = Ok Xs /\
    to_datetime G (Predictor.start_date p) = Ok d /\
    list_index (Predictor.datelist p) d = Ok shift /\
    Predictor.resolve_train_len tl (Predictor.resolution p) = Some n /\
    0 <= shift - n /\
    make_predictions (g_argo_class G) (slice_from (shift - n) Xs)
      (slice_from (shift - n) (Predictor.target p)) (Predictor.transform_target p)
      method horizon n ins params = Ok raw /\
    (if Predictor.transform_target p
     then inverse_logit_percent (g_processing G) raw = Ok preds /\
          inverse_logit_percent (g_processing G)
            (slice_from (shift - n) (Predictor.target p)) = Ok tinv
     else preds = raw /\ tinv = slice_from (shift - n) (Predictor.target p)) /\
    p' = Predictor.mk (Predictor.X p)
           (if ins then tinv else slice_from n tinv)
           (slice_from (shift - n) (Predictor.target_reserve p))
           (Predictor.label p) (Predictor.start_date p)
           (slice_from (shift - n * (if ins then 1 else 0)) (Predictor.datelist p))
           (Predictor.resolution p) (Predictor.verbose p)
           (Predictor.transform_target p)
           (Some (list_mul [nan] (horizon * 2) ++ preds)) /\
    dicts w' = dicts w.
Proof.
  unfold Predictor.predict. intros H.
  apply bind_Done in H as ([Xs' n] & [p1 w1] & Hpre & H). simpl in H.
  apply bind_Done in H as ([] & [p2 w2] & Hrun & H).
  apply bind_Done in H as ([] & [p3 w3] & Hpost & H).
  rewrite (bind_run _ _ _ _ _ (report_metrics_Done G horizon (p3, w3))) in H.
  apply pre_prediction_Done in Hpre
    as (Xs & d & shift & HXs & Hd & Hshift & Hn & Hge & -> & -> & Hw1).
  apply run_prediction_Done in Hrun as (raw & Hraw & -> & Hw2).
  apply post_prediction_Done in Hpost as (raw' & preds & tinv & Hpr & Hinv & -> & ->).
  simpl in *. injection Hpr as <-.
  exists Xs, d, shift, n, raw, preds, tinv.
  assert (p' = Predictor.mk (Predictor.X p)
           (if ins then tinv else slice_from n tinv)
           (slice_from (shift - n) (Predictor.target_reserve p))
           (Predictor.label p) (Predictor.start_date p)
           (slice_from (shift - n * (if ins then 1 else 0)) (Predictor.datelist p))
           (Predictor.resolution p) (Predictor.verbose p)
           (Predictor.transform_target p)
           (Some (list_mul [nan] (horizon * 2) ++ preds)) /\ dicts w' = dicts w2)
    as [-> Hw'].
  { revert H. run_prims. simpl. intros H. run_cases; done. }
  repeat split; try done. congruence.
Qed.

Lemma list_index_Ok dl d i :
  index_of d dl = Some i -> list_index dl d = Ok (Z.of_nat i).
Proof. unfold list_index. by intros ->. Qed.

(** ** Window offsets of [predict] *)

(** C6. In a completed [predict] with a window of [train_len >= 0] periods
    and [start_date] at position [predict_index] of the calendar: the window
    fits ([train_len <= predict_index]); the retained calendar starts at
    [train_start_index = predict_index - train_len] in-sample and at
    [predict_index] otherwise; the provider received the stacked inputs and
    the target from [train_start_index] on, whatever [in_sample] is; and
    the stored target is that slice (inverted if the target was
    transformed), less its first [train_len] entries when not in-sample. *)
Theorem predict_window_offsets
    G iv method horizon tl ins params p w p' w' d predict_index train_len :
  to_datetime G (Predictor.start_date p) = Ok d ->
  index_of d (Predictor.datelist p) = Some predict_index ->
  Predictor.resolve_train_len tl (Predictor.resolution p) = Some train_len ->
  0 <= train_len ->
  Predictor.predict G iv method horizon tl ins params (p, w) = (Done tt, (p', w')) ->
  let width := Z.to_nat train_len in
  let train_start_index := (predict_index - width)%nat in
  (width <= predict_index)%nat /\
  Predictor.datelist p' =
    drop (if ins then train_start_index else predict_index) (Predictor.datelist p) /\
  exists Xs raw tinv,
    Predictor.stacked (dict_at w (Predictor.X p)) iv = Ok Xs /\
    make_predictions (g_argo_class G)
      (drop train_start_index Xs) (drop train_start_index (Predictor.target p))
      (Predictor.transform_target p) method horizon train_len ins params = Ok raw /\
    (if Predictor.transform_target p
     then inverse_logit_percent (g_processing G)
            (drop train_start_index (Predictor.target p)) = Ok tinv
     else tinv = drop train_start_index (Predictor.target p)) /\
    Predictor.target p' = if ins then tinv else drop width tinv.
Proof.
  intros Hd Hi Hn Hnn Hrun width tsi.
  apply predict_Done in Hrun
    as (Xs & d' & shift & n & raw & preds & tinv
        & HXs & Hd' & Hshift & Hn' & Hge & Hraw & Hinv & -> & _).
  rewrite Hd in Hd'. injection Hd' as <-.
  rewrite (list_index_Ok _ _ _ Hi) in Hshift. injection Hshift as <-.
  rewrite Hn in Hn'. injection Hn' as <-.
  assert (Hk : Z.to_nat (Z.of_nat predict_index - train_len) = tsi) by (subst tsi width; lia).
  rewrite !slice_from_nonneg in * by (destruct ins; lia).
  rewrite Hk in *. simpl.
  split; [subst width; lia |]. split.
  - f_equal. destruct ins; [rewrite <- Hk; f_equal; lia | lia].
  - exists Xs, raw, tinv. split; [done |]. split; [done |]. split.
    + by destruct (Predictor.transform_target p); destruct_and?.
    + by destruct ins.
Qed.

(** The sample predictor, started on the third week with a one-week window:
    the run completes and keeps the calendar from position 2 on. *)
Lemma predict_window_offsets_witness :
  let p := Sample.unit0 in
  let r := Predictor.predict Sample.as_written (Predictor.IVList ["ath"; "gt"])
             "ARGO" 1 (Predictor.TLInt 1) false [] (p, Sample.world0) in
  r.1 = Done tt /\
  Predictor.datelist r.2.1 = drop 2 (Predictor.datelist p) /\
  Predictor.target r.2.1 = [3; 4; 5]%float.
Proof.
  intros p r.
  assert (Hrun : r = (Done tt, (r.2.1, r.2.2))) by (vm_compute; reflexivity).
  destruct (predict_window_offsets Sample.as_written (Predictor.IVList ["ath"; "gt"])
              "ARGO" 1 (Predictor.TLInt 1) false [] p Sample.world0 r.2.1 r.2.2
              15725 2%nat 1 eq_refl eq_refl eq_refl ltac:(lia) Hrun)
    as (_ & Hdl & _).
  split; [by rewrite Hrun |]. split; [exact Hdl |]. vm_compute; reflexivity.
Defined.

(** ** [ensemble]: what a call does once the members are stacked *)

(** From the first use of the name [argo_functions] on, the call is
    decided by what that name is bound to. *)
Lemma ensemble_outcome G method ens_label ind_labels horizon train_len ins g w
    blocks stack first :
  map_r (Geo_model.compat_pred horizon)
    (Geo_model.compat_list (Geo_model.model_list g) ind_labels) = Ok blocks ->
  hstack blocks = Ok stack ->
  getitem (Geo_model.compat_list (Geo_model.model_list g) ind_labels) 0 = Ok first ->
  let w0 := if Geo_model.verbose g
            then emit [PS "Running ensemble model: "; PS method] w else w in
  Geo_model.ensemble G method ens_label ind_labels horizon train_len ins (g, w)
    = match g_argo_functions G with
      | None => (Raise (NameError "argo_functions"), (g, w0))
      | Some af =>
          match ensemble_dispatcher af method with
          | None => (Raise (KeyError method), (g, w0))
          | Some run =>
              match run stack (model_target first) horizon train_len ins with
              | Err e => (Raise e, (g, w0))
              | Ok out =>
                  let ens_target := if ins then model_target first
                                    else slice_from train_len (model_target first) in
                  let ens_datelist := if ins then model_datelist first
                                      else slice_from train_len (model_datelist first) in
                  let ens_pred := replicate (Z.to_nat (2 * horizon)) nan ++ out in
                  match metrics af (slice (2 * horizon) (- (1 + horizon)) ens_pred)
                          (slice_from (2 * horizon) ens_target) with
                  | Err e => (Raise e, (g, w0))
                  | Ok _ =>
                      (Done tt,
                       (Geo_model.set_model_list
                          (Geo_model.model_list g ++
                           [MEns (Ens_predictor.mk ens_target ens_pred ens_label
                                    ens_datelist)]) g, w0))
                  end
              end
          end
      end.
Proof.
  intros Hblocks Hstack Hfirst w0. subst w0.
  replace (replicate (Z.to_nat (2 * horizon)) nan)
    with (list_mul (list_mul [nan] horizon) 2)
    by (rewrite list_mul_twice; f_equal; lia).
  unfold Geo_model.ensemble, lookup_argo_functions. run_prims.
  destruct g as [res psd v inp tg dl ms]. simpl in *.
  destruct v; simpl; rewrite Hblocks; simpl; rewrite Hstack; simpl; rewrite Hfirst; simpl.
  all: destruct (g_argo_functions G) as [af |]; simpl; [| done].
  all: destruct (ensemble_dispatcher af method) as [run |]; simpl; [| done].
  all: destruct (run stack (model_target first) horizon train_len ins) as [out | e];
    simpl; [| done].
  all: unfold np_insert0.
  all: by destruct (metrics af _ _) as [[] | e].
Qed.

(** The call is its two parts run in sequence. *)
Lemma ensemble_in_two_parts G method ens_label ind_labels horizon train_len ins s :
  Geo_model.ensemble G method ens_label ind_labels horizon train_len ins s =
  (x <- ensemble_before_report G method ind_labels horizon train_len ins ;;
   ensemble_report_and_register x.1 ens_label horizon x.2.1.1 x.2.1.2 x.2.2)%py s.
Proof.
  unfold Geo_model.ensemble, ensemble_before_report, ensemble_report_and_register,
    lookup_argo_functions. run_prims.
  destruct s as [[res psd v inp tg dl ms] w]. simpl.
  run_cases; done.
Qed.

(** With the name unbound the first part raises, at the latest where it
    first needs the name, and touches no dictionary. *)
Lemma ensemble_stops_before_report G method ind_labels horizon train_len ins g w :
  g_argo_functions G = None ->
  exists e w',
    ensemble_before_report G method ind_labels horizon train_len ins (g, w)
      = (Raise e, (g, w')) /\
    dicts w' = dicts w.
Proof.
  intros HG. unfold ensemble_before_report, lookup_argo_functions. run_prims. rewrite HG.
  destruct g as [res psd v inp tg dl ms]. simpl.
  destruct v; simpl; run_cases; eauto.
Qed.

(** ** Front padding *)

(** C1 (as the code has it). A completed out-of-sample [predict]: the
    requested blocks stacked, [start_date] was found at position
    [predict_index] of the calendar (its first occurrence), the window
    [train_len] fits before it, and the provider, called on the inputs and
    the target from [predict_index - train_len] on, returned [out].  The
    stored predictions are [2 * horizon] NaN markers followed by [out] (by
    its inverse transform when the target was transformed), which fixes
    their length; the stored calendar is the previous one from
    [predict_index] on, and so is the stored target when it is not
    transformed and the window is non-negative.  Nothing ties the length of
    the predictions to the other two. *)
Theorem predictions_front_padded G iv method horizon tl params p w p' w' :
  Predictor.predict G iv method horizon tl false params (p, w) = (Done tt, (p', w')) ->
  exists Xs d predict_index train_len out body,
    Predictor.stacked (dict_at w (Predictor.X p)) iv = Ok Xs /\
    to_datetime G (Predictor.start_date p) = Ok d /\
    index_of d (Predictor.datelist p) = Some predict_index /\
    Predictor.resolve_train_len tl (Predictor.resolution p) = Some train_len /\
    train_len <= Z.of_nat predict_index /\
    make_predictions (g_argo_class G)
      (drop (Z.to_nat (Z.of_nat predict_index - train_len)) Xs)
      (drop (Z.to_nat (Z.of_nat predict_index - train_len)) (Predictor.target p))
      (Predictor.transform_target p) method horizon train_len false params = Ok out /\
    (if Predictor.transform_target p
     then inverse_logit_percent (g_processing G) out = Ok body
     else body = out) /\
    Predictor.predictions p' = Some (replicate (Z.to_nat (2 * horizon)) nan ++ body) /\
    length <$> Predictor.predictions p'
      = Some (Z.to_nat (2 * horizon) + length body)%nat /\
    Predictor.datelist p' = drop predict_index (Predictor.datelist p) /\
    (Predictor.transform_target p = false -> 0 <= train_len ->
     Predictor.target p' = drop predict_index (Predictor.target p)).
Proof.
  intros Hrun.
  apply predict_Done in Hrun
    as (Xs & d & shift & n & raw & preds & tinv
        & HXs & Hd & Hshift & Hn & Hge & Hraw & Hinv & -> & _).
  unfold list_index in Hshift.
  destruct (index_of d (Predictor.datelist p)) as [i |] eqn:Hi; [| done].
  injection Hshift as <-.
  rewrite !slice_from_nonneg in Hraw by lia.
  exists Xs, d, i, n, raw, preds. simpl. rewrite list_mul_single.
  replace (Z.to_nat (horizon * 2)) with (Z.to_nat (2 * horizon)) by lia.
  split_and!; try done.
  - lia.
  - by destruct (Predictor.transform_target p); destruct_and?.
  - by rewrite length_app, length_replicate.
  - rewrite slice_from_nonneg by lia. f_equal. lia.
  - intros Hflag Hnn. rewrite Hflag in Hinv. destruct Hinv as [_ ->].
    rewrite !slice_from_nonneg by lia. rewrite drop_drop. f_equal. lia.
Qed.

(** Horizon 1 on the sample data, under the module as written: the run
    completes, and two NaN markers head what the provider returned. *)
Lemma predictions_front_padded_witness :
  let p := Sample.unit0 in
  let r := Predictor.predict Sample.as_written (Predictor.IVList ["ath"; "gt"])
             "ARGO" 1 (Predictor.TLInt 1) false [] (p, Sample.world0) in
  r.1 = Done tt /\
  exists Xs d predict_index train_len out body,
    Predictor.stacked (dict_at Sample.world0 (Predictor.X p))
      (Predictor.IVList ["ath"; "gt"]) = Ok Xs /\
    to_datetime Sample.as_written (Predictor.start_date p) = Ok d /\
    index_of d (Predictor.datelist p) = Some predict_index /\
    Predictor.resolve_train_len (Predictor.TLInt 1) (Predictor.resolution p)
      = Some train_len /\
    train_len <= Z.of_nat predict_index /\
    make_predictions (g_argo_class Sample.as_written)
      (drop (Z.to_nat (Z.of_nat predict_index - train_len)) Xs)
      (drop (Z.to_nat (Z.of_nat predict_index - train_len)) (Predictor.target p))
      (Predictor.transform_target p) "ARGO" 1 train_len false [] = Ok out /\
    (if Predictor.transform_target p
     then inverse_logit_percent (g_processing Sample.as_written) out = Ok body
     else body = out) /\
    Predictor.predictions r.2.1 = Some (replicate (Z.to_nat (2 * 1)) nan ++ body) /\
    length <$> Predictor.predictions r.2.1
      = Some (Z.to_nat (2 * 1) + length body)%nat /\
    Predictor.datelist r.2.1 = drop predict_index (Predictor.datelist p) /\
    (Predictor.transform_target p = false -> 0 <= train_len ->
     Predictor.target r.2.1 = drop predict_index (Predictor.target p)).
Proof.
  intros p r.
  assert (Hrun : r = (Done tt, (r.2.1, r.2.2))) by (vm_compute; reflexivity).
  split; [exact (f_equal fst Hrun) |].
  exact (predictions_front_padded Sample.as_written (Predictor.IVList ["ath"; "gt"])
           "ARGO" 1 (Predictor.TLInt 1) [] p Sample.world0 r.2.1 r.2.2 Hrun).
Defined.

(** C1 as stated fails: after this completed out-of-sample run the
    predictions have five entries, the target three and the calendar four;
    the last two counts are the same under every provider with which the
    run completes. *)
Lemma predict_lengths_differ :
  let r := Predictor.predict Sample.as_written (Predictor.IVList ["ath"; "gt"])
             "ARGO" 1 (Predictor.TLInt 1) false [] (Sample.unit0, Sample.world0) in
  r.1 = Done tt /\
  (length <$> Predictor.predictions r.2.1) = Some 5%nat /\
  length (Predictor.target r.2.1) = 3%nat /\
  length (Predictor.datelist r.2.1) = 4%nat /\
  (forall G params p' w',
     to_datetime G "2013-01-20" = Ok 15725 ->
     Predictor.predict G (Predictor.IVList ["ath"; "gt"]) "ARGO" 1 (Predictor.TLInt 1)
       false params (Sample.unit0, Sample.world0) = (Done tt, (p', w')) ->
     length (Predictor.target p') = 3%nat /\ length (Predictor.datelist p') = 4%nat).
Proof.
  do 4 (split; [vm_compute; reflexivity |]).
  intros G params p' w' Hd Hrun.
  apply predict_Done in Hrun
    as (Xs & d & shift & n & raw & preds & tinv
        & _ & Hd' & Hshift & Hn & _ & _ & Hinv & -> & _).
  cbn [Predictor.start_date Sample.unit0] in Hd'. rewrite Hd in Hd'. injection Hd' as <-.
  injection Hn as <-. destruct Hinv as [_ ->].
  vm_compute in Hshift. injection Hshift as <-.
  split; vm_compute; reflexivity.
Qed.

(** ** Insufficient history *)

(** C2 (as the code has it). When the requested blocks stack, the window
    width is an integer and [start_date] sits at [predict_index] with
    [predict_index - train_len < 0], [predict] raises the assertion error;
    the receiver and the dictionaries are what they were (only the console
    may have received the opening line). *)
Theorem predict_insufficient_history
    G iv method horizon tl ins params p w Xs d predict_index train_len :
  Predictor.stacked (dict_at w (Predictor.X p)) iv = Ok Xs ->
  to_datetime G (Predictor.start_date p) = Ok d ->
  index_of d (Predictor.datelist p) = Some predict_index ->
  Predictor.resolve_train_len tl (Predictor.resolution p) = Some train_len ->
  Z.of_nat predict_index - train_len < 0 ->
  exists w',
    Predictor.predict G iv method horizon tl ins params (p, w)
      = (Raise (AssertionError Predictor.not_enough_data), (p, w')) /\
    dicts w' = dicts w.
Proof.
  intros HXs Hd Hi Hn Hlt.
  apply list_index_Ok in Hi.
  assert (Hneg : (0 <=? Z.of_nat predict_index - train_len) = false)
    by (apply Z.leb_gt; lia).
  unfold Predictor.predict, Predictor.pre_prediction. run_prims.
  destruct p as [X tg tr lb sd dl res v flag pr]. unfold dict_at in *. simpl in *.
  destruct v; simpl;
    repeat (first [rewrite HXs | rewrite Hd | rewrite Hi | rewrite Hn | rewrite Hneg];
            simpl);
    eauto.
Qed.

(** A window of five weeks before the third week of the sample calendar. *)
Lemma predict_insufficient_history_witness :
  exists w',
    Predictor.predict Sample.as_written (Predictor.IVList ["ath"; "gt"])
      "ARGO" 0 (Predictor.TLInt 5) false [] (Sample.unit0, Sample.world0)
      = (Raise (AssertionError Predictor.not_enough_data), (Sample.unit0, w')) /\
    dicts w' = dicts Sample.world0.
Proof.
  eapply (predict_insufficient_history Sample.as_written (Predictor.IVList ["ath"; "gt"])
           "ARGO" 0 (Predictor.TLInt 5) false [] Sample.unit0 Sample.world0
           _ 15725 2%nat 5).
  - vm_compute; reflexivity.
  - vm_compute; reflexivity.
  - vm_compute; reflexivity.
  - reflexivity.
  - lia.
Defined.

(** C2 as stated fails: the calendar holds the start date at position 2 and
    the window of 5 reaches before the first date, yet with no
    athenahealth block loaded the default [input_vars='all'] raises a
    [KeyError] first. *)
Lemma predict_missing_source_first :
  to_datetime Sample.as_written (Predictor.start_date Sample.unit0) = Ok 15725 /\
  index_of 15725 (Predictor.datelist Sample.unit0) = Some 2%nat /\
  Predictor.resolve_train_len (Predictor.TLInt 5) "week" = Some 5 /\
  2 - 5 < 0 /\
  Predictor.predict Sample.as_written Predictor.IVAll "ARGO" 0 (Predictor.TLInt 5)
    false [] (Sample.unit0, Sample.world_gt)
    = (Raise (KeyError "ath"), (Sample.unit0, Sample.world_gt)).
Proof. repeat split; vm_compute; reflexivity. Qed.

(** ** The metrics report *)

(** In [predict] the report sits inside [try ... except]: what the call
    returns and the state it leaves do not depend on what the name
    [argo_functions] is bound to, nor on whether [metrics] raises. *)
Lemma predict_ignores_metrics G af iv method horizon tl ins params s :
  Predictor.predict (with_argo_functions af G) iv method horizon tl ins params s =
  Predictor.predict G iv method horizon tl ins params s.
Proof.
  unfold Predictor.predict.
  change (Predictor.pre_prediction (with_argo_functions af G))
    with (Predictor.pre_prediction G).
  apply bind_ext. intros pre s1 _. simpl.
  change (Predictor.run_prediction (with_argo_functions af G))
    with (Predictor.run_prediction G).
  apply bind_ext. intros _ s2 _.
  change (Predictor.post_prediction (with_argo_functions af G))
    with (Predictor.post_prediction G).
  apply bind_ext. intros _ s3 _.
  by rewrite !(bind_run _ _ _ _ _ (report_metrics_Done _ horizon s3)).
Qed.



(** ** The unbound name in [ensemble] *)

(** C9 (as the code has it). With [argo_functions] unbound every call of
    [ensemble] raises and registers nothing: the receiver and the
    dictionaries are untouched.  The exception is the [NameError] whenever
    the selected predictions can be sliced and stacked; before that point
    other exceptions come first. *)
Theorem ensemble_unbound_name
    G method ens_label ind_labels horizon train_len ins g w :
  g_argo_functions G = None ->
  exists e w',
    Geo_model.ensemble G method ens_label ind_labels horizon train_len ins (g, w)
      = (Raise e, (g, w')) /\
    dicts w' = dicts w /\
    (forall blocks stack,
       map_r (Geo_model.compat_pred horizon)
         (Geo_model.compat_list (Geo_model.model_list g) ind_labels) = Ok blocks ->
       hstack blocks = Ok stack ->
       e = NameError "argo_functions").
Proof.
  intros HG. unfold Geo_model.ensemble. run_prims. rewrite HG.
  destruct g as [res psd v inp tg dl ms]. simpl.
  destruct (Geo_model.compat_list ms ind_labels) as [| m compat] eqn:Hc.
  - destruct v; simpl; rewrite ?Hc; simpl;
      eexists _, _; (split; [reflexivity |]); (split; [reflexivity |]);
      intros blocks stack Hb' Hs'; rewrite ?Hc in Hb'; simplify_eq/=.
  - destruct v; simpl; rewrite ?Hc.
    all: destruct (map_r _ (m :: compat)) as [blocks | e1] eqn:Hb; simpl;
      [destruct (hstack blocks) as [stack | e2] eqn:Hs; simpl |].
    all: eexists _, _; (split; [reflexivity |]); (split; [reflexivity |]).
    all: intros blocks' stack' Hb' Hs'; rewrite ?Hc in Hb'; simpl in *; congruence.
Qed.

(** The ensemble of the two sample units under the module as written. *)
Lemma ensemble_unbound_name_witness :
  exists e w',
    Geo_model.ensemble Sample.as_written "mean" "E" ["A"; "B"] 1 1 false
      (Sample.trained_geo Sample.as_written, Sample.trained_world Sample.as_written)
      = (Raise e, (Sample.trained_geo Sample.as_written, w')) /\
    dicts w' = dicts (Sample.trained_world Sample.as_written) /\
    (forall blocks stack,
       map_r (Geo_model.compat_pred 1)
         (Geo_model.compat_list
            (Geo_model.model_list (Sample.trained_geo Sample.as_written)) ["A"; "B"])
         = Ok blocks ->
       hstack blocks = Ok stack ->
       e = NameError "argo_functions").
Proof.
  apply (ensemble_unbound_name Sample.as_written "mean" "E" ["A"; "B"] 1 1 false
           (Sample.trained_geo Sample.as_written)
           (Sample.trained_world Sample.as_written)).
  reflexivity.
Defined.

(** C9 as stated fails on the exception raised: when no registered unit
    carries a requested label [np.hstack] refuses the empty sequence, and
    when a selected predictor has not predicted yet its [predictions] is
    [None]; neither call reaches the unbound name. *)
Lemma ensemble_fails_before_name :
  let s0 := (Sample.geo "2013-01-20", Sample.world0) in
  let s1 := (Geo_model.init_predictor "A" s0).2 in
  (Geo_model.ensemble Sample.as_written "mean" "E" ["A"] 0 104 false s0).1
    = Raise ValueError /\
  (Geo_model.ensemble Sample.as_written "mean" "E" ["A"] 0 104 false s1).1
    = Raise TypeError.
Proof. split; vm_compute; reflexivity. Qed.

(** ** Label selection *)

(** C4 (as the code has it). [save_predictions] works on every unit when
    [model_labels] is ['all'], and also, after printing its notice, when
    testing a label against [model_labels] raises.  [ensemble] has no
    fallback: its members are the registered units whose label is among
    [ind_labels], in registration order. *)
Theorem label_selection :
  (forall g w,
     Geo_model.select Geo_model.LabelsAll (g, w)
       = (Done (Geo_model.positions (Geo_model.model_list g)), (g, w))) /\
  (forall g w m ms,
     let g' := Geo_model.set_model_list (m :: ms) g in
     Geo_model.select Geo_model.LabelsOther (g', w)
       = (Done (Geo_model.positions (m :: ms)),
          (g', emit [PS (tab +:+
             "Error in specified model labels. Printing all models to file.")] w))) /\
  (forall ms ind_labels,
     Geo_model.compat_list ms ind_labels `sublist_of` ms /\
     forall m, m ∈ Geo_model.compat_list ms ind_labels <->
               m ∈ ms /\ model_label m ∈ ind_labels).
Proof.
  split; [| split].
  - intros g w. reflexivity.
  - intros g w m ms. reflexivity.
  - intros ms ind_labels. unfold Geo_model.compat_list. split.
    + apply sublist_filter.
    + intros m. rewrite list_elem_of_filter. tauto.
Qed.

(** C4 as stated fails: with units "A" and "B" registered and the labels
    ["A"; "Z"] requested, the export keeps unit "A" alone and prints no
    notice, the ensemble takes "A" alone, and an export that names only
    "Z" fails. *)
Lemma absent_label_no_fallback :
  let g := Sample.trained_geo Sample.bound in
  let w := Sample.trained_world Sample.bound in
  model_label <$> Geo_model.model_list g = ["A"; "B"] /\
  Geo_model.select (Geo_model.LabelsList ["A"; "Z"]) (g, w) = (Done [0%nat], (g, w)) /\
  model_label <$> Geo_model.compat_list (Geo_model.model_list g) ["A"; "Z"] = ["A"] /\
  (Geo_model.save_predictions Sample.bound (Geo_model.LabelsList ["Z"]) true (g, w)).1
    = Raise IndexError.
Proof. repeat split; vm_compute; reflexivity. Qed.

(** ** The ensemble's design matrix *)

Section Columns.
Implicit Types (m : matrix) (c : list float).

Lemma hcat_column_length m c :
  length m = length c -> length (hcat m (as_column c)) = length c.
Proof.
  intros Hl. unfold hcat, as_column. rewrite length_zip_with, length_fmap. lia.
Qed.

Lemma hcat_column_width m c k :
  Forall (fun row => length row = k) m ->
  Forall (fun row => length row = S k) (hcat m (as_column c)).
Proof.
  intros Hm. revert c. induction Hm as [| row m Hrow _ IH]; intros [| x c]; simpl;
    try by constructor.
  constructor; [| apply IH]. rewrite length_app. simpl. lia.
Qed.

Lemma hcat_column_old m c k j :
  Forall (fun row => length row = k) m -> length m = length c -> (j < k)%nat ->
  column j (hcat m (as_column c)) = column j m.
Proof.
  intros Hm. revert c. induction Hm as [| row m Hrow _ IH]; intros [| x c] Hl Hj;
    simpl in *; try done.
  rewrite lookup_app_l by lia. destruct (row !! j); simpl; [f_equal |]; apply IH; lia.
Qed.

Lemma hcat_column_new m c k :
  Forall (fun row => length row = k) m -> length m = length c ->
  column k (hcat m (as_column c)) = c.
Proof.
  intros Hm. revert c. induction Hm as [| row m Hrow _ IH]; intros [| x c] Hl;
    simpl in *; try done.
  rewrite lookup_app_r by lia. rewrite Hrow, Nat.sub_diag. simpl.
  f_equal. apply IH. lia.
Qed.

(** Stacking one-column blocks of equal height onto [m]: the old columns
    stay, the new ones follow in order. *)
Lemma foldl_hcat_columns cs : forall m k n,
  length m = n -> Forall (fun row => length row = k) m ->
  Forall (fun c => length c = n) cs ->
  let stack := foldl hcat m (as_column <$> cs) in
  Forall (fun row => length row = (k + length cs)%nat) stack /\
  (forall j, (j < k)%nat -> column j stack = column j m) /\
  (forall j c, cs !! j = Some c -> column (k + j) stack = c).
Proof.
  induction cs as [| c cs IH]; intros m k n Hn Hm Hcs; simpl.
  - split; [by rewrite Nat.add_0_r |]. split; [done | intros j c; by rewrite lookup_nil].
  - apply Forall_cons in Hcs as [Hc Hcs].
    destruct (IH (hcat m (as_column c)) (S k) n) as (IHwidth & IHold & IHnew).
    + rewrite hcat_column_length; lia.
    + by apply hcat_column_width.
    + done.
    + split; [| split].
      * eapply Forall_impl; [exact IHwidth |]. simpl. intros row. lia.
      * intros j Hj. rewrite IHold by lia. apply (hcat_column_old _ _ k); [done | lia | done].
      * intros [| j] c' Hj; simpl in Hj.
        -- injection Hj as <-. rewrite Nat.add_0_r, IHold by lia.
           apply hcat_column_new; [done | lia].
        -- replace (k + S j)%nat with (S k + j)%nat by lia. by apply IHnew.
Qed.

Lemma column_0_as_column c : column 0 (as_column c) = c.
Proof. unfold column, as_column. induction c as [| x c IH]; simpl; by f_equal. Qed.

Lemma hstack_columns cs stack :
  hstack (as_column <$> cs) = Ok stack ->
  Forall (fun row => length row = length cs) stack /\
  forall j c, cs !! j = Some c -> column j stack = c.
Proof.
  destruct cs as [| c0 cs]; [done |]. simpl.
  destruct (forallb _ _) eqn:Hall; [| done]. intros [= <-].
  assert (Hcs : Forall (fun c => length c = length c0) cs).
  { apply Forall_forall. intros c Hc.
    rewrite List.forallb_forall in Hall. specialize (Hall (as_column c)).
    unfold as_column in Hall. rewrite !length_fmap in Hall.
    apply Nat.eqb_eq, Hall, list_elem_of_In, list_elem_of_fmap_2, Hc. }
  destruct (foldl_hcat_columns cs (as_column c0) 1 (length c0)) as (Hwidth & Hold & Hnew).
  - unfold as_column. by rewrite length_fmap.
  - unfold as_column. apply Forall_fmap, Forall_forall. done.
  - done.
  - split; [exact Hwidth |]. intros [| j] c Hj; simpl in Hj.
    + injection Hj as <-. rewrite Hold by lia. apply column_0_as_column.
    + by apply (Hnew j).
Qed.

End Columns.

Lemma compat_pred_blocks horizon ms blocks :
  map_r (Geo_model.compat_pred horizon) ms = Ok blocks ->
  exists cs,
    blocks = as_column <$> cs /\
    Forall2 (fun m c => exists pr, model_predictions m = Some pr /\
                                   c = slice_from (2 * horizon) pr) ms cs.
Proof.
  revert blocks. induction ms as [| m ms IH]; intros blocks; simpl.
  - intros [= <-]. by exists [].
  - unfold Geo_model.compat_pred at 1.
    destruct (model_predictions m) as [pr |] eqn:Hpr; [simpl | done].
    destruct (map_r _ ms) as [bs | e]; [simpl | done]. intros [= <-].
    destruct (IH bs eq_refl) as (cs & -> & Hcs).
    exists (slice_from (2 * horizon) pr :: cs). split; [done |].
    constructor; eauto.
Qed.

(** C5, at the failing input.  Under the module as written, with the two
    sample units predicted at horizon 1 and the ensemble of both
    requested: the members are selected in registration order, their
    predictions from position [2 * horizon] on stack into a two-column
    matrix, the first member's target and calendar are the reference, and
    the call then raises at the dispatch.  The reference series are never
    cut and no unit is registered. *)
Theorem ensemble_aborts_after_stacking :
  let g := Sample.trained_geo Sample.as_written in
  let w := Sample.trained_world Sample.as_written in
  let members := Geo_model.compat_list (Geo_model.model_list g) ["A"; "B"] in
  model_label <$> members = ["A"; "B"] /\
  model_predictions <$> members
    = [Some [nan; nan; 4; 5; 5]%float; Some [nan; nan; 4; 5; 5]%float] /\
  and_then (map_r (Geo_model.compat_pred 1) members) hstack
    = Ok [[4; 4]; [5; 5]; [5; 5]]%float /\
  model_target <$> head members = Some [3; 4; 5]%float /\
  model_datelist <$> head members = Some [15725; 15732; 15739; 15746] /\
  Geo_model.ensemble Sample.as_written "mean" "E" ["A"; "B"] 1 1 false (g, w)
    = (Raise (NameError "argo_functions"), (g, w)).
Proof. split_and!; vm_compute; reflexivity. Qed.

(** ** [data_process]: transforms that fail, and the default [AR_terms] *)

Lemma process_target_fails G p w e :
  logit_percent (g_processing G) (Predictor.target p) = Err e ->
  Predictor.process_target G true (p, w)
    = (Done tt, (Predictor.set_transform_target false p, emit [PS Predictor.target_error; PE e] w)).
Proof.
  intros He. unfold Predictor.process_target. run_prims. simpl. by rewrite He.
Qed.

Lemma process_ath_fails G p w a e :
  dict_at w (Predictor.X p) !! "ath" = Some a ->
  logit_percent_2d (g_processing G) a = Err e ->
  Predictor.process_ath G true (p, w) = (Done tt, (p, emit [PS Predictor.ath_error; PE e] w)).
Proof.
  intros Ha He. unfold Predictor.process_ath. run_prims. simpl.
  repeat (first [rewrite Ha | rewrite He | rewrite bool_decide_true by eauto]; simpl).
  done.
Qed.

Lemma process_gt_fails G p w a e :
  dict_at w (Predictor.X p) !! "gt" = Some a ->
  gtlog (g_processing G) a = Err e ->
  Predictor.process_gt G true (p, w) = (Done tt, (p, emit [PS Predictor.gt_error; PE e] w)).
Proof.
  intros Ha He. unfold Predictor.process_gt. run_prims. simpl.
  repeat (first [rewrite Ha | rewrite He | rewrite bool_decide_true by eauto]; simpl).
  done.
Qed.

(** C8. A transform that raises inside [data_process] is reported on the
    console and skipped: the series it was applied to is unchanged (for the
    target, the flag [transform_target] is set to false and the target kept;
    for an input block, the dictionary is not written), and the rest of the
    same call runs from that state. *)
Theorem transform_failure_is_soft G flag_t flag_a flag_g ar p w e :
  (logit_percent (g_processing G) (Predictor.target p) = Err e ->
   forall p0 w0, Predictor.announce (p, w) = (Done tt, (p0, w0)) ->
   p0 = p /\
   Predictor.data_process G true flag_a flag_g ar (p, w) =
     (Predictor.process_ath G flag_a ;;; Predictor.process_gt G flag_g ;;;
      Predictor.process_ar G ar)%py
       (Predictor.set_transform_target false p, emit [PS Predictor.target_error; PE e] w0)) /\
  (forall a p1 w1,
     (Predictor.announce ;;; Predictor.process_target G flag_t)%py (p, w)
       = (Done tt, (p1, w1)) ->
     dict_at w1 (Predictor.X p1) !! "ath" = Some a ->
     logit_percent_2d (g_processing G) a = Err e ->
     Predictor.data_process G flag_t true flag_g ar (p, w) =
       (Predictor.process_gt G flag_g ;;; Predictor.process_ar G ar)%py
         (p1, emit [PS Predictor.ath_error; PE e] w1)) /\
  (forall a p2 w2,
     (Predictor.announce ;;; Predictor.process_target G flag_t ;;;
      Predictor.process_ath G flag_a)%py (p, w) = (Done tt, (p2, w2)) ->
     dict_at w2 (Predictor.X p2) !! "gt" = Some a ->
     gtlog (g_processing G) a = Err e ->
     Predictor.data_process G flag_t flag_a true ar (p, w) =
       Predictor.process_ar G ar (p2, emit [PS Predictor.gt_error; PE e] w2)).
Proof.
  unfold Predictor.data_process. split; [| split].
  - intros He p0 w0 H0.
    assert (p0 = p) as ->.
    { revert H0. unfold Predictor.announce. run_prims. simpl.
      destruct (Predictor.verbose p); by intros [= <- _]. }
    split; [done |].
    rewrite (bind_run _ _ _ _ _ H0).
    by rewrite (bind_run _ _ _ _ _ (process_target_fails G p w0 e He)).
  - intros a p1 w1 H1 Ha He.
    apply bind_Done in H1 as ([] & s0 & H0 & H1).
    rewrite (bind_run _ _ _ _ _ H0), (bind_run _ _ _ _ _ H1).
    by rewrite (bind_run _ _ _ _ _ (process_ath_fails G p1 w1 a e Ha He)).
  - intros a p2 w2 H2 Ha He.
    apply bind_Done in H2 as ([] & s0 & H0 & H2).
    apply bind_Done in H2 as ([] & s1 & H1 & H2).
    rewrite (bind_run _ _ _ _ _ H0), (bind_run _ _ _ _ _ H1), (bind_run _ _ _ _ _ H2).
    by rewrite (bind_run _ _ _ _ _ (process_gt_fails G p2 w2 a e Ha He)).
Qed.

(** The sample target with a leading zero: the transform raises, the call
    goes on with the flag cleared and the error line printed. *)
Lemma transform_failure_is_soft_witness :
  let p := Sample.unit_zero in
  let w := Sample.world0 in
  logit_percent Sample.processing (Predictor.target p) = Err (LibraryError "zero or NaN") /\
  Predictor.data_process Sample.as_written true false false ARNone (p, w) =
    (Predictor.process_ath Sample.as_written false ;;;
     Predictor.process_gt Sample.as_written false ;;;
     Predictor.process_ar Sample.as_written ARNone)%py
      (Predictor.set_transform_target false p,
       emit [PS Predictor.target_error; PE (LibraryError "zero or NaN")] w).
Proof.
  intros p w. split; [reflexivity |].
  exact (proj2 (proj1 (transform_failure_is_soft Sample.as_written true false false ARNone
                         p w (LibraryError "zero or NaN")) eq_refl p w eq_refl)).
Defined.

(** The transform steps never raise and never loop. *)
Lemma process_target_total G flag s :
  exists s', Predictor.process_target G flag s = (Done tt, s').
Proof.
  unfold Predictor.process_target. run_prims. destruct s as [p w], flag; simpl; [| eauto].
  destruct (logit_percent _ _); simpl; [| eauto]. destruct (Predictor.verbose p); eauto.
Qed.

Lemma process_ath_total G flag s :
  exists s', Predictor.process_ath G flag s = (Done tt, s').
Proof.
  unfold Predictor.process_ath. run_prims. destruct s as [p w]. simpl.
  destruct (flag && _); simpl; [| eauto].
  destruct (_ !! "ath"); simpl; [| eauto].
  destruct (logit_percent_2d _ _); simpl; [| eauto]. destruct (Predictor.verbose p); eauto.
Qed.

Lemma process_gt_total G flag s :
  exists s', Predictor.process_gt G flag s = (Done tt, s').
Proof.
  unfold Predictor.process_gt. run_prims. destruct s as [p w]. simpl.
  destruct (flag && _); simpl; [| eauto].
  destruct (_ !! "gt"); simpl; [| eauto].
  destruct (gtlog _ _); simpl; [| eauto]. destruct (Predictor.verbose p); eauto.
Qed.

Lemma announce_total s : exists s', Predictor.announce s = (Done tt, s').
Proof.
  unfold Predictor.announce. run_prims. destruct s as [p w]. simpl.
  destruct (Predictor.verbose p); eauto.
Qed.

Lemma process_ar_default G s :
  Predictor.process_ar G Predictor.AR_terms_default s = (Raise TypeError, s).
Proof.
  unfold Predictor.process_ar, Predictor.discard_inputs. run_prims.
  destruct s as [p w]. simpl. by case_decide.
Qed.

(** C10. The default [AR_terms] is the non-empty string ['None']: it is
    truthy, the discard position computed from it is the character ['o'],
    and [data_process] raises on the first slice taken with it, in the very
    state in which the call with [AR_terms=None] returns normally. *)
Theorem data_process_default_AR_terms G flag_t flag_a flag_g s :
  Predictor.AR_terms_default = ARStr "None" /\
  Predictor.truthy Predictor.AR_terms_default = true /\
  Predictor.discard_of Predictor.AR_terms_default = Ok (PStr "o") /\
  exists s',
    Predictor.data_process G flag_t flag_a flag_g ARNone s = (Done tt, s') /\
    Predictor.data_process G flag_t flag_a flag_g Predictor.AR_terms_default s
      = (Raise TypeError, s').
Proof.
  do 3 (split; [reflexivity |]).
  unfold Predictor.data_process.
  destruct (announce_total s) as [s0 H0].
  destruct (process_target_total G flag_t s0) as [s1 H1].
  destruct (process_ath_total G flag_a s1) as [s2 H2].
  destruct (process_gt_total G flag_g s2) as [s3 H3].
  exists s3.
  rewrite !(bind_run _ _ _ _ _ H0), !(bind_run _ _ _ _ _ H1),
    !(bind_run _ _ _ _ _ H2), !(bind_run _ _ _ _ _ H3).
  split; [reflexivity | apply process_ar_default].
Qed.

(** ** Which dictionaries a predictor's methods write *)

Section Frames.
Context {A B : Type}.

Lemma frames_pure (m : M Predictor.st A) :
  (forall s, (m s).2 = s) -> frames m.
Proof. intros Hm s. rewrite Hm. done. Qed.

Lemma frames_ret (a : A) : frames (ret a).
Proof. by apply frames_pure. Qed.

Lemma frames_raise e : frames (raise (A := A) e).
Proof. by apply frames_pure. Qed.

Lemma frames_diverge : frames (diverge (A := A)).
Proof. by apply frames_pure. Qed.

Lemma frames_lift (r : result A) : frames (lift r).
Proof. destruct r; [apply frames_ret | apply frames_raise]. Qed.

Lemma frames_self (f : Predictor.t -> A) : frames (Predictor.self f).
Proof. by apply frames_pure. Qed.

Lemma frames_bind (m : M Predictor.st A) (k : A -> M Predictor.st B) :
  frames m -> (forall a, frames (k a)) -> frames (bind m k).
Proof.
  intros Hm Hk s. unfold bind. specialize (Hm s).
  destruct (m s) as [[a | e |] s1]; simpl in *; [| done | done].
  destruct Hm as (HX & Hl & Hs), (Hk a s1) as (HX' & Hl' & Hs').
  rewrite HX in *. split; [done |]. split.
  - intros l Hne. rewrite Hl' by done. by apply Hl.
  - auto.
Qed.

Lemma frames_try_except (body : M Predictor.st A) handler :
  frames body -> (forall e, frames (handler e)) -> frames (try_except body handler).
Proof.
  intros Hm Hk s. unfold try_except. specialize (Hm s).
  destruct (body s) as [[a | e |] s1]; simpl in *; [done | | done].
  destruct Hm as (HX & Hl & Hs), (Hk e s1) as (HX' & Hl' & Hs').
  rewrite HX in *. split; [done |]. split.
  - intros l Hne. rewrite Hl' by done. by apply Hl.
  - auto.
Qed.

End Frames.

Lemma frames_when b (m : M Predictor.st unit) : frames m -> frames (when b m).
Proof. destruct b; [done | intros _; apply frames_ret]. Qed.

Lemma frames_print line : frames (print (T := Predictor.t) line).
Proof. intros s. done. Qed.

Lemma frames_assign f :
  (forall p, Predictor.X (f p) = Predictor.X p) -> frames (Predictor.assign f).
Proof. intros Hf s. simpl. rewrite Hf. done. Qed.

Lemma frames_read_X : frames Predictor.read_X.
Proof. by apply frames_pure. Qed.

Lemma frames_write_X d : frames (Predictor.write_X d).
Proof.
  intros s. simpl. split; [done |]. split.
  - intros l Hne. by rewrite lookup_insert_ne.
  - intros _. rewrite lookup_insert_eq. eauto.
Qed.

Create HintDb frames.
#[local] Hint Resolve frames_ret frames_raise frames_diverge frames_lift frames_self
  frames_print frames_read_X frames_write_X frames_when : frames.

(** One step of a frame proof: split the body along its binds and handlers,
    and case on whatever a branch inspects. *)
Ltac frames_step :=
  first
    [ apply frames_bind; [| intros ?]
    | apply frames_try_except; [| intros ?]
    | apply frames_when
    | apply frames_assign; intros []; reflexivity
    | solve [auto with frames]
    | match goal with
      | |- frames (match ?x with _ => _ end) => destruct x
      | |- frames (let _ := _ in _) => cbv zeta
      end ].

Ltac frames_auto := repeat frames_step.

Lemma frames_getitem_X key : frames (Predictor.getitem_X key).
Proof. unfold Predictor.getitem_X. frames_auto. Qed.

Lemma frames_setitem_X key a : frames (Predictor.setitem_X key a).
Proof. unfold Predictor.setitem_X. frames_auto. Qed.

Lemma frames_read_predictions : frames Predictor.read_predictions.
Proof. unfold Predictor.read_predictions. frames_auto. Qed.

#[local] Hint Resolve frames_getitem_X frames_setitem_X frames_read_predictions : frames.

Lemma frames_data_process G flag_t flag_a flag_g ar :
  frames (Predictor.data_process G flag_t flag_a flag_g ar).
Proof.
  unfold Predictor.data_process, Predictor.announce, Predictor.process_target,
    Predictor.process_ath, Predictor.process_gt, Predictor.process_ar,
    Predictor.discard_inputs, Predictor.ar_trim.
  frames_auto.
Qed.

Lemma frames_predict G iv method horizon tl ins params :
  frames (Predictor.predict G iv method horizon tl ins params).
Proof.
  unfold Predictor.predict, Predictor.pre_prediction, Predictor.run_prediction,
    Predictor.post_prediction, Predictor.report_metrics, Predictor.stack_inputs,
    lookup_argo_functions.
  frames_auto.
Qed.

(** ** Independence of the predictors of one [Geo_model] *)

Lemma only_touches_refl i s : only_touches i s s.
Proof. by repeat split. Qed.

Lemma separated_no_predictors g w :
  is_Some (dicts w !! Geo_model.inputs g) -> Geo_model.model_list g = [] ->
  separated (g, w).
Proof.
  intros Hin Hnil. unfold separated. simpl. rewrite Hnil.
  split; [done |]. split; intros *; by rewrite ?lookup_nil.
Qed.

(** A call on the [i]-th predictor, for a method body that writes its own
    dictionary only. *)
Lemma on_predictor_isolated {A} i name (m : M Predictor.st A) s :
  frames m -> separated s ->
  separated (Geo_model.on_predictor i name m s).2 /\
  only_touches i s (Geo_model.on_predictor i name m s).2.
Proof.
  intros Hm Hsep. destruct s as [g w]. unfold Geo_model.on_predictor. simpl.
  destruct (Geo_model.model_list g !! i) as [[p | e] |] eqn:Hi; simpl;
    try (split; [done | apply only_touches_refl]).
  specialize (Hm (p, w)). destruct (m (p, w)) as [r [p' w']]. simpl in Hm.
  destruct Hm as (HX & Hother & Hown).
  destruct Hsep as (Hin & Hunits & Hdistinct). simpl in *.
  destruct (Hunits i p Hi) as [Hp Hpin].
  assert (Hlen : (i < length (Geo_model.model_list g))%nat)
    by (apply lookup_lt_is_Some; eauto).
  split; [split; [| split] |]; simpl.
  - rewrite Hother by done. done.
  - intros j q. destruct (decide (j = i)) as [-> | Hne].
    + rewrite list_lookup_insert_eq by done. intros [= <-]. rewrite HX. auto.
    + rewrite list_lookup_insert_ne by done. intros Hj.
      destruct (Hunits j q Hj) as [Hq Hqin]. split; [| done].
      rewrite Hother; [done |]. by apply (Hdistinct j i).
  - intros j k q q' Hjk.
    destruct (decide (j = i)) as [-> | Hj], (decide (k = i)) as [-> | Hk]; try done.
    + rewrite list_lookup_insert_eq, list_lookup_insert_ne by done.
      intros [= <-] Hq'. rewrite HX. by apply (Hdistinct i k).
    + rewrite list_lookup_insert_ne, list_lookup_insert_eq by done.
      intros Hq [= <-]. rewrite HX. by apply (Hdistinct j i).
    + rewrite !list_lookup_insert_ne by done. by apply Hdistinct.
  - unfold only_touches. simpl. do 3 (split; [done |]). split.
    + by apply Hother.
    + intros j Hj. rewrite list_lookup_insert_ne by done. split; [done |].
      intros q Hq. apply Hother. by apply (Hdistinct j i).
Qed.

Lemma perform_isolated G i c s :
  separated s ->
  separated (Geo_model.perform G i c s).2 /\
  only_touches i s (Geo_model.perform G i c s).2.
Proof.
  intros Hsep. destruct c as [[[[ft fa] fg] ar] | [[[[iv method] horizon] tl] ins] params];
    simpl; apply on_predictor_isolated; try done.
  - apply frames_data_process.
  - apply frames_predict.
Qed.

(** The constructor call of [init_predictor] and [init_prediction_layer]:
    the dictionary handed to the new predictor is a new object holding what
    the orchestrator's dictionary holds; the target and the calendar are
    the orchestrator's values. *)
Lemma new_predictor_spec lab g w :
  let r := Geo_model.new_predictor lab (g, w) in
  exists l,
  r.2.1 = g /\
  dicts w !! l = None /\
  dicts r.2.2 = <[l := dict_at w (Geo_model.inputs g)]> (dicts w) /\
  forall p, r.1 = Done p ->
    Predictor.X p = l /\
    Predictor.target p = Geo_model.target g /\
    Predictor.target_reserve p = Geo_model.target g /\
    Predictor.datelist p = Geo_model.datelist g.
Proof.
  intros r. subst r. unfold Geo_model.new_predictor, alloc_dict. simpl.
  exists (fresh (dom (dicts w))).
  assert (Hl : dicts w !! fresh (dom (dicts w)) = None) by (apply not_elem_of_dom, is_fresh).
  destruct lab as [lb | e]; simpl; (split; [done |]); (split; [done |]);
    (split; [done |]); by intros q [= <-].
Qed.

Lemma separated_alloc g w l d :
  dicts w !! l = None -> forall w',
  dicts w' = <[l := d]> (dicts w) -> separated (g, w) -> separated (g, w').
Proof.
  intros Hl w' Hw' (Hin & Hunits & Hdistinct). simpl in *.
  assert (Hkeep : forall k, is_Some (dicts w !! k) -> is_Some (dicts w' !! k)).
  { intros k Hk. rewrite Hw', lookup_insert_ne; [done |]. intros ->.
    rewrite Hl in Hk. by destruct Hk. }
  split; [| split]; simpl; [auto | | done].
  intros i p Hi. destruct (Hunits i p Hi). auto.
Qed.

Lemma init_predictor_separated label s :
  separated s ->
  let s' := (Geo_model.init_predictor label s).2 in
  separated s' /\
  only_touches (length (Geo_model.model_list s.1)) s s' /\
  exists p,
    Geo_model.model_list s'.1 = Geo_model.model_list s.1 ++ [MPredictor p] /\
    Predictor.target p = Geo_model.target s.1 /\
    Predictor.datelist p = Geo_model.datelist s.1 /\
    dict_at s'.2 (Predictor.X p) = dict_at s.2 (Geo_model.inputs s.1).
Proof.
  intros Hsep. destruct s as [g w].
  destruct (new_predictor_spec (Ok label) g w) as (l & Hg & Hl & Hd & Hp).
  unfold Geo_model.init_predictor. run_prims.
  destruct (Geo_model.new_predictor (Ok label) (g, w)) as [[p | e |] [g1 w1]] eqn:Hnew;
    simpl in *; try done.
  subst g1. destruct (Hp p eq_refl) as (HX & Htg & _ & Hdl).
  pose proof (separated_alloc g w _ _ Hl w1 Hd Hsep) as (Hin & Hunits & Hdistinct).
  destruct Hsep as (Hgin & Hu & _). simpl in *.
  assert (Hold : forall k, is_Some (dicts w !! k) -> dicts w1 !! k = dicts w !! k).
  { intros k Hk. rewrite Hd, lookup_insert_ne; [done |]. intros ->.
    rewrite Hl in Hk. by destruct Hk. }
  assert (Hfresh : forall k, is_Some (dicts w !! k) -> k <> Predictor.X p).
  { intros k Hk ->. rewrite HX, Hl in Hk. by destruct Hk. }
  assert (Hnew_ne : forall j q, Geo_model.model_list g !! j = Some (MPredictor q) ->
                                Predictor.X q <> Predictor.X p).
  { intros j q Hj. apply Hfresh. by destruct (Hu j q Hj). }
  split; [split; [| split] | split]; simpl.
  - done.
  - intros i q Hi. apply lookup_app_Some in Hi as [Hi | [_ Hi]]; [eauto |].
    apply list_lookup_singleton_Some in Hi as [_ [= <-]]. split.
    + rewrite HX, Hd, lookup_insert_eq. eauto.
    + intros Heq. by apply (Hfresh _ Hgin).
  - intros i j q q' Hij Hi Hj.
    apply lookup_app_Some in Hi as [Hi | [Hile Hi]];
      apply lookup_app_Some in Hj as [Hj | [Hjle Hj]].
    + by apply (Hdistinct i j).
    + apply list_lookup_singleton_Some in Hj as [_ [= <-]]. by apply (Hnew_ne i).
    + apply list_lookup_singleton_Some in Hi as [_ [= <-]].
      intros Heq. by apply (Hnew_ne j q').
    + apply list_lookup_singleton_Some in Hi as [Hi _].
      apply list_lookup_singleton_Some in Hj as [Hj _]. lia.
  - unfold only_touches. simpl. do 3 (split; [done |]). split.
    + by apply Hold.
    + intros j Hj. split.
      * destruct (decide (j < length (Geo_model.model_list g))%nat).
        -- by rewrite lookup_app_l.
        -- rewrite !lookup_ge_None_2; [done | lia |]. rewrite length_app. simpl. lia.
      * intros q Hq. apply Hold. by destruct (Hu j q Hq).
  - exists p. repeat split; try done.
    unfold dict_at. by rewrite HX, Hd, lookup_insert_eq.
Qed.

Section Preserves.
Context {S : Type} (P : S -> Prop).

Lemma preserves_bind {A B} (m : M S A) (k : A -> M S B) :
  preserves P m -> (forall a, preserves P (k a)) -> preserves P (bind m k).
Proof.
  intros Hm Hk s Hs. unfold bind. specialize (Hm s Hs).
  destruct (m s) as [[a | e |] s1]; simpl in *; [by apply Hk | done | done].
Qed.

Lemma preserves_lift {A} (r : result A) : preserves P (lift r).
Proof. destruct r; intros s Hs; exact Hs. Qed.

Lemma preserves_for_each {A} (f : A -> M S unit) l :
  (forall a, preserves P (f a)) -> preserves P (for_each f l).
Proof.
  intros Hf. induction l as [| a l IH]; simpl; [intros s Hs; exact Hs |].
  apply preserves_bind; [apply Hf | intros _; apply IH].
Qed.

End Preserves.

(** The predictors built by the comprehension of [init_prediction_layer]:
    each holds a dictionary object that did not exist before, all of them
    different; the objects that existed are as they were. *)
Lemma new_predictors_spec (f : nat -> result string) l : forall g w,
  let r := map_m (fun i => Geo_model.new_predictor (f i)) l (g, w) in
  r.2.1 = g /\
  (forall k, is_Some (dicts w !! k) -> dicts r.2.2 !! k = dicts w !! k) /\
  forall ps, r.1 = Done ps ->
    NoDup (Predictor.X <$> ps) /\
    Forall (fun p => dicts w !! Predictor.X p = None /\
                     is_Some (dicts r.2.2 !! Predictor.X p)) ps.
Proof.
  induction l as [| a l IH]; intros g w; cbn [map_m].
  - split; [done |]. split; [auto |]. intros ps [= <-]. split; constructor.
  - destruct (new_predictor_spec (f a) g w) as (l1 & Hg & Hl & Hd & Hp).
    assert (Hkeep : forall w1, dicts w1 = <[l1 := dict_at w (Geo_model.inputs g)]> (dicts w) ->
              forall k, is_Some (dicts w !! k) -> dicts w1 !! k = dicts w !! k).
    { intros w1 Hw1 k Hk. rewrite Hw1, lookup_insert_ne; [done |]. intros ->.
      rewrite Hl in Hk. by destruct Hk. }
    destruct (Geo_model.new_predictor (f a) (g, w)) as [[p | e |] [g1 w1]] eqn:Hnew;
      cbn [fst snd] in Hg, Hd, Hp; subst g1; specialize (Hkeep w1 Hd).
    2: { rewrite (bind_raise _ _ _ _ _ Hnew). by repeat split. }
    2: { rewrite (bind_diverge _ _ _ _ Hnew). by repeat split. }
    rewrite (bind_run _ _ _ _ _ Hnew).
    destruct (Hp p eq_refl) as (HX & _).
    assert (Hown : is_Some (dicts w1 !! l1)) by (rewrite Hd, lookup_insert_eq; eauto).
    destruct (IH g w1) as (Hg' & Hsame & Hps).
    assert (Hboth : forall w2, (forall k, is_Some (dicts w1 !! k) ->
                                 dicts w2 !! k = dicts w1 !! k) ->
              forall k, is_Some (dicts w !! k) -> dicts w2 !! k = dicts w !! k).
    { intros w2 Hw2 k Hk. rewrite Hw2, Hkeep; [done | done | by rewrite Hkeep]. }
    destruct (map_m (fun i => Geo_model.new_predictor (f i)) l (g, w1)) as [[ps | e |] [g2 w2]] eqn:Hmap;
      cbn [fst snd] in Hg', Hsame, Hps; subst g2; specialize (Hboth w2 Hsame).
    2: { rewrite (bind_raise _ _ _ _ _ Hmap). by repeat split. }
    2: { rewrite (bind_diverge _ _ _ _ Hmap). by repeat split. }
    rewrite (bind_run _ _ _ _ _ Hmap). cbn [ret fst snd].
    split; [done |]. split; [done |].
    intros ps' [= <-]. destruct (Hps ps eq_refl) as [Hnd Hall]. split.
    + rewrite fmap_cons. constructor; [| done]. rewrite HX. intros Hin.
      apply list_elem_of_fmap in Hin as (q & Hq & Hqin).
      rewrite Forall_forall in Hall. destruct (Hall q Hqin) as [Hnone _].
      rewrite <- Hq in Hnone. rewrite Hnone in Hown. by destruct Hown.
    + constructor.
      * rewrite HX. split; [done |]. by rewrite Hsame.
      * eapply Forall_impl; [exact Hall |]. cbn beta. intros q [Hnone Hsome].
        split; [| done]. destruct (dicts w !! Predictor.X q) eqn:Hq; [| done].
        rewrite Hkeep in Hnone by eauto. congruence.
Qed.

Lemma init_prediction_layer_separated G n labels pspecs qspecs :
  preserves separated (Geo_model.init_prediction_layer G n labels pspecs qspecs).
Proof.
  intros [g w] Hsep. unfold Geo_model.init_prediction_layer.
  destruct (new_predictors_spec (fun i => getitem labels (Z.of_nat i))
              (seq 0 (Z.to_nat n)) g w) as (Hg & Hsame & Hps).
  destruct (map_m (fun i => Geo_model.new_predictor (getitem labels (Z.of_nat i)))
              (seq 0 (Z.to_nat n)) (g, w)) as [[ps | e |] [g1 w1]] eqn:Hnew;
    cbn [fst snd] in Hg, Hsame, Hps; subst g1.
  2: { rewrite (bind_raise _ _ _ _ _ Hnew). cbn [snd].
       destruct Hsep as (Hin & Hunits & Hdistinct). cbn [fst snd] in *.
       split; [| split]; cbn [fst snd]; [by rewrite Hsame | | done].
       intros i p Hi. destruct (Hunits i p Hi). split; [by rewrite Hsame | done]. }
  2: { rewrite (bind_diverge _ _ _ _ Hnew). cbn [snd].
       destruct Hsep as (Hin & Hunits & Hdistinct). cbn [fst snd] in *.
       split; [| split]; cbn [fst snd]; [by rewrite Hsame | | done].
       intros i p Hi. destruct (Hunits i p Hi). split; [by rewrite Hsame | done]. }
  rewrite (bind_run _ _ _ _ _ Hnew).
  destruct (Hps ps eq_refl) as [Hnd Hall]. rewrite Forall_forall in Hall.
  assert (Hsep1 : separated (Geo_model.set_model_list (MPredictor <$> ps) g, w1)).
  { destruct Hsep as (Hin & _ & _). simpl in *. split; [| split]; simpl.
    - by rewrite Hsame.
    - intros i p Hi. apply list_lookup_fmap_Some in Hi as (q & [= ->] & Hq).
      destruct (Hall q) as [Hnone Hsome]; [by eapply list_elem_of_lookup_2 |].
      split; [done |]. intros Heq. rewrite <- Heq, Hnone in Hin. by destruct Hin.
    - intros i j p q Hij Hi Hj.
      apply list_lookup_fmap_Some in Hi as (p' & [= ->] & Hp').
      apply list_lookup_fmap_Some in Hj as (q' & [= ->] & Hq').
      intros Heq. apply Hij. eapply NoDup_lookup; [exact Hnd | |].
      + by rewrite list_lookup_fmap, Hp'.
      + by rewrite list_lookup_fmap, Hq', Heq. }
  rewrite (bind_run _ _ _ tt (Geo_model.set_model_list (MPredictor <$> ps) g, w1))
    by reflexivity.
  revert Hsep1. generalize (Geo_model.set_model_list (MPredictor <$> ps) g, w1).
  change (preserves separated
    (ms <- Geo_model.self Geo_model.model_list ;;
     for_each
       (fun i =>
          a <- lift (getitem pspecs (Z.of_nat i)) ;;
          Geo_model.perform G i (Geo_model.DataProcess a) ;;;
          b <- lift (getitem qspecs (Z.of_nat i)) ;;
          Geo_model.perform G i (Geo_model.Predict b []))
       (seq 0 (length ms)))%py).
  apply preserves_bind; [intros s Hs; exact Hs | intros ms].
  apply preserves_for_each. intros i.
  apply preserves_bind; [apply preserves_lift | intros a].
  apply preserves_bind; [intros s Hs; by apply perform_isolated | intros _].
  apply preserves_bind; [apply preserves_lift | intros b].
  intros s Hs. by apply perform_isolated.
Qed.

(** C7. Starting from a [Geo_model] whose dictionaries are separate
    objects (in particular one that has no predictor yet):
    [init_predictor] and [init_prediction_layer] keep them separate, the
    predictor [init_predictor] appends holds the orchestrator's target and
    calendar and a dictionary of its own with the orchestrator's contents,
    and a [data_process] or [predict] call on the [i]-th predictor leaves
    the orchestrator's inputs, target and calendar, every other entry of
    [model_list] and the dictionaries of those entries exactly as they
    were. *)
Theorem predictor_isolation G s :
  separated s ->
  (forall label,
     let s' := (Geo_model.init_predictor label s).2 in
     separated s' /\
     only_touches (length (Geo_model.model_list s.1)) s s' /\
     exists p,
       Geo_model.model_list s'.1 = Geo_model.model_list s.1 ++ [MPredictor p] /\
       Predictor.target p = Geo_model.target s.1 /\
       Predictor.datelist p = Geo_model.datelist s.1 /\
       dict_at s'.2 (Predictor.X p) = dict_at s.2 (Geo_model.inputs s.1)) /\
  (forall n labels pspecs qspecs,
     separated (Geo_model.init_prediction_layer G n labels pspecs qspecs s).2) /\
  (forall i c,
     separated (Geo_model.perform G i c s).2 /\
     only_touches i s (Geo_model.perform G i c s).2).
Proof.
  intros Hsep. split; [| split].
  - intros label. by apply init_predictor_separated.
  - intros n labels pspecs qspecs. by apply init_prediction_layer_separated.
  - intros i c. by apply perform_isolated.
Qed.

(** Two predictors made from the sample model; processing the first leaves
    the second and the model alone. *)
Lemma predictor_isolation_witness :
  let s0 := (Sample.geo "2013-01-20", Sample.world0) in
  let sA := (Geo_model.init_predictor "A" s0).2 in
  let sB := (Geo_model.init_predictor "B" sA).2 in
  let call := Geo_model.DataProcess (true, true, true, ARInt 1) in
  separated s0 /\
  separated sB /\
  only_touches 0 sB (Geo_model.perform Sample.as_written 0 call sB).2.
Proof.
  intros s0 sA sB call.
  assert (H0 : separated s0).
  { apply separated_no_predictors; [| reflexivity]. eexists. vm_compute. reflexivity. }
  pose proof (proj1 (proj1 (predictor_isolation Sample.as_written s0 H0) "A")) as HA.
  pose proof (proj1 (proj1 (predictor_isolation Sample.as_written sA HA) "B")) as HB.
  split; [exact H0 |]. split; [exact HB |].
  exact (proj2 (proj2 (proj2 (predictor_isolation Sample.as_written sB HB)) 0%nat call)).
Defined.

(** * Further properties of [predict] *)

Lemma index_of_lookup d l i : index_of d l = Some i -> l !! i = Some d.
Proof.
  revert i. induction l as [| y l IH]; intros i; simpl; [done |].
  case_decide as Hy; [by intros [= <-]; subst |].
  destruct (index_of d l) as [j |]; [| done]. intros [= <-]. by apply IH.
Qed.

Lemma index_of_drop d l i k :
  index_of d l = Some i -> (k <= i)%nat -> index_of d (drop k l) = Some (i - k)%nat.
Proof.
  revert i k. induction l as [| y l IH]; intros i k; simpl; [done |].
  destruct k as [| k]; simpl.
  - intros H _. by rewrite Nat.sub_0_r.
  - case_decide as Hy; [intros [= <-]; lia |].
    destruct (index_of d l) as [j |] eqn:Hj; [| done]. intros [= <-] Hk.
    apply (IH j k); [done | lia].
Qed.

Lemma index_of_None d l : index_of d l = None -> d ∉ l.
Proof.
  induction l as [| y l IH]; simpl; [intros _; apply not_elem_of_nil |].
  case_decide as Hy; [done |].
  destruct (index_of d l); [done |]. intros _.
  apply not_elem_of_cons. split; [congruence | by apply IH].
Qed.

(** The pre-prediction part in the three ways it stops before touching the
    receiver: the date is not in the calendar, the window is not a number,
    the window reaches before the first date. *)
Lemma pre_prediction_stops G iv method tl ins p w Xs d :
  Predictor.stacked (dict_at w (Predictor.X p)) iv = Ok Xs ->
  to_datetime G (Predictor.start_date p) = Ok d ->
  let stops e :=
    exists w', Predictor.pre_prediction G iv method tl ins (p, w) = (Raise e, (p, w')) /\
               dicts w' = dicts w in
  (index_of d (Predictor.datelist p) = None -> stops ValueError) /\
  (forall i, index_of d (Predictor.datelist p) = Some i ->
     Predictor.resolve_train_len tl (Predictor.resolution p) = None ->
     stops TypeError) /\
  (forall i n, index_of d (Predictor.datelist p) = Some i ->
     Predictor.resolve_train_len tl (Predictor.resolution p) = Some n ->
     Z.of_nat i - n < 0 ->
     stops (AssertionError Predictor.not_enough_data)).
Proof.
  intros HXs Hd. unfold Predictor.pre_prediction, list_index. run_prims.
  destruct p as [X tg tr lb sd dl res v flag pr]. unfold dict_at in *. simpl in *.
  split; [| split].
  - intros Hi. destruct v; simpl; rewrite HXs; simpl; rewrite Hd; simpl; rewrite Hi;
      simpl; eauto.
  - intros i Hi Hn. destruct v; simpl; rewrite HXs; simpl; rewrite Hd; simpl; rewrite Hi;
      simpl; rewrite Hn; simpl; eauto.
  - intros i n Hi Hn Hlt.
    assert (Hneg : (0 <=? Z.of_nat i - n) = false) by (apply Z.leb_gt; lia).
    destruct v; simpl; rewrite HXs; simpl; rewrite Hd; simpl; rewrite Hi;
      simpl; rewrite Hn; simpl; rewrite Hneg; simpl; eauto.
Qed.

Lemma index_of_not_elem d l : d ∉ l -> index_of d l = None.
Proof.
  induction l as [| y l IH]; simpl; [done |].
  intros [Hy Hl]%not_elem_of_cons. case_decide; [congruence |]. by rewrite IH.
Qed.

Lemma getitem_lookup {A} (l : list A) i x :
  l !! i = Some x -> getitem l (Z.of_nat i) = Ok x.
Proof.
  intros Hi. unfold getitem.
  destruct (Z.ltb_spec (Z.of_nat i) 0); [lia |]. simpl.
  destruct (Z.ltb_spec (Z.of_nat i) 0); [lia |]. by rewrite Nat2Z.id, Hi.
Qed.

(** The pre-prediction part when nothing stops it. *)
Lemma pre_prediction_runs G iv method tl ins p w Xs d i n :
  Predictor.stacked (dict_at w (Predictor.X p)) iv = Ok Xs ->
  to_datetime G (Predictor.start_date p) = Ok d ->
  index_of d (Predictor.datelist p) = Some i ->
  Predictor.resolve_train_len tl (Predictor.resolution p) = Some n ->
  0 <= n <= Z.of_nat i ->
  let shift := Z.of_nat i in
  exists w1,
    Predictor.pre_prediction G iv method tl ins (p, w)
      = (Done (slice_from (shift - n) Xs, n),
         (Predictor.mk (Predictor.X p)
            (slice_from (shift - n) (Predictor.target p))
            (slice_from (shift - n) (Predictor.target_reserve p))
            (Predictor.label p) (Predictor.start_date p)
            (slice_from (shift - n * (if ins then 1 else 0)) (Predictor.datelist p))
            (Predictor.resolution p) (Predictor.verbose p)
            (Predictor.transform_target p) (Predictor.predictions p), w1)) /\
    dicts w1 = dicts w.
Proof.
  intros HXs Hd Hi Hn Hrange shift.
  pose proof (index_of_lookup _ _ _ Hi) as Hlook.
  assert (Hge : (0 <=? shift - n) = true) by (apply Z.leb_le; lia).
  assert (Hfirst : exists x, getitem (Predictor.datelist p) (shift - n * 1) = Ok x).
  { destruct (lookup_lt_is_Some_2 (Predictor.datelist p) (i - Z.to_nat n)%nat) as [x Hx].
    - apply lookup_lt_Some in Hlook. lia.
    - exists x. replace (shift - n * 1) with (Z.of_nat (i - Z.to_nat n)) by lia.
      by apply getitem_lookup. }
  destruct Hfirst as [x Hx].
  pose proof (getitem_lookup _ _ _ Hlook) as Hhere. fold shift in Hhere.
  unfold Predictor.pre_prediction, list_index. run_prims.
  destruct p as [X tg tr lb sd dl res v flag pr]. unfold dict_at in *. simpl in *.
  destruct v, ins; simpl; rewrite HXs; simpl; rewrite Hd; simpl; rewrite Hi; simpl;
    rewrite Hn; simpl; fold shift; rewrite Hge; simpl;
    rewrite ?Hx; simpl; rewrite ?Hhere; simpl; eauto.
Qed.

(** X1. [predict] looks the start date up by exact match ([list.index]): when
    the inputs stack and the date parses but is not one of the calendar's
    dates, the call raises [ValueError] and the receiver and the
    dictionaries are what they were. *)
Theorem predict_start_date_not_in_calendar
    G iv method horizon tl ins params p w Xs d :
  Predictor.stacked (dict_at w (Predictor.X p)) iv = Ok Xs ->
  to_datetime G (Predictor.start_date p) = Ok d ->
  d ∉ Predictor.datelist p ->
  exists w',
    Predictor.predict G iv method horizon tl ins params (p, w)
      = (Raise ValueError, (p, w')) /\
    dicts w' = dicts w.
Proof.
  intros HXs Hd Hnot.
  destruct (pre_prediction_stops G iv method tl ins p w Xs d HXs Hd) as (Hstop & _).
  destruct (Hstop (index_of_not_elem _ _ Hnot)) as (w' & Hpre & Hw').
  exists w'. split; [| done]. unfold Predictor.predict. by rewrite (bind_raise _ _ _ _ _ Hpre).
Qed.

(** The sample calendar is weekly from 2013-01-06; 2013-01-21 is a Monday. *)
Lemma predict_start_date_not_in_calendar_witness :
  let p := Predictor.mk 1%positive Sample.series Sample.series "A" "2013-01-21"
             Sample.weeks "week" false false None in
  exists w',
    Predictor.predict Sample.as_written (Predictor.IVList ["ath"; "gt"]) "ARGO" 0
      (Predictor.TLInt 1) false [] (p, Sample.world0) = (Raise ValueError, (p, w')) /\
    dicts w' = dicts Sample.world0.
Proof.
  intros p.
  eapply (predict_start_date_not_in_calendar Sample.as_written
            (Predictor.IVList ["ath"; "gt"]) "ARGO" 0 (Predictor.TLInt 1) false [] p
            Sample.world0 _ 15726).
  - vm_compute; reflexivity.
  - vm_compute; reflexivity.
  - apply index_of_None. vm_compute; reflexivity.
Defined.

Lemma bind_same_start {S A B} (m m' : M S A) (k : A -> M S B) s :
  m s = m' s -> bind m k s = bind m' k s.
Proof. unfold bind. by intros ->. Qed.

Lemma pre_prediction_default_week G iv method ins s n :
  Predictor.resolve_train_len Predictor.TLDefault (Predictor.resolution s.1) = Some n ->
  Predictor.pre_prediction G iv method Predictor.TLDefault ins s =
  Predictor.pre_prediction G iv method (Predictor.TLInt n) ins s.
Proof.
  intros Hn. destruct s as [p w]. unfold Predictor.pre_prediction, list_index. run_prims.
  destruct p as [X tg tr lb sd dl res v flag pr]. cbn [fst snd Predictor.resolution] in Hn.
  unfold Predictor.resolve_train_len in *.
  destruct v; simpl.
  all: destruct (Predictor.stacked _ iv); simpl; [| done].
  all: destruct (to_datetime G sd); simpl; [| done].
  all: destruct (index_of _ dl); simpl; [| done].
  all: by rewrite Hn.
Qed.

(** X2. The default window of [predict]: 104 periods for a weekly
    predictor, 24 for a monthly one.  For any other resolution [train_len]
    stays the string ['default'], and a call that gets as far as the offsets
    (inputs stack, start date found) raises [TypeError] with the receiver
    and the dictionaries unchanged. *)
Theorem predict_default_window G iv method horizon ins params p w :
  (Predictor.resolution p = "week" ->
   Predictor.predict G iv method horizon Predictor.TLDefault ins params (p, w) =
   Predictor.predict G iv method horizon (Predictor.TLInt 104) ins params (p, w)) /\
  (Predictor.resolution p = "month" ->
   Predictor.predict G iv method horizon Predictor.TLDefault ins params (p, w) =
   Predictor.predict G iv method horizon (Predictor.TLInt 24) ins params (p, w)) /\
  (Predictor.resolution p <> "week" -> Predictor.resolution p <> "month" ->
   forall Xs d,
     Predictor.stacked (dict_at w (Predictor.X p)) iv = Ok Xs ->
     to_datetime G (Predictor.start_date p) = Ok d ->
     d ∈ Predictor.datelist p ->
     exists w',
       Predictor.predict G iv method horizon Predictor.TLDefault ins params (p, w)
         = (Raise TypeError, (p, w')) /\
       dicts w' = dicts w).
Proof.
  split; [| split].
  - intros Hres. unfold Predictor.predict. apply bind_same_start.
    apply pre_prediction_default_week. simpl. by rewrite Hres.
  - intros Hres. unfold Predictor.predict. apply bind_same_start.
    apply pre_prediction_default_week. simpl. by rewrite Hres.
  - intros Hw Hm Xs d HXs Hd Hin.
    destruct (index_of d (Predictor.datelist p)) as [i |] eqn:Hi;
      [| by apply index_of_None in Hi].
    destruct (pre_prediction_stops G iv method Predictor.TLDefault ins p w Xs d HXs Hd)
      as (_ & Hstop & _).
    destruct (Hstop i Hi) as (w' & Hpre & Hw').
    { unfold Predictor.resolve_train_len. by repeat case_decide. }
    exists w'. split; [| done]. unfold Predictor.predict.
    by rewrite (bind_raise _ _ _ _ _ Hpre).
Qed.

Lemma predict_default_window_witness :
  exists w',
    Predictor.predict Sample.as_written (Predictor.IVList ["ath"; "gt"]) "ARGO" 0
      Predictor.TLDefault false [] (Examples.unit_daily, Sample.world0)
      = (Raise TypeError, (Examples.unit_daily, w')) /\
    dicts w' = dicts Sample.world0.
Proof.
  eapply (proj2 (proj2 (predict_default_window Sample.as_written
            (Predictor.IVList ["ath"; "gt"]) "ARGO" 0 false []
            Examples.unit_daily Sample.world0)) ltac:(done) ltac:(done) _ 15725).
  - vm_compute; reflexivity.
  - vm_compute; reflexivity.
  - apply (list_elem_of_lookup_2 _ 2%nat). reflexivity.
Defined.

(** X3. After a completed [predict] with a window of [train_len >= 0]
    periods the calendar has been re-indexed on the start date: out of
    sample its first date is the start date; in sample the start date is
    its entry number [train_len], the first one of that value. *)
Theorem predict_calendar_reindexed
    G iv method horizon tl ins params p w p' w' d train_len :
  to_datetime G (Predictor.start_date p) = Ok d ->
  Predictor.resolve_train_len tl (Predictor.resolution p) = Some train_len ->
  0 <= train_len ->
  Predictor.predict G iv method horizon tl ins params (p, w) = (Done tt, (p', w')) ->
  index_of d (Predictor.datelist p')
    = Some (if ins then Z.to_nat train_len else 0%nat) /\
  Predictor.datelist p' !! (if ins then Z.to_nat train_len else 0%nat) = Some d.
Proof.
  intros Hd Hn Hnn Hrun.
  apply predict_Done in Hrun
    as (Xs & d' & shift & n & raw & preds & tinv
        & _ & Hd' & Hshift & Hn' & Hge & _ & _ & -> & _).
  rewrite Hd in Hd'. injection Hd' as <-. rewrite Hn in Hn'. injection Hn' as <-.
  unfold list_index in Hshift.
  destruct (index_of d (Predictor.datelist p)) as [i |] eqn:Hi; [| done].
  injection Hshift as <-. cbn [Predictor.datelist].
  rewrite slice_from_nonneg by (destruct ins; lia).
  assert (Hpos : index_of d (drop (Z.to_nat (Z.of_nat i - train_len * (if ins then 1 else 0)))
                               (Predictor.datelist p))
                 = Some (if ins then Z.to_nat train_len else 0%nat)).
  { rewrite (index_of_drop d _ i) by (done || destruct ins; lia).
    f_equal. destruct ins; lia. }
  split; [done | by apply index_of_lookup].
Qed.

Lemma predict_calendar_reindexed_witness :
  let r := Predictor.predict Sample.as_written (Predictor.IVList ["ath"; "gt"])
             "ARGO" 1 (Predictor.TLInt 1) true [] (Sample.unit0, Sample.world0) in
  r.1 = Done tt /\
  index_of 15725 (Predictor.datelist r.2.1) = Some 1%nat /\
  Predictor.datelist r.2.1 !! 1%nat = Some 15725.
Proof.
  intros r.
  assert (Hrun : r = (Done tt, (r.2.1, r.2.2))) by (vm_compute; reflexivity).
  split; [exact (f_equal fst Hrun) |].
  exact (predict_calendar_reindexed Sample.as_written (Predictor.IVList ["ath"; "gt"])
           "ARGO" 1 (Predictor.TLInt 1) true [] Sample.unit0 Sample.world0 r.2.1 r.2.2
           15725 1 eq_refl eq_refl ltac:(lia) Hrun).
Defined.

(** X4. [predict] consumes its history: after a completed out-of-sample call
    with a window of [train_len > 0] periods the calendar starts at the
    start date, so any further call on the same predictor with the same
    inputs and window raises the insufficient-history assertion, whatever
    the method, horizon and sample mode, and changes nothing. *)
Theorem predict_again_out_of_history
    G iv method horizon tl params p w p' w' train_len
    method2 horizon2 ins2 params2 :
  Predictor.resolve_train_len tl (Predictor.resolution p) = Some train_len ->
  0 < train_len ->
  Predictor.predict G iv method horizon tl false params (p, w) = (Done tt, (p', w')) ->
  exists w'',
    Predictor.predict G iv method2 horizon2 tl ins2 params2 (p', w')
      = (Raise (AssertionError Predictor.not_enough_data), (p', w'')) /\
    dicts w'' = dicts w'.
Proof.
  intros Hn Hpos Hrun.
  apply predict_Done in Hrun
    as (Xs & d & shift & n & raw & preds & tinv
        & HXs & Hd & Hshift & Hn' & Hge & _ & _ & -> & Hw').
  rewrite Hn in Hn'. injection Hn' as <-.
  unfold list_index in Hshift.
  destruct (index_of d (Predictor.datelist p)) as [i |] eqn:Hi; [| done].
  injection Hshift as <-.
  set (p' := Predictor.mk _ _ _ _ _ _ _ _ _ _).
  destruct (pre_prediction_stops G iv method2 tl ins2 p' w' Xs d) as (_ & _ & Hstop).
  { unfold dict_at. subst p'. cbn [Predictor.X]. rewrite Hw'. exact HXs. }
  { exact Hd. }
  destruct (Hstop 0%nat train_len) as (w'' & Hpre & Hw'').
  - subst p'. cbn [Predictor.datelist]. rewrite slice_from_nonneg by lia.
    rewrite (index_of_drop d _ i) by (done || lia). f_equal. lia.
  - exact Hn.
  - lia.
  - exists w''. split; [| done]. unfold Predictor.predict.
    by rewrite (bind_raise _ _ _ _ _ Hpre).
Qed.

Lemma predict_again_out_of_history_witness :
  let r := Predictor.predict Sample.as_written (Predictor.IVList ["ath"; "gt"])
             "ARGO" 1 (Predictor.TLInt 1) false [] (Sample.unit0, Sample.world0) in
  r.1 = Done tt /\
  exists w'',
    Predictor.predict Sample.as_written (Predictor.IVList ["ath"; "gt"])
      "ARGO" 0 (Predictor.TLInt 1) true [] (r.2.1, r.2.2)
      = (Raise (AssertionError Predictor.not_enough_data), (r.2.1, w'')) /\
    dicts w'' = dicts r.2.2.
Proof.
  intros r.
  assert (Hrun : r = (Done tt, (r.2.1, r.2.2))) by (vm_compute; reflexivity).
  split; [exact (f_equal fst Hrun) |].
  exact (predict_again_out_of_history Sample.as_written (Predictor.IVList ["ath"; "gt"])
           "ARGO" 1 (Predictor.TLInt 1) [] Sample.unit0 Sample.world0 r.2.1 r.2.2 1
           "ARGO" 0 true [] eq_refl ltac:(lia) Hrun).
Defined.

(** X5. A provider that raises leaves the predictor half updated: the
    exception leaves [predict], the target, its reserve and the calendar
    have already been cut to the window, [predictions] is what it was, and
    no dictionary is written. *)
Theorem predict_provider_failure
    G iv method horizon tl ins params p w Xs d predict_index train_len e :
  Predictor.stacked (dict_at w (Predictor.X p)) iv = Ok Xs ->
  to_datetime G (Predictor.start_date p) = Ok d ->
  index_of d (Predictor.datelist p) = Some predict_index ->
  Predictor.resolve_train_len tl (Predictor.resolution p) = Some train_len ->
  0 <= train_len <= Z.of_nat predict_index ->
  let start := (predict_index - Z.to_nat train_len)%nat in
  make_predictions (g_argo_class G) (drop start Xs) (drop start (Predictor.target p))
    (Predictor.transform_target p) method horizon train_len ins params = Err e ->
  exists w',
    Predictor.predict G iv method horizon tl ins params (p, w)
      = (Raise e,
         (Predictor.mk (Predictor.X p)
            (drop start (Predictor.target p))
            (drop start (Predictor.target_reserve p))
            (Predictor.label p) (Predictor.start_date p)
            (drop (if ins then start else predict_index) (Predictor.datelist p))
            (Predictor.resolution p) (Predictor.verbose p)
            (Predictor.transform_target p) (Predictor.predictions p), w')) /\
    dicts w' = dicts w.
Proof.
  intros HXs Hd Hi Hn Hrange start Hraise.
  destruct (pre_prediction_runs G iv method tl ins p w Xs d predict_index train_len
              HXs Hd Hi Hn Hrange) as (w1 & Hpre & Hw1).
  assert (Hstart : Z.to_nat (Z.of_nat predict_index - train_len) = start)
    by (subst start; lia).
  rewrite !slice_from_nonneg in Hpre by (destruct ins; lia). rewrite Hstart in Hpre.
  replace (Z.to_nat (Z.of_nat predict_index - train_len * (if ins then 1 else 0)))
    with (if ins then start else predict_index) in Hpre by (destruct ins; lia).
  unfold Predictor.predict. rewrite (bind_run _ _ _ _ _ Hpre). cbn [fst snd].
  unfold Predictor.run_prediction. run_prims. cbn [fst snd].
  destruct (Predictor.verbose p); cbn -[drop]; rewrite Hraise; cbn -[drop]; eauto.
Qed.

Lemma predict_provider_failure_witness :
  exists w',
    Predictor.predict Sample.as_written (Predictor.IVList ["ath"; "gt"]) "SVM" 0
      (Predictor.TLInt 1) false [] (Sample.unit0, Sample.world0)
      = (Raise (KeyError "SVM"),
         (Predictor.mk 1%positive (drop 1 Sample.series) (drop 1 Sample.series) "A"
            "2013-01-20" (drop 2 Sample.weeks) "week" false false None, w')) /\
    dicts w' = dicts Sample.world0.
Proof.
  eapply (predict_provider_failure Sample.as_written (Predictor.IVList ["ath"; "gt"])
            "SVM" 0 (Predictor.TLInt 1) false [] Sample.unit0 Sample.world0
            _ 15725 2%nat 1).
  - vm_compute; reflexivity.
  - vm_compute; reflexivity.
  - vm_compute; reflexivity.
  - reflexivity.
  - lia.
  - vm_compute; reflexivity.
Defined.

(** * What a call leaves alone *)

Section Keeps.
Context {S : Type} (R : S -> S -> Prop).
Hypothesis R_refl : forall s, R s s.
Hypothesis R_trans : forall s1 s2 s3, R s1 s2 -> R s2 s3 -> R s1 s3.

Lemma keeps_pure {A} (m : M S A) : (forall s, (m s).2 = s) -> keeps R m.
Proof. intros Hm s. by rewrite Hm. Qed.

Lemma keeps_ret {A} (a : A) : keeps R (ret a).
Proof. by apply keeps_pure. Qed.

Lemma keeps_raise {A} e : keeps R (raise (A := A) e).
Proof. by apply keeps_pure. Qed.

Lemma keeps_diverge {A} : keeps R (diverge (A := A)).
Proof. by apply keeps_pure. Qed.

Lemma keeps_lift {A} (r : result A) : keeps R (lift r).
Proof. destruct r; [apply keeps_ret | apply keeps_raise]. Qed.

Lemma keeps_gets {A} (f : S -> A) : keeps R (gets f).
Proof. by apply keeps_pure. Qed.

Lemma keeps_bind {A B} (m : M S A) (k : A -> M S B) :
  keeps R m -> (forall a, keeps R (k a)) -> keeps R (bind m k).
Proof.
  intros Hm Hk s. unfold bind. specialize (Hm s).
  destruct (m s) as [[a | e |] s1]; simpl in *; [| done | done].
  eapply R_trans; [exact Hm | apply Hk].
Qed.

Lemma keeps_try_except {A} (body : M S A) handler :
  keeps R body -> (forall e, keeps R (handler e)) -> keeps R (try_except body handler).
Proof.
  intros Hm Hk s. unfold try_except. specialize (Hm s).
  destruct (body s) as [[a | e |] s1]; simpl in *; [done | | done].
  eapply R_trans; [exact Hm | apply Hk].
Qed.

Lemma keeps_when b (m : M S unit) : keeps R m -> keeps R (when b m).
Proof. destruct b; [done | intros _; apply keeps_ret]. Qed.

Lemma keeps_modify (f : S -> S) : (forall s, R s (f s)) -> keeps R (modify f).
Proof. intros Hf s. apply Hf. Qed.

End Keeps.

(** One step of such a proof, for a relation whose reflexivity and
    transitivity are [Hrefl] and [Htrans]. *)
Ltac keeps_step Hrefl Htrans :=
  first
    [ apply (keeps_bind _ Htrans); [| intros ?]
    | apply (keeps_try_except _ Htrans); [| intros ?]
    | apply (keeps_when _ Hrefl)
    | apply (keeps_ret _ Hrefl)
    | apply (keeps_raise _ Hrefl)
    | apply (keeps_diverge _ Hrefl)
    | apply (keeps_lift _ Hrefl)
    | apply (keeps_gets _ Hrefl)
    | match goal with
      | |- keeps _ (match ?x with _ => _ end) => destruct x
      | |- keeps _ (let _ := _ in _) => cbv zeta
      end ].

Lemma predict_fixes_refl s : predict_fixes s s.
Proof. by repeat split. Qed.

Lemma predict_fixes_trans s1 s2 s3 :
  predict_fixes s1 s2 -> predict_fixes s2 s3 -> predict_fixes s1 s3.
Proof.
  unfold predict_fixes. intros (? & ? & ? & ? & ? & ? & ?) (? & ? & ? & ? & ? & ? & ?).
  repeat split; congruence.
Qed.

(** X6. [predict] never writes a dictionary, its own included, and of the
    receiver's attributes it only ever rebinds [target], [target_reserve],
    [datelist] and [predictions]: this holds however the call ends. *)
Theorem predict_leaves_inputs_alone G iv method horizon tl ins params :
  keeps predict_fixes (Predictor.predict G iv method horizon tl ins params).
Proof.
  unfold Predictor.predict, Predictor.pre_prediction, Predictor.run_prediction,
    Predictor.post_prediction, Predictor.report_metrics, Predictor.stack_inputs,
    Predictor.read_predictions, Predictor.read_X, Predictor.self, Predictor.assign,
    lookup_argo_functions, print.
  repeat keeps_step predict_fixes_refl predict_fixes_trans.
  all: apply keeps_modify; intros [[] ?]; by repeat split.
Qed.

Lemma data_process_fixes_refl s : data_process_fixes s s.
Proof. by repeat split. Qed.

Lemma data_process_fixes_trans s1 s2 s3 :
  data_process_fixes s1 s2 -> data_process_fixes s2 s3 -> data_process_fixes s1 s3.
Proof.
  unfold data_process_fixes. intros (? & ? & ? & ? & ? & ?) (? & ? & ? & ? & ? & ?).
  repeat split; congruence.
Qed.

(** X7. [data_process] never touches [predictions], [label], [start_date],
    [resolution] or [verbose], and keeps [X] bound to the same dictionary
    object, however the call ends. *)
Theorem data_process_leaves_results_alone G flag_t flag_a flag_g ar :
  keeps data_process_fixes (Predictor.data_process G flag_t flag_a flag_g ar).
Proof.
  unfold Predictor.data_process, Predictor.announce, Predictor.process_target,
    Predictor.process_ath, Predictor.process_gt, Predictor.process_ar,
    Predictor.discard_inputs, Predictor.ar_trim, Predictor.getitem_X,
    Predictor.setitem_X, Predictor.read_X, Predictor.write_X, Predictor.self,
    Predictor.assign, print.
  repeat keeps_step data_process_fixes_refl data_process_fixes_trans.
  all: apply keeps_modify; intros [[] ?]; by repeat split.
Qed.

(** The label of a predictor is never rebound. *)
Lemma same_label_trans (s1 s2 s3 : Predictor.st) :
  Predictor.label s2.1 = Predictor.label s1.1 ->
  Predictor.label s3.1 = Predictor.label s2.1 ->
  Predictor.label s3.1 = Predictor.label s1.1.
Proof. congruence. Qed.

Lemma predict_keeps_label G iv method horizon tl ins params :
  keeps (fun s s' : Predictor.st => Predictor.label s'.1 = Predictor.label s.1)
    (Predictor.predict G iv method horizon tl ins params).
Proof.
  unfold Predictor.predict, Predictor.pre_prediction, Predictor.run_prediction,
    Predictor.post_prediction, Predictor.report_metrics, Predictor.stack_inputs,
    Predictor.read_predictions, Predictor.read_X, Predictor.self, Predictor.assign,
    lookup_argo_functions, print.
  repeat keeps_step (fun s : Predictor.st => eq_refl (Predictor.label s.1)) same_label_trans.
  all: apply keeps_modify; by intros [[] ?].
Qed.

Lemma data_process_keeps_label G flag_t flag_a flag_g ar :
  keeps (fun s s' : Predictor.st => Predictor.label s'.1 = Predictor.label s.1)
    (Predictor.data_process G flag_t flag_a flag_g ar).
Proof.
  unfold Predictor.data_process, Predictor.announce, Predictor.process_target,
    Predictor.process_ath, Predictor.process_gt, Predictor.process_ar,
    Predictor.discard_inputs, Predictor.ar_trim, Predictor.getitem_X,
    Predictor.setitem_X, Predictor.read_X, Predictor.write_X, Predictor.self,
    Predictor.assign, print.
  repeat keeps_step (fun s : Predictor.st => eq_refl (Predictor.label s.1)) same_label_trans.
  all: apply keeps_modify; by intros [[] ?].
Qed.

(** * Further properties of [data_process] *)

Lemma dict_at_set_dict l d w : dict_at (set_dict l d w) l = d.
Proof. unfold dict_at, set_dict. simpl. by rewrite lookup_insert_eq. Qed.

(** The steps before the autoregressive one always complete; they leave
    the calendar, the reserve and the binding of [X] alone. *)
Lemma data_process_split G flag_t flag_a flag_g ar s :
  exists s1,
    (Predictor.announce ;;; Predictor.process_target G flag_t ;;;
     Predictor.process_ath G flag_a ;;; Predictor.process_gt G flag_g)%py s
      = (Done tt, s1) /\
    Predictor.data_process G flag_t flag_a flag_g ar s = Predictor.process_ar G ar s1 /\
    Predictor.datelist s1.1 = Predictor.datelist s.1 /\
    Predictor.target_reserve s1.1 = Predictor.target_reserve s.1 /\
    Predictor.X s1.1 = Predictor.X s.1.
Proof.
  destruct (announce_total s) as [s0 H0].
  destruct (process_target_total G flag_t s0) as [sa Ha].
  destruct (process_ath_total G flag_a sa) as [sb Hb].
  destruct (process_gt_total G flag_g sb) as [sc Hc].
  exists sc. unfold Predictor.data_process.
  rewrite !(bind_run _ _ _ _ _ H0), !(bind_run _ _ _ _ _ Ha), !(bind_run _ _ _ _ _ Hb).
  rewrite Hc. split; [done |]. rewrite (bind_run _ _ _ _ _ Hc). split; [done |].
  set (R := fun s s' : Predictor.st =>
              Predictor.datelist s'.1 = Predictor.datelist s.1 /\
              Predictor.target_reserve s'.1 = Predictor.target_reserve s.1 /\
              Predictor.X s'.1 = Predictor.X s.1).
  assert (Hrefl : forall s, R s s) by done.
  assert (Htrans : forall s1 s2 s3, R s1 s2 -> R s2 s3 -> R s1 s3).
  { unfold R. intros ??? (? & ? & ?) (? & ? & ?). repeat split; congruence. }
  assert (Hk : keeps R (Predictor.announce ;;; Predictor.process_target G flag_t ;;;
                        Predictor.process_ath G flag_a ;;;
                        Predictor.process_gt G flag_g)%py).
  { unfold Predictor.announce, Predictor.process_target, Predictor.process_ath,
      Predictor.process_gt, Predictor.getitem_X, Predictor.setitem_X, Predictor.read_X,
      Predictor.write_X, Predictor.self, Predictor.assign, print.
    repeat keeps_step Hrefl Htrans.
    all: apply keeps_modify; intros [[] ?]; by repeat split. }
  specialize (Hk s).
  rewrite !(bind_run _ _ _ _ _ H0), !(bind_run _ _ _ _ _ Ha), !(bind_run _ _ _ _ _ Hb), Hc
    in Hk. exact Hk.
Qed.

(** The autoregressive step up to the [try]: every input block and the
    calendar have lost their entries before the discard position. *)
Lemma process_ar_discards G ar k p w :
  Predictor.truthy ar = true ->
  Predictor.discard_of ar = Ok (PInt k) ->
  let d1 := slice_from k <$> dict_at w (Predictor.X p) in
  let p1 := Predictor.set_datelist (slice_from k (Predictor.datelist p)) p in
  let w1 := set_dict (Predictor.X p) d1 w in
  let rest :=
    (try_except
       (tg <- Predictor.self Predictor.target ;;
        a <- lift (create_ar_stack (g_processing G) tg ar) ;;
        Predictor.setitem_X "ar" a ;;;
        Predictor.ar_trim G ;;;
        v <- Predictor.self Predictor.verbose ;;
        when v (print [PS (tab +:+ "AR"); Predictor.ar_text ar; PS " matrix created."]))
       (fun e => print [PS "Error: AR matrix creation unsuccessful."; PE e]) ;;;
     tg <- Predictor.self Predictor.target ;;
     tg' <- lift (slice_from_obj (PInt k) tg) ;;
     Predictor.assign (Predictor.set_target tg') ;;;
     tr <- Predictor.self Predictor.target_reserve ;;
     tr' <- lift (slice_from_obj (PInt k) tr) ;;
     Predictor.assign (Predictor.set_target_reserve tr'))%py in
  Predictor.process_ar G ar (p, w) = rest (p1, w1).
Proof.
  intros Ht Hk. unfold Predictor.process_ar, Predictor.discard_inputs.
  rewrite Ht. unfold when. rewrite Hk. reflexivity.
Qed.

(** X8. When building the autoregressive block raises, [data_process] still
    completes: the error line is printed, no ['ar'] block is stored, and
    the discard has been applied all the same to every input block, the
    calendar, the target and its reserve. *)
Theorem ar_creation_failure_is_soft G flag_t flag_a flag_g ar k s s1 e :
  Predictor.truthy ar = true ->
  Predictor.discard_of ar = Ok (PInt k) ->
  (Predictor.announce ;;; Predictor.process_target G flag_t ;;;
   Predictor.process_ath G flag_a ;;; Predictor.process_gt G flag_g)%py s
    = (Done tt, s1) ->
  create_ar_stack (g_processing G) (Predictor.target s1.1) ar = Err e ->
  exists s2,
    Predictor.data_process G flag_t flag_a flag_g ar s = (Done tt, s2) /\
    Predictor.datelist s2.1 = slice_from k (Predictor.datelist s.1) /\
    Predictor.target_reserve s2.1 = slice_from k (Predictor.target_reserve s.1) /\
    Predictor.target s2.1 = slice_from k (Predictor.target s1.1) /\
    dict_at s2.2 (Predictor.X s.1) = slice_from k <$> dict_at s1.2 (Predictor.X s.1) /\
    stdout s2.2 = stdout s1.2 ++ [[PS "Error: AR matrix creation unsuccessful."; PE e]].
Proof.
  intros Ht Hk Hpre He.
  destruct (data_process_split G flag_t flag_a flag_g ar s)
    as (s1' & Hpre' & Hdp & Hdl & Htr & HX).
  rewrite Hpre in Hpre'. injection Hpre' as <-. rewrite Hdp. destruct s1 as [p w].
  rewrite (process_ar_discards G ar k p w Ht Hk). cbn zeta. run_prims.
  cbn [fst snd] in *. rewrite <- HX, <- Hdl, <- Htr.
  destruct p as [X tg tr lb sd dl res v flag pr]. cbn in He |- *. rewrite He. cbn.
  eexists. split; [reflexivity |]. cbn. repeat split.
  unfold dict_at. cbn. by rewrite lookup_insert_eq.
Qed.

Lemma ar_creation_failure_is_soft_witness :
  exists s2,
    Predictor.data_process Examples.strict false false false (ARInt 9)
      (Sample.unit0, Sample.world0) = (Done tt, s2) /\
    Predictor.datelist s2.1 = slice_from 9 Sample.weeks /\
    Predictor.target_reserve s2.1 = slice_from 9 Sample.series /\
    Predictor.target s2.1 = slice_from 9 Sample.series /\
    dict_at s2.2 1%positive = slice_from 9 <$> dict_at Sample.world0 1%positive /\
    stdout s2.2 = [[PS "Error: AR matrix creation unsuccessful."; PE ValueError]].
Proof.
  exact (ar_creation_failure_is_soft Examples.strict false false false (ARInt 9) 9
           (Sample.unit0, Sample.world0) (Sample.unit0, Sample.world0) ValueError
           eq_refl eq_refl eq_refl eq_refl).
Defined.

Lemma size_two_keys {A} (d : gmap string A) a b :
  is_Some (d !! a) -> is_Some (d !! b) -> a <> b -> (1 <? size d)%nat = true.
Proof.
  intros Ha Hb Hne. apply Nat.ltb_lt.
  pose proof (map_size_delete_Some a d Ha) as Hdel.
  assert (size (delete a d) <> 0%nat).
  { apply (map_size_ne_0_lookup_2 _ b). by rewrite lookup_delete_ne. }
  lia.
Qed.

Lemma size_one_key {A} (d : gmap string A) a x :
  (forall b, b <> a -> d !! b = None) -> (1 <? size (<[a := x]> d))%nat = false.
Proof.
  intros Honly. apply Nat.ltb_ge.
  rewrite <- insert_delete_eq, map_size_insert_None by apply lookup_delete_eq.
  assert (delete a d = ∅) as ->; [| by rewrite map_size_empty].
  apply map_eq. intros b. rewrite lookup_empty.
  destruct (decide (b = a)) as [-> | Hb]; [apply lookup_delete_eq |].
  rewrite lookup_delete_ne by done. by apply Honly.
Qed.

Lemma slice_to_take {A} (l : list A) n : slice_to (Z.of_nat n) l = take n l.
Proof.
  unfold slice_to. rewrite slice_bound_nonneg by lia. rewrite Nat2Z.id.
  destruct (Nat.min_spec n (length l)) as [[_ ->] | [Hle ->]]; [done |].
  by rewrite !take_ge by lia.
Qed.

(** X9. The loop that trims the autoregressive block never ends when the
    interpreter lists the key ['ar'] first and another source is present:
    each pass pops ['ar'] from a fresh key list, changes nothing and tests
    the same condition again.  [data_process] then does not return. *)
Theorem data_process_loops_when_ar_listed_first
    G flag_t flag_a flag_g ar k s s1 a other rest :
  Predictor.truthy ar = true ->
  Predictor.discard_of ar = Ok (PInt k) ->
  (Predictor.announce ;;; Predictor.process_target G flag_t ;;;
   Predictor.process_ath G flag_a ;;; Predictor.process_gt G flag_g)%py s
    = (Done tt, s1) ->
  create_ar_stack (g_processing G) (Predictor.target s1.1) ar = Ok a ->
  other <> "ar" ->
  is_Some (dict_at s1.2 (Predictor.X s.1) !! other) ->
  dict_keys G (<["ar" := a]> (slice_from k <$> dict_at s1.2 (Predictor.X s.1)))
    = "ar" :: rest ->
  (Predictor.data_process G flag_t flag_a flag_g ar s).1 = Diverge.
Proof.
  intros Ht Hk Hpre Ha Hne Hother Hkeys.
  destruct (data_process_split G flag_t flag_a flag_g ar s)
    as (s1' & Hpre' & Hdp & Hdl & Htr & HX).
  rewrite Hpre in Hpre'. injection Hpre' as <-. rewrite Hdp. destruct s1 as [p w].
  rewrite (process_ar_discards G ar k p w Ht Hk). cbn zeta.
  cbn [fst snd] in *. rewrite <- HX in *.
  destruct p as [X tg tr lb sd dl res v flag pr]. cbn [Predictor.X Predictor.target] in *.
  set (d2 := <["ar" := a]> (slice_from k <$> dict_at w X)) in *.
  assert (Hsize : (1 <? size d2)%nat = true).
  { apply (size_two_keys d2 "ar" other); [| | done]; subst d2.
    - rewrite lookup_insert_eq. eauto.
    - rewrite lookup_insert_ne, lookup_fmap by done. by apply fmap_is_Some. }
  unfold Predictor.ar_trim. run_prims. cbn [fst snd Predictor.target Predictor.set_datelist
    Predictor.X Predictor.verbose]. rewrite Ha. cbn [fst snd Predictor.X Predictor.verbose].
  subst d2. rewrite !dict_at_set_dict.
  match goal with |- context [(1 <? ?n)%nat] =>
    replace (1 <? n)%nat with true by (symmetry; exact Hsize) end.
  match goal with |- context [dict_keys G ?d] =>
    replace (dict_keys G d) with ("ar" :: rest) by (symmetry; exact Hkeys) end.
  rewrite decide_True by done. reflexivity.
Qed.

Lemma data_process_loops_when_ar_listed_first_witness :
  (Predictor.data_process Examples.ar_first false false false (ARInt 1)
     (Sample.unit0, Sample.world0)).1 = Diverge.
Proof.
  assert (Ha : create_ar_stack (g_processing Examples.ar_first)
                 (Predictor.target (Sample.unit0, Sample.world0).1) (ARInt 1)
               = Ok (Sample.lags 1 Sample.series)) by reflexivity.
  assert (Hother : is_Some (dict_at (Sample.unit0, Sample.world0).2
                     (Predictor.X (Sample.unit0, Sample.world0).1) !! "ath")).
  { vm_compute. eauto. }
  assert (Hkeys : dict_keys Examples.ar_first
            (<["ar" := Sample.lags 1 Sample.series]>
               (slice_from 1 <$> dict_at (Sample.unit0, Sample.world0).2
                  (Predictor.X (Sample.unit0, Sample.world0).1)))
            = "ar" :: ["gt"; "ath"]).
  { vm_compute. reflexivity. }
  exact (data_process_loops_when_ar_listed_first Examples.ar_first false false false
           (ARInt 1) 1 (Sample.unit0, Sample.world0) (Sample.unit0, Sample.world0)
           _ "ath" _ eq_refl eq_refl eq_refl Ha ltac:(discriminate) Hother Hkeys).
Defined.

(** X10. With another source listed first, the autoregressive block is cut
    to the number of rows that source has left after the discard; every
    block, the calendar, the target and its reserve have lost their first
    [discard] entries. *)
Theorem data_process_ar_block_trimmed
    G flag_t flag_a flag_g ar k s s1 a other rest blk :
  Predictor.truthy ar = true ->
  Predictor.discard_of ar = Ok (PInt k) ->
  (Predictor.announce ;;; Predictor.process_target G flag_t ;;;
   Predictor.process_ath G flag_a ;;; Predictor.process_gt G flag_g)%py s
    = (Done tt, s1) ->
  create_ar_stack (g_processing G) (Predictor.target s1.1) ar = Ok a ->
  dict_keys G (<["ar" := a]> (slice_from k <$> dict_at s1.2 (Predictor.X s.1)))
    = other :: rest ->
  other <> "ar" ->
  dict_at s1.2 (Predictor.X s.1) !! other = Some blk ->
  exists s2,
    Predictor.data_process G flag_t flag_a flag_g ar s = (Done tt, s2) /\
    dict_at s2.2 (Predictor.X s.1)
      = <["ar" := take (length (slice_from k blk)) a]>
          (slice_from k <$> dict_at s1.2 (Predictor.X s.1)) /\
    Predictor.datelist s2.1 = slice_from k (Predictor.datelist s.1) /\
    Predictor.target s2.1 = slice_from k (Predictor.target s1.1) /\
    Predictor.target_reserve s2.1 = slice_from k (Predictor.target_reserve s.1).
Proof.
  intros Ht Hk Hpre Ha Hkeys Hne Hother.
  destruct (data_process_split G flag_t flag_a flag_g ar s)
    as (s1' & Hpre' & Hdp & Hdl & Htr & HX).
  rewrite Hpre in Hpre'. injection Hpre' as <-. rewrite Hdp. destruct s1 as [p w].
  rewrite (process_ar_discards G ar k p w Ht Hk). cbn zeta.
  cbn [fst snd] in *. rewrite <- HX, <- Hdl, <- Htr in *.
  destruct p as [X tg tr lb sd dl res v flag pr].
  cbn [Predictor.X Predictor.target Predictor.datelist Predictor.target_reserve] in *.
  assert (Hsize : (1 <? size (<["ar" := a]> (slice_from k <$> dict_at w X)))%nat = true).
  { apply (size_two_keys _ "ar" other); [| | done].
    - rewrite lookup_insert_eq. eauto.
    - rewrite lookup_insert_ne, lookup_fmap by done. apply fmap_is_Some.
      exists blk. exact Hother. }
  assert (Har : (<["ar" := a]> (slice_from k <$> dict_at w X)) !! "ar" = Some a)
    by apply lookup_insert_eq.
  assert (Hblk : (<["ar" := a]> (slice_from k <$> dict_at w X)) !! other
                 = Some (slice_from k blk)).
  { rewrite lookup_insert_ne, lookup_fmap by done.
    transitivity (slice_from k <$> Some blk); [| done].
    f_equal. exact Hother. }
  unfold Predictor.ar_trim. run_prims. cbn [fst snd Predictor.target Predictor.set_datelist
    Predictor.X Predictor.verbose]. rewrite Ha. cbn [fst snd Predictor.X Predictor.verbose].
  rewrite !dict_at_set_dict.
  match goal with |- context [(1 <? ?n)%nat] =>
    replace (1 <? n)%nat with true by (symmetry; exact Hsize) end.
  match goal with |- context [dict_keys G ?d] =>
    replace (dict_keys G d) with (other :: rest) by (symmetry; exact Hkeys) end.
  rewrite decide_False by done.
  cbn [fst snd Predictor.X Predictor.verbose]. rewrite !dict_at_set_dict.
  match goal with |- context [@lookup _ _ _ _ "ar" ?d] =>
    replace (d !! "ar") with (Some a) by (symmetry; exact Har) end.
  cbn [fst snd Predictor.X Predictor.verbose]. rewrite ?dict_at_set_dict.
  match goal with |- context [@lookup _ _ _ _ other ?d] =>
    replace (d !! other) with (Some (slice_from k blk)) by (symmetry; exact Hblk) end.
  cbn [fst snd Predictor.X Predictor.verbose Predictor.target Predictor.set_datelist
       Predictor.target_reserve Predictor.set_target Predictor.set_target_reserve
       Predictor.datelist slice_from_obj].
  rewrite ?dict_at_set_dict.
  destruct v; cbn [fst snd Predictor.X Predictor.verbose Predictor.target
       Predictor.set_datelist Predictor.target_reserve Predictor.set_target
       Predictor.set_target_reserve Predictor.datelist slice_from_obj emit dicts].
  all: eexists; split; [reflexivity |].
  all: cbn [fst snd Predictor.X Predictor.verbose Predictor.target
       Predictor.set_datelist Predictor.target_reserve Predictor.set_target
       Predictor.set_target_reserve Predictor.datelist].
  all: repeat split.
  all: unfold dict_at, set_dict, emit; cbn [dicts]; rewrite lookup_insert_eq; cbn.
  all: by rewrite insert_insert_eq, slice_to_take.
Qed.

Lemma data_process_ar_block_trimmed_witness :
  exists s2,
    Predictor.data_process Sample.as_written false false false (ARInt 1)
      (Sample.unit0, Sample.world0) = (Done tt, s2) /\
    dict_at s2.2 1%positive
      = <["ar" := take (length (slice_from 1 [[1; 2]; [3; 4]; [5; 6]; [7; 8]; [9; 10];
                                               [11; 12]]%float))
                    (Sample.lags 1 Sample.series)]>
          (slice_from 1 <$> dict_at Sample.world0 1%positive) /\
    Predictor.datelist s2.1 = slice_from 1 Sample.weeks /\
    Predictor.target s2.1 = slice_from 1 Sample.series /\
    Predictor.target_reserve s2.1 = slice_from 1 Sample.series.
Proof.
  assert (Hkeys : dict_keys Sample.as_written
            (<["ar" := Sample.lags 1 Sample.series]>
               (slice_from 1 <$> dict_at (Sample.unit0, Sample.world0).2
                  (Predictor.X (Sample.unit0, Sample.world0).1)))
            = "gt" :: ["ar"; "ath"]).
  { vm_compute. reflexivity. }
  exact (data_process_ar_block_trimmed Sample.as_written false false false
           (ARInt 1) 1 (Sample.unit0, Sample.world0) (Sample.unit0, Sample.world0)
           _ "gt" _ _ eq_refl eq_refl eq_refl eq_refl Hkeys ltac:(discriminate) eq_refl).
Defined.

(** X11. As the only source, the autoregressive block is stored as the
    builder returned it: the trimming loop is not entered. *)
Theorem data_process_ar_block_alone G flag_t flag_a flag_g ar k s s1 a :
  Predictor.truthy ar = true ->
  Predictor.discard_of ar = Ok (PInt k) ->
  (Predictor.announce ;;; Predictor.process_target G flag_t ;;;
   Predictor.process_ath G flag_a ;;; Predictor.process_gt G flag_g)%py s
    = (Done tt, s1) ->
  create_ar_stack (g_processing G) (Predictor.target s1.1) ar = Ok a ->
  (forall key, key <> "ar" -> dict_at s1.2 (Predictor.X s.1) !! key = None) ->
  exists s2,
    Predictor.data_process G flag_t flag_a flag_g ar s = (Done tt, s2) /\
    dict_at s2.2 (Predictor.X s.1) = {["ar" := a]} /\
    Predictor.datelist s2.1 = slice_from k (Predictor.datelist s.1) /\
    Predictor.target s2.1 = slice_from k (Predictor.target s1.1) /\
    Predictor.target_reserve s2.1 = slice_from k (Predictor.target_reserve s.1).
Proof.
  intros Ht Hk Hpre Ha Honly.
  destruct (data_process_split G flag_t flag_a flag_g ar s)
    as (s1' & Hpre' & Hdp & Hdl & Htr & HX).
  rewrite Hpre in Hpre'. injection Hpre' as <-. rewrite Hdp. destruct s1 as [p w].
  rewrite (process_ar_discards G ar k p w Ht Hk). cbn zeta.
  cbn [fst snd] in *. rewrite <- HX, <- Hdl, <- Htr in *.
  destruct p as [X tg tr lb sd dl res v flag pr].
  cbn [Predictor.X Predictor.target Predictor.datelist Predictor.target_reserve] in *.
  assert (Hsize : (1 <? size (<["ar" := a]> (slice_from k <$> dict_at w X)))%nat = false).
  { apply size_one_key. intros key Hkey. rewrite lookup_fmap.
    transitivity (slice_from k <$> (None : option matrix)); [| done].
    f_equal. by apply Honly. }
  assert (Hd : <["ar" := a]> (slice_from k <$> dict_at w X) = {["ar" := a]}).
  { apply map_eq. intros key. destruct (decide (key = "ar")) as [-> | Hkey].
    - by rewrite lookup_insert_eq, lookup_singleton_eq.
    - rewrite lookup_insert_ne, lookup_singleton_ne, lookup_fmap by done.
      transitivity (slice_from k <$> (None : option matrix)); [| done].
      f_equal. by apply Honly. }
  unfold Predictor.ar_trim. run_prims. cbn [fst snd Predictor.target Predictor.set_datelist
    Predictor.X Predictor.verbose]. rewrite Ha. cbn [fst snd Predictor.X Predictor.verbose].
  rewrite !dict_at_set_dict.
  match goal with |- context [(1 <? ?n)%nat] =>
    replace (1 <? n)%nat with false by (symmetry; exact Hsize) end.
  cbn [fst snd Predictor.X Predictor.verbose Predictor.target Predictor.set_datelist
       Predictor.target_reserve Predictor.set_target Predictor.set_target_reserve
       Predictor.datelist slice_from_obj].
  destruct v; cbn [fst snd Predictor.X Predictor.verbose Predictor.target
       Predictor.set_datelist Predictor.target_reserve Predictor.set_target
       Predictor.set_target_reserve Predictor.datelist slice_from_obj emit dicts].
  all: eexists; split; [reflexivity |].
  all: cbn [fst snd Predictor.X Predictor.verbose Predictor.target
       Predictor.set_datelist Predictor.target_reserve Predictor.set_target
       Predictor.set_target_reserve Predictor.datelist].
  all: repeat split.
  all: unfold dict_at, set_dict, emit; cbn [dicts]; rewrite lookup_insert_eq; cbn.
  all: exact Hd.
Qed.

Lemma data_process_ar_block_alone_witness :
  exists s2,
    Predictor.data_process Sample.as_written false false false (ARInt 2)
      (Sample.unit0, Examples.no_inputs) = (Done tt, s2) /\
    dict_at s2.2 1%positive = {["ar" := Sample.lags 2 Sample.series]} /\
    Predictor.datelist s2.1 = slice_from 2 Sample.weeks /\
    Predictor.target s2.1 = slice_from 2 Sample.series /\
    Predictor.target_reserve s2.1 = slice_from 2 Sample.series.
Proof.
  exact (data_process_ar_block_alone Sample.as_written false false false
           (ARInt 2) 2 (Sample.unit0, Examples.no_inputs) (Sample.unit0, Examples.no_inputs)
           _ eq_refl eq_refl eq_refl eq_refl (fun key _ => eq_refl)).
Defined.

(** * Further properties of [ensemble] *)

(** X12. Whatever is bound in the namespace, an [ensemble] call either
    completes, having appended exactly one unit carrying [ens_label] to
    [model_list], or does not complete and leaves the orchestrator exactly
    as it was.  The units already registered and every dictionary are left
    alone in both cases. *)
Theorem ensemble_registers_one_or_nothing
    G method ens_label ind_labels horizon train_len in_sample s :
  dicts (Geo_model.ensemble G method ens_label ind_labels horizon train_len in_sample s).2.2
    = dicts s.2 /\
  (((Geo_model.ensemble G method ens_label ind_labels horizon train_len in_sample s).1
      = Done tt /\
   exists e,
     Ens_predictor.label e = ens_label /\
     (Geo_model.ensemble G method ens_label ind_labels horizon train_len in_sample s).2.1
       = Geo_model.set_model_list (Geo_model.model_list s.1 ++ [MEns e]) s.1) \/
   ((Geo_model.ensemble G method ens_label ind_labels horizon train_len in_sample s).1
      <> Done tt /\
    (Geo_model.ensemble G method ens_label ind_labels horizon train_len in_sample s).2.1
      = s.1)).
Proof.
  destruct s as [g w]. unfold Geo_model.ensemble. run_prims.
  destruct g as [res psd v inp tg dl ms]. cbn.
  run_cases; cbn.
  all: split; [done |].
  all: first [ by right; split
             | left; split; [done |]; eexists; split; [| reflexivity]; reflexivity ].
Qed.

Lemma filter_head {A} (P : A -> Prop) `{forall x, Decision (P x)} (l : list A) x :
  filter P l !! 0%nat = Some x ->
  exists i, l !! i = Some x /\ P x /\
            forall j y, (j < i)%nat -> l !! j = Some y -> ~ P y.
Proof.
  induction l as [| a l IH]; [done |]. rewrite filter_cons.
  destruct (decide (P a)) as [Ha | Ha].
  - intros [= ->]. exists 0%nat. repeat split; [done |]. intros; lia.
  - intros (i & Hi & Hx & Hmin)%IH. exists (S i). repeat split; [done.. |].
    intros [| j] y Hj; cbn; [by intros [= ->] |]. apply Hmin. lia.
Qed.

Lemma getitem_0 {A} (l : list A) x : getitem l 0 = Ok x -> l !! 0%nat = Some x.
Proof.
  unfold getitem. cbn. change (Z.to_nat 0) with 0%nat.
  destruct l as [| a l]; cbn; [done |]. by intros [= ->].
Qed.

(** X13. Once the selected units' predictions can be sliced and stacked,
    an [ensemble] call has built a matrix with one column per selected
    unit, in registration order, the [j]-th column being the [j]-th
    selected unit's [predictions[2 * horizon:]], and has taken as
    reference the first selected unit: the first in registration order,
    not the unit named first in [ind_labels].  What the call does from
    there is decided by the name [argo_functions]: unbound, as in the
    module as written, the call raises [NameError] and changes nothing;
    bound, the dispatched method receives that matrix and the reference
    target, its failure and the failure of the metrics report leave the
    call, and otherwise the unit registered carries the reference target
    and calendar, less their first [train_len] entries when not in
    sample, and the padded predictions. *)
Theorem ensemble_design_and_outcome
    G method ens_label ind_labels horizon train_len ins g w blocks stack :
  map_r (Geo_model.compat_pred horizon)
    (Geo_model.compat_list (Geo_model.model_list g) ind_labels) = Ok blocks ->
  hstack blocks = Ok stack ->
  exists i first rest,
    filter (fun m => model_label m ∈ ind_labels) (Geo_model.model_list g)
      = first :: rest /\
    Geo_model.model_list g !! i = Some first /\
    (forall j m, (j < i)%nat -> Geo_model.model_list g !! j = Some m ->
                 model_label m ∉ ind_labels) /\
    Forall (fun row => length row = length (first :: rest)) stack /\
    (forall j m, (first :: rest) !! j = Some m ->
       exists pr, model_predictions m = Some pr /\
                  column j stack = slice_from (2 * horizon) pr) /\
    let w0 := if Geo_model.verbose g
              then emit [PS "Running ensemble model: "; PS method] w else w in
    Geo_model.ensemble G method ens_label ind_labels horizon train_len ins (g, w)
      = match g_argo_functions G with
        | None => (Raise (NameError "argo_functions"), (g, w0))
        | Some af =>
            match ensemble_dispatcher af method with
            | None => (Raise (KeyError method), (g, w0))
            | Some run =>
                match run stack (model_target first) horizon train_len ins with
                | Err e => (Raise e, (g, w0))
                | Ok out =>
                    let ens_target := if ins then model_target first
                                      else slice_from train_len (model_target first) in
                    let ens_datelist := if ins then model_datelist first
                                        else slice_from train_len (model_datelist first) in
                    let ens_pred := replicate (Z.to_nat (2 * horizon)) nan ++ out in
                    match metrics af (slice (2 * horizon) (- (1 + horizon)) ens_pred)
                            (slice_from (2 * horizon) ens_target) with
                    | Err e => (Raise e, (g, w0))
                    | Ok _ =>
                        (Done tt,
                         (Geo_model.set_model_list
                            (Geo_model.model_list g ++
                             [MEns (Ens_predictor.mk ens_target ens_pred ens_label
                                      ens_datelist)]) g, w0))
                    end
                end
            end
        end.
Proof.
  intros Hblocks Hstack.
  pose proof Hblocks as Hb. pose proof Hstack as Hs.
  unfold Geo_model.compat_list in Hb.
  destruct (filter (fun m => model_label m ∈ ind_labels) (Geo_model.model_list g))
    as [| first rest] eqn:Hsel.
  { cbn in Hb. injection Hb as <-. done. }
  assert (Hfirst : filter (fun m => model_label m ∈ ind_labels) (Geo_model.model_list g)
                     !! 0%nat = Some first) by by rewrite Hsel.
  apply filter_head in Hfirst as (i & Hi & Hin & Hmin).
  apply compat_pred_blocks in Hb as (cs & -> & Hcs).
  apply hstack_columns in Hs as [Hwidth Hcols].
  exists i, first, rest. split_and!; [done | done | | | |].
  - intros j m Hj Hm. by apply (Hmin j m).
  - by rewrite (Forall2_length _ _ _ Hcs).
  - intros j m Hj. destruct (Forall2_lookup_l _ _ _ _ _ Hcs Hj) as (c & Hc & pr & Hpr & ->).
    exists pr. split; [done |]. by apply Hcols.
  - apply (ensemble_outcome G method ens_label ind_labels horizon train_len ins g w
             _ stack first Hblocks Hstack).
    unfold Geo_model.compat_list. by rewrite Hsel.
Qed.

(** The two sample units under the module as written, named in the order
    ["B"; "A"]: the reference is unit "A", registered first. *)
Lemma ensemble_design_and_outcome_witness :
  let g := Sample.trained_geo Sample.as_written in
  let w := Sample.trained_world Sample.as_written in
  exists blocks stack,
    map_r (Geo_model.compat_pred 1)
      (Geo_model.compat_list (Geo_model.model_list g) ["B"; "A"]) = Ok blocks /\
    hstack blocks = Ok stack /\
    exists i first rest,
      filter (fun m => model_label m ∈ ["B"; "A"]) (Geo_model.model_list g)
        = first :: rest /\
      Geo_model.model_list g !! i = Some first /\
      (forall j m, (j < i)%nat -> Geo_model.model_list g !! j = Some m ->
                   model_label m ∉ ["B"; "A"]) /\
      Forall (fun row => length row = length (first :: rest)) stack /\
      (forall j m, (first :: rest) !! j = Some m ->
         exists pr, model_predictions m = Some pr /\
                    column j stack = slice_from (2 * 1) pr) /\
      let w0 := if Geo_model.verbose g
                then emit [PS "Running ensemble model: "; PS "mean"] w else w in
      Geo_model.ensemble Sample.as_written "mean" "E" ["B"; "A"] 1 1 false (g, w)
        = (Raise (NameError "argo_functions"), (g, w0)).
Proof.
  intros g w.
  pose (blocks := match map_r (Geo_model.compat_pred 1)
                          (Geo_model.compat_list (Geo_model.model_list g) ["B"; "A"]) with
                  | Ok b => b
                  | Err _ => []
                  end).
  pose (stack := match hstack blocks with Ok m => m | Err _ => [] end).
  assert (Hblocks : map_r (Geo_model.compat_pred 1)
                      (Geo_model.compat_list (Geo_model.model_list g) ["B"; "A"])
                    = Ok blocks) by (vm_compute; reflexivity).
  assert (Hstack : hstack blocks = Ok stack) by (vm_compute; reflexivity).
  exists blocks, stack. split; [exact Hblocks |]. split; [exact Hstack |].
  exact (ensemble_design_and_outcome Sample.as_written "mean" "E" ["B"; "A"] 1 1 false
           g w blocks stack Hblocks Hstack).
Defined.

(** * The export: [save_predictions] *)

Lemma getitem_Ok_lookup {A} (l : list A) i x :
  getitem l (Z.of_nat i) = Ok x -> l !! i = Some x.
Proof.
  unfold getitem. destruct (Z.ltb_spec (Z.of_nat i) 0); [lia |]. cbn.
  destruct (Z.ltb_spec (Z.of_nat i) 0); [lia |]. rewrite Nat2Z.id.
  by destruct (l !! i); intros [= ->].
Qed.

Lemma reindexed_label d m m' : reindexed d m = Some m' -> model_label m' = model_label m.
Proof.
  unfold reindexed. intros H. destruct (index_of d (model_datelist m)); [| done].
  destruct (model_predictions m); [| done]. simplify_eq/=. by destruct m as [[] | []].
Qed.

Lemma reindexed_chosen labels d m m' :
  reindexed d m = Some m' -> chosen labels m' <-> chosen labels m.
Proof. intros Hl%reindexed_label. destruct labels; simpl; by rewrite ?Hl. Qed.

Lemma reindexed_predictions d m m' :
  reindexed d m = Some m' -> is_Some (model_predictions m').
Proof.
  unfold reindexed. intros H. destruct (index_of d (model_datelist m)); [| done].
  destruct (model_predictions m); [| done]. simplify_eq/=. destruct m as [[] | []]; eauto.
Qed.

Lemma set_model_list_twice l l' g :
  Geo_model.set_model_list l (Geo_model.set_model_list l' g) = Geo_model.set_model_list l g.
Proof. by destruct g. Qed.

Lemma set_model_list_same g : Geo_model.set_model_list (Geo_model.model_list g) g = g.
Proof. by destruct g. Qed.

(** One pass of the loop that completes. *)
Lemma reindex_Done G i g w col g' w' :
  Geo_model.reindex G i (g, w) = (Done col, (g', w')) ->
  exists m d m',
    Geo_model.model_list g !! i = Some m /\
    to_datetime G (Geo_model.pred_start_date g) = Ok d /\
    reindexed d m = Some m' /\
    col.1 = model_label m' /\
    model_predictions m' = Some col.2 /\
    g' = Geo_model.set_model_list (<[i := m']> (Geo_model.model_list g)) g /\
    w' = w.
Proof.
  unfold Geo_model.reindex, list_index, reindexed. run_prims.
  destruct g as [res psd v inp tg dl ms]. cbn.
  destruct (getitem ms (Z.of_nat i)) as [m | e] eqn:Hm; cbn; [| done].
  apply getitem_Ok_lookup in Hm.
  destruct (to_datetime G psd) as [d | e]; cbn; [| done].
  destruct (index_of d (model_datelist m)) as [shift |] eqn:Hi; cbn; [| done].
  rewrite !slice_from_nonneg, Nat2Z.id by lia.
  destruct (model_predictions m) as [pr |] eqn:Hpr; cbn; [| done].
  rewrite slice_from_nonneg, Nat2Z.id by lia.
  intros H. injection H as <- <- <-.
  exists m, d, (model_reslice (drop shift (model_datelist m))
                  (drop shift (model_target m)) (drop shift pr) m).
  rewrite Hi. cbn. rewrite Hpr. cbn. split_and!; try done.
  - by destruct m as [[] | []].
  - destruct m as [[] | []]; by simplify_eq/=.
Qed.

Lemma designated_nil labels k : designated labels k [] = [].
Proof. done. Qed.

Lemma designated_cons labels k m ms :
  designated labels k (m :: ms)
    = if decide (chosen labels m) then k :: designated labels (S k) ms
      else designated labels (S k) ms.
Proof.
  unfold designated. cbn [length seq zip zip_with]. rewrite filter_cons. cbn [snd].
  by destruct (decide (chosen labels m)).
Qed.

Lemma designated_all labels k ms :
  (forall m, chosen labels m) -> designated labels k ms = seq k (length ms).
Proof.
  intros Hall. revert k. induction ms as [| m ms IH]; intros k; [done |].
  rewrite designated_cons, decide_True by done. cbn. by rewrite IH.
Qed.

(** The selection always completes; it changes nothing but the output. *)
Lemma select_total labels g w :
  exists w1,
    Geo_model.select labels (g, w)
      = (Done (designated labels 0 (Geo_model.model_list g)), (g, w1)) /\
    dicts w1 = dicts w.
Proof.
  destruct labels; rewrite ?designated_all by done;
    unfold Geo_model.select, Geo_model.positions, Geo_model.matching; run_prims; cbn.
  - by exists w.
  - by exists w.
  - destruct (Geo_model.model_list g) as [| m ms] eqn:Hms; cbn.
    + by exists w.
    + eexists. split; reflexivity.
Qed.

(** The loop over the designated units of [suf], the units before them
    being [pre]. *)
Lemma reindex_run G labels suf : forall pre g w cols g' w',
  Geo_model.model_list g = pre ++ suf ->
  map_m (Geo_model.reindex G) (designated labels (length pre) suf) (g, w)
    = (Done cols, (g', w')) ->
  w' = w /\
  exists suf',
    g' = Geo_model.set_model_list (pre ++ suf') g /\
    Forall2 (fun m m' =>
               if decide (chosen labels m)
               then exists d, to_datetime G (Geo_model.pred_start_date g) = Ok d /\
                              reindexed d m = Some m'
               else m' = m) suf suf' /\
    (fun c => (c.1, Some c.2)) <$> cols
      = (fun m' => (model_label m', model_predictions m')) <$> filter (chosen labels) suf'.
Proof.
  induction suf as [| a rest IH]; intros pre g w cols g' w' Hms.
  - rewrite designated_nil. cbn. intros [= <- <- <-]. split; [done |].
    exists []. rewrite <- Hms, set_model_list_same. by split_and!.
  - rewrite designated_cons. destruct (decide (chosen labels a)) as [Ha | Ha].
    + cbn [map_m]. intros (col & [g1 w1] & Hcol & Hrest)%bind_Done.
      apply bind_Done in Hrest as (cols' & [g2 w2] & Hrest & Hret).
      unfold ret in Hret. injection Hret as <- <- <-.
      apply reindex_Done in Hcol as (m & d & a' & Hm & Hd & Ha' & Hc1 & Hc2 & -> & ->).
      rewrite Hms in Hm. rewrite list_lookup_middle in Hm by done. injection Hm as <-.
      rewrite Hms in Hrest.
      replace (<[length pre := a']> (pre ++ a :: rest)) with ((pre ++ [a']) ++ rest)
        in Hrest.
      2:{ rewrite <- (Nat.add_0_r (length pre)), insert_app_r. cbn.
          by rewrite <- app_assoc. }
      replace (S (length pre)) with (length (pre ++ [a'])) in Hrest
        by (rewrite length_app; cbn; lia).
      apply IH in Hrest as (-> & suf' & -> & Hall & Hcols); [| by destruct g].
      split; [done |]. exists (a' :: suf').
      rewrite set_model_list_twice, <- app_assoc. split; [done |]. split.
      * constructor; [rewrite decide_True by done; eauto |].
        by destruct g.
      * rewrite filter_cons, decide_True by (by apply (reindexed_chosen labels d a a')).
        cbn. by rewrite Hcols, Hc2, <- Hc1.
    + intros Hrest.
      replace (S (length pre)) with (length (pre ++ [a])) in Hrest
        by (rewrite length_app; cbn; lia).
      apply IH in Hrest as (-> & suf' & -> & Hall & Hcols);
        [| by rewrite <- app_assoc].
      split; [done |]. exists (a :: suf'). rewrite <- app_assoc. split; [done |]. split.
      * constructor; [by rewrite decide_False |]. done.
      * by rewrite filter_cons, decide_False.
Qed.

Lemma lift_Done {S A} (r : result A) (s s' : S) a :
  lift r s = (Done a, s') -> r = Ok a /\ s' = s.
Proof. destruct r; cbn; unfold ret, raise; [by intros [= <- <-] | done]. Qed.

(** A completed export, step by step. *)
Lemma save_predictions_Done G labels sat g w t g' w' :
  Geo_model.save_predictions G labels sat (g, w) = (Done t, (g', w')) ->
  exists w1 cols i0 m0,
    map_m (Geo_model.reindex G) (designated labels 0 (Geo_model.model_list g)) (g, w1)
      = (Done cols, (g', w1)) /\
    designated labels 0 (Geo_model.model_list g) !! 0%nat = Some i0 /\
    Geo_model.model_list g' !! i0 = Some m0 /\
    t = Geo_model.mkTable
          (if sat then (fun x => x + 6) <$> model_datelist m0 else model_datelist m0)
          (model_target m0) cols /\
    dicts w1 = dicts w /\
    dicts w' = dicts w.
Proof.
  unfold Geo_model.save_predictions.
  intros (v & s0 & Hv & H)%bind_Done.
  apply bind_Done in H as ([] & [g0 w0] & Hpr & H).
  assert (g0 = g /\ dicts w0 = dicts w) as [-> Hw0].
  { revert Hv Hpr. unfold Geo_model.self. run_prims. intros [= <- <-].
    destruct (Geo_model.verbose g); cbn; by intros [= <- <-]. }
  destruct (select_total labels g w0) as (w1 & Hsel & Hw1).
  rewrite (bind_run _ _ _ _ _ Hsel) in H.
  apply bind_Done in H as (cols & [g2 w2] & Hloop & H).
  pose proof (reindex_run G labels _ [] g w1 cols g2 w2 eq_refl Hloop) as [-> _].
  apply bind_Done in H as (ms2 & s2 & Hms2 & H).
  unfold Geo_model.self, gets in Hms2. injection Hms2 as <- <-.
  apply bind_Done in H as (i0 & s3 & [Hi0 ->]%lift_Done & H).
  apply bind_Done in H as (m0 & s4 & [Hm0 ->]%lift_Done & H).
  revert H. unfold print. run_prims. cbn. intros [= <- <- <-].
  exists w1, cols, i0, m0. split_and!; try done.
  - by apply getitem_0.
  - by apply getitem_Ok_lookup.
  - congruence.
  - cbn. congruence.
Qed.

Lemma designated_same labels k ms ms' :
  Forall2 (fun m m' => chosen labels m <-> chosen labels m') ms ms' ->
  designated labels k ms = designated labels k ms'.
Proof.
  intros Hall. revert k. induction Hall as [| m m' ms ms' Hm _ IH]; intros k; [done |].
  rewrite !designated_cons, IH.
  destruct (decide (chosen labels m)), (decide (chosen labels m')); tauto.
Qed.

Lemma designated_head labels k ms i :
  designated labels k ms !! 0%nat = Some i ->
  exists m, (k <= i)%nat /\ ms !! (i - k)%nat = Some m /\
            filter (chosen labels) ms !! 0%nat = Some m.
Proof.
  revert k. induction ms as [| a ms IH]; intros k; [done |].
  rewrite designated_cons, filter_cons.
  destruct (decide (chosen labels a)) as [Ha | Ha].
  - intros [= <-]. exists a. by rewrite Nat.sub_diag.
  - intros (m & Hk & Hm & Hf)%IH. exists m. split; [lia |]. split; [| done].
    by replace (i - k)%nat with (S (i - S k)) by lia.
Qed.

Lemma reindexed_head d m m' :
  reindexed d m = Some m' -> head (model_datelist m') = Some d.
Proof.
  unfold reindexed. destruct (index_of d (model_datelist m)) as [i |] eqn:Hi; [| done].
  apply index_of_lookup in Hi. cbn. destruct (model_predictions m); [| done]. cbn.
  intros [= <-].
  assert (head (drop i (model_datelist m)) = Some d).
  { by rewrite head_lookup, lookup_drop, Nat.add_0_r. }
  by destruct m as [[] | []].
Qed.

Lemma reindexed_fixed d m m' : reindexed d m = Some m' -> reindexed d m' = Some m'.
Proof.
  unfold reindexed. destruct (index_of d (model_datelist m)) as [i |] eqn:Hi; [| done].
  cbn. destruct (model_predictions m) as [pr |] eqn:Hpr; [| done]. cbn.
  intros [= <-].
  pose proof (index_of_drop d _ i i Hi (Nat.le_refl i)) as H0.
  rewrite Nat.sub_diag in H0.
  destruct m as [[] | []]; cbn in *; by rewrite H0.
Qed.

(** X14. A completed export has cut every designated unit, in place, to
    start at the first occurrence of [pred_start_date] in its own calendar:
    calendar, target and predictions lose the same number of leading
    entries.  The other units and every dictionary are left alone. *)
Theorem save_predictions_reindexes G labels sat g w t g' w' :
  Geo_model.save_predictions G labels sat (g, w) = (Done t, (g', w')) ->
  exists d,
    to_datetime G (Geo_model.pred_start_date g) = Ok d /\
    g' = Geo_model.set_model_list (Geo_model.model_list g') g /\
    dicts w' = dicts w /\
    Forall2 (fun m m' => if decide (chosen labels m) then reindexed d m = Some m'
                         else m' = m)
      (Geo_model.model_list g) (Geo_model.model_list g').
Proof.
  intros (w1 & cols & i0 & m0 & Hloop & Hi0 & Hm0 & -> & Hw1 & Hw')%save_predictions_Done.
  assert (exists d, to_datetime G (Geo_model.pred_start_date g) = Ok d) as [d Hd].
  { destruct (designated labels 0 (Geo_model.model_list g)) as [| i sel]; [done |].
    cbn [map_m] in Hloop. apply bind_Done in Hloop as (col & [g1 w2] & Hcol & _).
    apply reindex_Done in Hcol as (? & d & ? & _ & Hd & _). eauto. }
  apply (reindex_run G labels _ [] g w1) in Hloop as (_ & suf' & -> & Hall & _); [| done].
  exists d. split_and!; [done | by destruct g | done |].
  cbn. destruct g; cbn in *. eapply Forall2_impl; [exact Hall |].
  intros m m'. cbn. destruct (decide (chosen labels m)); [| done].
  intros (d' & Hd' & Hm'). congruence.
Qed.

Lemma save_predictions_units G labels sat g w t g' w' :
  Geo_model.save_predictions G labels sat (g, w) = (Done t, (g', w')) ->
  exists d m0,
    to_datetime G (Geo_model.pred_start_date g) = Ok d /\
    Forall2 (fun m m' => if decide (chosen labels m) then reindexed d m = Some m'
                         else m' = m)
      (Geo_model.model_list g) (Geo_model.model_list g') /\
    designated labels 0 (Geo_model.model_list g')
      = designated labels 0 (Geo_model.model_list g) /\
    filter (chosen labels) (Geo_model.model_list g') !! 0%nat = Some m0 /\
    t = Geo_model.mkTable
          (if sat then (fun x => x + 6) <$> model_datelist m0 else model_datelist m0)
          (model_target m0) (Geo_model.col_preds t) /\
    (fun c => (c.1, Some c.2)) <$> Geo_model.col_preds t
      = (fun m => (model_label m, model_predictions m))
          <$> filter (chosen labels) (Geo_model.model_list g').
Proof.
  intros Hrun.
  apply save_predictions_Done in Hrun
    as (w1 & cols & i0 & m0 & Hloop & Hi0 & Hm0 & -> & Hw1 & Hw').
  assert (exists d, to_datetime G (Geo_model.pred_start_date g) = Ok d) as [d Hd].
  { destruct (designated labels 0 (Geo_model.model_list g)) as [| i sel]; [done |].
    cbn [map_m] in Hloop. apply bind_Done in Hloop as (col & [g1 w2] & Hcol & _).
    apply reindex_Done in Hcol as (? & d & ? & _ & Hd & _). eauto. }
  destruct (reindex_run G labels _ [] g w1 _ _ _ eq_refl Hloop)
    as (_ & suf0 & Hsuf0 & Hall0 & _).
  assert (suf0 = Geo_model.model_list g') as -> by (rewrite Hsuf0; by destruct g).
  assert (Hall : Forall2 (fun m m' => if decide (chosen labels m)
                                      then reindexed d m = Some m' else m' = m)
                   (Geo_model.model_list g) (Geo_model.model_list g')).
  { eapply Forall2_impl; [exact Hall0 |].
    intros m m'. cbn. destruct (decide (chosen labels m)); [| done].
    intros (d' & Hd' & Hm'). congruence. }
  assert (Hsame : designated labels 0 (Geo_model.model_list g')
                  = designated labels 0 (Geo_model.model_list g)).
  { symmetry. apply designated_same. eapply Forall2_impl; [exact Hall |].
    intros m m'. cbn. destruct (decide (chosen labels m)) as [Hm | Hm].
    - intros Hm'. symmetry. by apply (reindexed_chosen labels d).
    - by intros ->. }
  rewrite <- Hsame in Hi0.
  apply designated_head in Hi0 as (m & _ & Hm & Hf).
  rewrite Nat.sub_0_r, Hm0 in Hm. injection Hm as <-.
  apply (reindex_run G labels _ [] g w1) in Hloop as (_ & suf' & Hsuf & _ & Hcols);
    [| done].
  assert (suf' = Geo_model.model_list g') as -> by (rewrite Hsuf; by destruct g).
  exists d, m0. by split_and!.
Qed.

(** X15. The table a completed export writes: the date and target columns
    are those of the first designated unit alone (six days later when
    [end_saturday] holds), there is one prediction column per designated
    unit in registration order, and every designated unit's calendar now
    starts at [pred_start_date]. *)
Theorem save_predictions_table G labels sat g w t g' w' :
  Geo_model.save_predictions G labels sat (g, w) = (Done t, (g', w')) ->
  exists d first rest,
    to_datetime G (Geo_model.pred_start_date g) = Ok d /\
    filter (chosen labels) (Geo_model.model_list g') = first :: rest /\
    Geo_model.col_week t
      = (if sat then (fun x => x + 6) <$> model_datelist first else model_datelist first) /\
    Geo_model.col_target t = model_target first /\
    (fun c => (c.1, Some c.2)) <$> Geo_model.col_preds t
      = (fun m => (model_label m, model_predictions m)) <$> (first :: rest) /\
    Forall (fun m => head (model_datelist m) = Some d) (first :: rest).
Proof.
  intros (d & m0 & Hd & Hall & _ & Hf & Ht & Hcols)%save_predictions_units.
  destruct (filter (chosen labels) (Geo_model.model_list g')) as [| first rest] eqn:Hfl;
    [done |].
  injection Hf as ->. exists d, m0, rest. split_and!; [done | done | | | done |].
  - by rewrite Ht.
  - by rewrite Ht.
  - rewrite <- Hfl. apply Forall_forall. intros m' [Hch Hin]%list_elem_of_filter.
    apply list_elem_of_lookup in Hin as [i Hi].
    destruct (Forall2_lookup_r _ _ _ _ _ Hall Hi) as (m & _ & Hm).
    destruct (decide (chosen labels m)) as [Hcm | Hcm]; [| by subst].
    by apply (reindexed_head d m).
Qed.

Lemma reindex_fixed G i g w m d :
  Geo_model.model_list g !! i = Some m ->
  to_datetime G (Geo_model.pred_start_date g) = Ok d ->
  reindexed d m = Some m ->
  exists col, Geo_model.reindex G i (g, w) = (Done col, (g, w)).
Proof.
  intros Hm Hd. unfold Geo_model.reindex, list_index, reindexed. run_prims.
  destruct g as [res psd v inp tg dl ms]. cbn in *.
  rewrite (getitem_lookup _ _ _ Hm). cbn. rewrite Hd. cbn.
  destruct (index_of d (model_datelist m)) as [shift |]; cbn; [| done].
  rewrite !slice_from_nonneg, Nat2Z.id by lia.
  destruct (model_predictions m) as [pr |] eqn:Hpr; cbn; [| done].
  rewrite slice_from_nonneg, Nat2Z.id by lia.
  intros [= ->]. rewrite list_insert_id by done. eauto.
Qed.

Lemma reindex_run_fixed G labels d suf : forall pre g w,
  Geo_model.model_list g = pre ++ suf ->
  to_datetime G (Geo_model.pred_start_date g) = Ok d ->
  Forall (fun m => chosen labels m -> reindexed d m = Some m) suf ->
  exists cols,
    map_m (Geo_model.reindex G) (designated labels (length pre) suf) (g, w)
      = (Done cols, (g, w)).
Proof.
  induction suf as [| a rest IH]; intros pre g w Hms Hd Hall.
  - by exists [].
  - apply Forall_cons in Hall as [Ha Hall].
    destruct (IH (pre ++ [a]) g w) as [cols Hcols]; [by rewrite <- app_assoc | done.. |].
    rewrite length_app, Nat.add_1_r in Hcols.
    rewrite designated_cons. destruct (decide (chosen labels a)) as [Hc | Hc]; [| eauto].
    destruct (reindex_fixed G (length pre) g w a d) as [col Hcol]; [| done | by apply Ha |].
    { rewrite Hms. by apply list_lookup_middle. }
    exists (col :: cols). cbn [map_m].
    rewrite (bind_run _ _ _ _ _ Hcol), (bind_run _ _ _ _ _ Hcols). reflexivity.
Qed.

(** X16. Exporting a second time writes the same table and changes no
    unit: after a completed export every designated unit already starts
    at [pred_start_date]. *)
Theorem save_predictions_twice G labels sat g w t g' w' :
  Geo_model.save_predictions G labels sat (g, w) = (Done t, (g', w')) ->
  exists w'',
    Geo_model.save_predictions G labels sat (g', w') = (Done t, (g', w'')) /\
    dicts w'' = dicts w'.
Proof.
  intros Hrun.
  destruct (save_predictions_units _ _ _ _ _ _ _ _ Hrun)
    as (d & m0 & Hd & Hall & Hsame & Hf & Ht & Hcols).
  assert (Hpsd : Geo_model.pred_start_date g' = Geo_model.pred_start_date g).
  { apply save_predictions_Done in Hrun as (w1 & cols & _ & _ & Hloop & _).
    destruct (reindex_run G labels _ [] g w1 _ _ _ eq_refl Hloop) as (_ & ? & -> & _).
    by destruct g. }
  assert (Hfixed : Forall (fun m => chosen labels m -> reindexed d m = Some m)
                     (Geo_model.model_list g')).
  { apply Forall_forall. intros m' Hin Hch.
    apply list_elem_of_lookup in Hin as [i Hi].
    destruct (Forall2_lookup_r _ _ _ _ _ Hall Hi) as (m & _ & Hm).
    destruct (decide (chosen labels m)) as [Hcm | Hcm].
    - by apply (reindexed_fixed d m).
    - subst m'. done. }
  assert (exists i0, designated labels 0 (Geo_model.model_list g') !! 0%nat = Some i0 /\
                     Geo_model.model_list g' !! i0 = Some m0) as (i0 & Hi0 & Hm0).
  { apply save_predictions_Done in Hrun
      as (w1 & cols & i0 & m1 & _ & Hi0 & Hm1 & _).
    rewrite <- Hsame in Hi0. exists i0. split; [done |].
    apply designated_head in Hi0 as (m & _ & Hm & Hfm).
    rewrite Nat.sub_0_r in Hm. congruence. }
  unfold Geo_model.save_predictions.
  set (w0 := if Geo_model.verbose g' then emit [PS "Saving predictions to file. "] w'
             else w').
  assert (Hw0 : dicts w0 = dicts w') by (subst w0; by destruct (Geo_model.verbose g')).
  destruct (select_total labels g' w0) as (w1 & Hsel & Hw1).
  destruct (reindex_run_fixed G labels d _ [] g' w1 eq_refl) as [cols2 Hloop];
    [by rewrite Hpsd | done |].
  pose proof (reindex_run G labels _ [] g' w1 cols2 g' w1 eq_refl Hloop)
    as (_ & suf' & Hsuf & _ & Hcols2).
  assert (suf' = Geo_model.model_list g') as ->.
  { rewrite Hsuf. by destruct g'. }
  assert (cols2 = Geo_model.col_preds t) as ->.
  { apply (list_fmap_eq_inj (fun c : string * list float => (c.1, Some c.2))).
    - intros [a b] [a' b']. cbn. by intros [= -> ->].
    - congruence. }
  destruct t as [cw ct cp]. cbn [Geo_model.col_preds] in *. injection Ht as -> ->.
  eexists. split.
  - rewrite (bind_run (Geo_model.self Geo_model.verbose) _ (g', w') _ (g', w') eq_refl).
    rewrite (bind_run (when _ _) _ (g', w') tt (g', w0)).
    2:{ subst w0. unfold when, print, modify, ret. cbn.
        by destruct (Geo_model.verbose g'). }
    rewrite (bind_run _ _ _ _ _ Hsel), (bind_run _ _ _ _ _ Hloop).
    rewrite (bind_run (Geo_model.self Geo_model.model_list) _ (g', w1) _ (g', w1) eq_refl).
    rewrite (bind_run (lift _) _ (g', w1) i0 (g', w1)).
    2:{ change 0 with (Z.of_nat 0). by rewrite (getitem_lookup _ _ _ Hi0). }
    rewrite (bind_run (lift _) _ (g', w1) m0 (g', w1)).
    2:{ cbn. by rewrite (getitem_lookup _ _ _ Hm0). }
    unfold print. run_prims. reflexivity.
  - cbn. congruence.
Qed.

Lemma save_predictions_reindexes_witness :
  let s := Examples.fitted Sample.as_written in
  let r := Geo_model.save_predictions Sample.as_written Geo_model.LabelsAll true s in
  exists d,
    to_datetime Sample.as_written (Geo_model.pred_start_date s.1) = Ok d /\
    r.2.1 = Geo_model.set_model_list (Geo_model.model_list r.2.1) s.1 /\
    dicts r.2.2 = dicts s.2 /\
    Forall2 (fun m m' => if decide (chosen Geo_model.LabelsAll m)
                         then reindexed d m = Some m' else m' = m)
      (Geo_model.model_list s.1) (Geo_model.model_list r.2.1).
Proof.
  intros s r.
  pose (t := match r.1 with Done t => t | _ => Geo_model.mkTable [] [] [] end).
  assert (Hrun : Geo_model.save_predictions Sample.as_written Geo_model.LabelsAll true
                   (s.1, s.2) = (Done t, (r.2.1, r.2.2))) by (vm_compute; reflexivity).
  exact (save_predictions_reindexes Sample.as_written Geo_model.LabelsAll true
           s.1 s.2 t r.2.1 r.2.2 Hrun).
Defined.

Lemma save_predictions_table_witness :
  let s := Examples.fitted Sample.as_written in
  let r := Geo_model.save_predictions Sample.as_written (Geo_model.LabelsList ["B"])
             false s in
  exists t d first rest,
    r.1 = Done t /\
    to_datetime Sample.as_written (Geo_model.pred_start_date s.1) = Ok d /\
    filter (chosen (Geo_model.LabelsList ["B"])) (Geo_model.model_list r.2.1)
      = first :: rest /\
    Geo_model.col_week t = model_datelist first /\
    Geo_model.col_target t = model_target first /\
    (fun c => (c.1, Some c.2)) <$> Geo_model.col_preds t
      = (fun m => (model_label m, model_predictions m)) <$> (first :: rest) /\
    Forall (fun m => head (model_datelist m) = Some d) (first :: rest).
Proof.
  intros s r.
  pose (t := match r.1 with Done t => t | _ => Geo_model.mkTable [] [] [] end).
  assert (Hrun : Geo_model.save_predictions Sample.as_written (Geo_model.LabelsList ["B"])
                   false (s.1, s.2) = (Done t, (r.2.1, r.2.2)))
    by (vm_compute; reflexivity).
  exists t.
  destruct (save_predictions_table Sample.as_written (Geo_model.LabelsList ["B"]) false
              s.1 s.2 t r.2.1 r.2.2 Hrun) as (d & first & rest & H).
  exists d, first, rest. split; [vm_compute; reflexivity | exact H].
Defined.

Lemma save_predictions_twice_witness :
  let s := Examples.fitted Sample.as_written in
  let r := Geo_model.save_predictions Sample.as_written Geo_model.LabelsAll true s in
  exists t w'',
    r.1 = Done t /\
    Geo_model.save_predictions Sample.as_written Geo_model.LabelsAll true (r.2.1, r.2.2)
      = (Done t, (r.2.1, w'')) /\
    dicts w'' = dicts r.2.2.
Proof.
  intros s r.
  pose (t := match r.1 with Done t => t | _ => Geo_model.mkTable [] [] [] end).
  assert (Hrun : Geo_model.save_predictions Sample.as_written Geo_model.LabelsAll true
                   (s.1, s.2) = (Done t, (r.2.1, r.2.2))) by (vm_compute; reflexivity).
  exists t.
  destruct (save_predictions_twice Sample.as_written Geo_model.LabelsAll true
              s.1 s.2 t r.2.1 r.2.2 Hrun) as (w'' & H).
  exists w''. split; [vm_compute; reflexivity | exact H].
Defined.

Lemma designated_none labels k ms :
  filter (chosen labels) ms = [] -> designated labels k ms = [].
Proof.
  revert k. induction ms as [| m ms IH]; intros k; [done |].
  rewrite filter_cons, designated_cons.
  destruct (decide (chosen labels m)); [done | apply IH].
Qed.

(** X17. When no registered unit is designated (a list of labels none of
    which is registered, or any argument on a model without units), the
    export raises [IndexError] at [s[0]]: no table is written, and the
    orchestrator and every dictionary are left as they were. *)
Theorem save_predictions_nothing_designated G labels sat g w :
  filter (chosen labels) (Geo_model.model_list g) = [] ->
  exists w',
    Geo_model.save_predictions G labels sat (g, w) = (Raise IndexError, (g, w')) /\
    dicts w' = dicts w.
Proof.
  intros Hnone%(designated_none labels 0).
  unfold Geo_model.save_predictions.
  set (w0 := if Geo_model.verbose g then emit [PS "Saving predictions to file. "] w
             else w).
  assert (Hw0 : dicts w0 = dicts w) by (subst w0; by destruct (Geo_model.verbose g)).
  destruct (select_total labels g w0) as (w1 & Hsel & Hw1). rewrite Hnone in Hsel.
  exists w1. split; [| congruence].
  rewrite (bind_run (Geo_model.self Geo_model.verbose) _ (g, w) _ (g, w) eq_refl).
  rewrite (bind_run (when _ _) _ (g, w) tt (g, w0)).
  2:{ subst w0. unfold when, print, modify, ret. cbn. by destruct (Geo_model.verbose g). }
  rewrite (bind_run _ _ _ _ _ Hsel). reflexivity.
Qed.

Lemma save_predictions_nothing_designated_witness :
  exists w',
    Geo_model.save_predictions Sample.as_written (Geo_model.LabelsList ["Z"]) true
      ((Examples.fitted Sample.as_written).1, (Examples.fitted Sample.as_written).2)
      = (Raise IndexError, ((Examples.fitted Sample.as_written).1, w')) /\
    dicts w' = dicts (Examples.fitted Sample.as_written).2.
Proof.
  exact (save_predictions_nothing_designated Sample.as_written
           (Geo_model.LabelsList ["Z"]) true (Examples.fitted Sample.as_written).1
           (Examples.fitted Sample.as_written).2 eq_refl).
Defined.

Lemma designated_first labels ms : forall i k m,
  ms !! i = Some m -> chosen labels m -> filter (chosen labels) (take i ms) = [] ->
  exists rest, designated labels k ms = (k + i)%nat :: rest.
Proof.
  induction ms as [| a ms IH]; intros i k m; [done |].
  rewrite designated_cons. destruct i as [| i].
  - cbn. intros [= ->] Hm _. rewrite decide_True, Nat.add_0_r by done. eauto.
  - change (take (S i) (a :: ms)) with (a :: take i ms).
    change ((a :: ms) !! S i) with (ms !! i).
    intros Hi Hm. rewrite filter_cons.
    destruct (decide (chosen labels a)); [done |]. intros Hnone.
    destruct (IH i (S k) m Hi Hm Hnone) as [rest ->].
    exists rest. f_equal. lia.
Qed.

Lemma reindex_unpredicted G i g w p d shift :
  Geo_model.model_list g !! i = Some (MPredictor p) ->
  Predictor.predictions p = None ->
  to_datetime G (Geo_model.pred_start_date g) = Ok d ->
  index_of d (Predictor.datelist p) = Some shift ->
  Geo_model.reindex G i (g, w)
    = (Raise TypeError,
       (Geo_model.set_model_list
          (<[i := MPredictor
                    (Predictor.set_target (drop shift (Predictor.target p))
                       (Predictor.set_datelist (drop shift (Predictor.datelist p)) p))]>
             (Geo_model.model_list g)) g, w)).
Proof.
  intros Hm Hpr Hd Hi. unfold Geo_model.reindex, list_index. run_prims.
  destruct g as [res psd v inp tg dl ms]. cbn in *.
  rewrite (getitem_lookup _ _ _ Hm). cbn. rewrite Hd. cbn. rewrite Hi. cbn.
  rewrite Hpr. cbn. by rewrite !slice_from_nonneg, Nat2Z.id by lia.
Qed.

(** X18. An export that meets a designated [Predictor] that has not
    predicted yet fails with [TypeError], and not cleanly: when that unit
    is the first designated one, its calendar and its target have already
    been cut to start at [pred_start_date] when the exception leaves
    [save_predictions]. *)
Theorem save_predictions_before_predict G labels sat g w i p d shift :
  Geo_model.model_list g !! i = Some (MPredictor p) ->
  chosen labels (MPredictor p) ->
  filter (chosen labels) (take i (Geo_model.model_list g)) = [] ->
  Predictor.predictions p = None ->
  to_datetime G (Geo_model.pred_start_date g) = Ok d ->
  index_of d (Predictor.datelist p) = Some shift ->
  exists w',
    Geo_model.save_predictions G labels sat (g, w)
      = (Raise TypeError,
         (Geo_model.set_model_list
            (<[i := MPredictor
                      (Predictor.set_target (drop shift (Predictor.target p))
                         (Predictor.set_datelist (drop shift (Predictor.datelist p)) p))]>
               (Geo_model.model_list g)) g, w')) /\
    dicts w' = dicts w.
Proof.
  intros Hm Hch Hfirst Hpr Hd Hi.
  destruct (designated_first labels _ i 0%nat _ Hm Hch Hfirst) as [rest Hdes].
  unfold Geo_model.save_predictions.
  set (w0 := if Geo_model.verbose g then emit [PS "Saving predictions to file. "] w
             else w).
  assert (Hw0 : dicts w0 = dicts w) by (subst w0; by destruct (Geo_model.verbose g)).
  destruct (select_total labels g w0) as (w1 & Hsel & Hw1). rewrite Hdes in Hsel.
  exists w1. split; [| congruence].
  rewrite (bind_run (Geo_model.self Geo_model.verbose) _ (g, w) _ (g, w) eq_refl).
  rewrite (bind_run (when _ _) _ (g, w) tt (g, w0)).
  2:{ subst w0. unfold when, print, modify, ret. cbn. by destruct (Geo_model.verbose g). }
  rewrite (bind_run _ _ _ _ _ Hsel). cbn [map_m Nat.add].
  erewrite bind_raise; [reflexivity |].
  erewrite bind_raise; [reflexivity |].
  by apply (reindex_unpredicted G i g w1 p d shift).
Qed.

Lemma save_predictions_before_predict_witness :
  exists p w',
    Geo_model.model_list Examples.registered.1 = [MPredictor p] /\
    Geo_model.save_predictions Sample.as_written Geo_model.LabelsAll true
      (Examples.registered.1, Examples.registered.2)
      = (Raise TypeError,
         (Geo_model.set_model_list
            (<[0%nat := MPredictor
                      (Predictor.set_target (drop 2 (Predictor.target p))
                         (Predictor.set_datelist (drop 2 (Predictor.datelist p)) p))]>
               (Geo_model.model_list Examples.registered.1)) Examples.registered.1, w')) /\
    dicts w' = dicts Examples.registered.2.
Proof.
  pose (p := match Geo_model.model_list Examples.registered.1 with
             | [MPredictor p] => p
             | _ => Sample.unit0
             end).
  destruct (save_predictions_before_predict Sample.as_written Geo_model.LabelsAll true
              Examples.registered.1 Examples.registered.2 0%nat p 15725 2%nat
              eq_refl I eq_refl eq_refl eq_refl eq_refl) as [w' H].
  exists p, w'. split; [reflexivity | exact H].
Defined.

(** * The prediction layer *)

Lemma new_predictor_labelled lb g w :
  exists p w',
    Geo_model.new_predictor (Ok lb) (g, w) = (Done p, (g, w')) /\
    Predictor.label p = lb.
Proof. unfold Geo_model.new_predictor, alloc_dict, Predictor.init. cbn. eauto. Qed.

Lemma new_predictor_unlabelled e g w :
  exists w', Geo_model.new_predictor (Err e) (g, w) = (Raise e, (g, w')).
Proof. unfold Geo_model.new_predictor, alloc_dict. cbn. eauto. Qed.

Lemma getitem_beyond {A} (l : list A) i :
  (length l <= i)%nat -> getitem l (Z.of_nat i) = Err IndexError.
Proof.
  intros Hi. unfold getitem. destruct (Z.ltb_spec (Z.of_nat i) 0); [lia |]. cbn.
  destruct (Z.ltb_spec (Z.of_nat i) 0); [lia |]. rewrite Nat2Z.id.
  by rewrite lookup_ge_None_2.
Qed.

(** The comprehension with enough labels... *)
Lemma new_predictors_labels labels n : forall k g w,
  (k + n <= length labels)%nat ->
  exists ps w',
    map_m (fun i => Geo_model.new_predictor (getitem labels (Z.of_nat i))) (seq k n) (g, w)
      = (Done ps, (g, w')) /\
    Predictor.label <$> ps = take n (drop k labels).
Proof.
  induction n as [| n IH]; intros k g w Hk.
  - exists [], w. by rewrite take_0.
  - destruct (lookup_lt_is_Some_2 labels k) as [lb Hlb]; [lia |].
    destruct (new_predictor_labelled lb g w) as (p & w1 & Hp & Hlabel).
    destruct (IH (S k) g w1) as (ps & w2 & Hps & Hlabels); [lia |].
    exists (p :: ps), w2. cbn [seq map_m].
    rewrite (getitem_lookup _ _ _ Hlb), (bind_run _ _ _ _ _ Hp), (bind_run _ _ _ _ _ Hps).
    split; [done |]. rewrite fmap_cons, Hlabel, Hlabels.
    by rewrite (drop_S _ _ _ Hlb).
Qed.

(** ... and with too few. *)
Lemma new_predictors_short labels n : forall k g w,
  (k <= length labels < k + n)%nat ->
  exists w',
    map_m (fun i => Geo_model.new_predictor (getitem labels (Z.of_nat i))) (seq k n) (g, w)
      = (Raise IndexError, (g, w')).
Proof.
  induction n as [| n IH]; intros k g w Hk; [lia |]. cbn [seq map_m].
  destruct (decide (k = length labels)) as [-> | Hne].
  - rewrite getitem_beyond by done.
    destruct (new_predictor_unlabelled IndexError g w) as [w1 Hw1].
    exists w1. by rewrite (bind_raise _ _ _ _ _ Hw1).
  - destruct (lookup_lt_is_Some_2 labels k) as [lb Hlb]; [lia |].
    destruct (new_predictor_labelled lb g w) as (p & w1 & Hp & _).
    destruct (IH (S k) g w1) as (w2 & Hw2); [lia |].
    exists w2. rewrite (getitem_lookup _ _ _ Hlb), (bind_run _ _ _ _ _ Hp).
    by rewrite (bind_raise _ _ _ _ _ Hw2).
Qed.

(** X19. With fewer labels than [n_models], [init_prediction_layer] raises
    [IndexError] while it builds the predictors: [model_list] keeps the
    units it had (a completed call replaces them), nothing is processed or
    predicted, and the dictionaries that existed are as they were. *)
Theorem init_prediction_layer_short_labels G n labels pspecs qspecs g w :
  Z.of_nat (length labels) < n ->
  exists w',
    Geo_model.init_prediction_layer G n labels pspecs qspecs (g, w)
      = (Raise IndexError, (g, w')) /\
    forall k, is_Some (dicts w !! k) -> dicts w' !! k = dicts w !! k.
Proof.
  intros Hn. unfold Geo_model.init_prediction_layer.
  destruct (new_predictors_short labels (Z.to_nat n) 0 g w) as [w' Hw']; [lia |].
  exists w'. rewrite (bind_raise _ _ _ _ _ Hw'). split; [done |].
  pose proof (new_predictors_spec (fun i => getitem labels (Z.of_nat i))
                (seq 0 (Z.to_nat n)) g w) as (_ & Hsame & _).
  by rewrite Hw' in Hsame.
Qed.

Lemma init_prediction_layer_short_labels_witness :
  exists w',
    Geo_model.init_prediction_layer Sample.as_written 3 ["A"; "B"] [] []
      (Sample.trained_geo Sample.as_written, Sample.trained_world Sample.as_written)
      = (Raise IndexError, (Sample.trained_geo Sample.as_written, w')) /\
    forall k, is_Some (dicts (Sample.trained_world Sample.as_written) !! k) ->
              dicts w' !! k = dicts (Sample.trained_world Sample.as_written) !! k.
Proof.
  exact (init_prediction_layer_short_labels Sample.as_written 3 ["A"; "B"] [] []
           (Sample.trained_geo Sample.as_written) (Sample.trained_world Sample.as_written)
           eq_refl).
Defined.

(** The labels of the units are an invariant of the calls made on them. *)
Lemma perform_keeps_labels G i c L :
  preserves (fun s : Geo_model.st =>
               exists ps, Geo_model.model_list s.1 = MPredictor <$> ps /\
                          Predictor.label <$> ps = L)
    (Geo_model.perform G i c).
Proof.
  intros [g w] (ps & Hms & HL). cbn [fst] in Hms.
  assert (Hon : forall A name (m : M Predictor.st A),
            (forall s, Predictor.label (m s).2.1 = Predictor.label s.1) ->
            exists ps', Geo_model.model_list (Geo_model.on_predictor i name m (g, w)).2.1
                          = MPredictor <$> ps' /\
                        Predictor.label <$> ps' = L).
  { intros A name m Hm. unfold Geo_model.on_predictor. cbn [fst snd]. rewrite Hms.
    rewrite list_lookup_fmap. destruct (ps !! i) as [p |] eqn:Hp; cbn.
    - specialize (Hm (p, w)). destruct (m (p, w)) as [r [p' w']]. cbn in *.
      exists (<[i := p']> ps). split.
      + destruct g. cbn. by rewrite list_fmap_insert.
      + rewrite list_fmap_insert, Hm. rewrite list_insert_id; [done |].
        by rewrite list_lookup_fmap, Hp.
    - exists ps. by rewrite Hms. }
  destruct c as [[[[ft fa] fg] ar] | [[[[iv method] horizon] tl] ins] params]; cbn.
  - apply Hon. intros s. apply (data_process_keeps_label G ft fa fg ar s).
  - apply Hon. intros s. apply (predict_keeps_label G iv method horizon tl ins params s).
Qed.

(** X20. With at least [n_models] labels, [init_prediction_layer] replaces
    [model_list] by [n_models] predictors carrying the first [n_models]
    labels in order, and this is what [model_list] holds however the
    processing and the predictions that follow end: a failure in one of
    them stops the loop but leaves the new units registered. *)
Theorem init_prediction_layer_labels G n labels pspecs qspecs g w :
  (Z.to_nat n <= length labels)%nat ->
  exists ps,
    Geo_model.model_list
      (Geo_model.init_prediction_layer G n labels pspecs qspecs (g, w)).2.1
      = MPredictor <$> ps /\
    Predictor.label <$> ps = take (Z.to_nat n) labels.
Proof.
  intros Hn. unfold Geo_model.init_prediction_layer.
  destruct (new_predictors_labels labels (Z.to_nat n) 0 g w) as (ps & w1 & Hps & Hlabels);
    [lia |].
  rewrite drop_0 in Hlabels.
  rewrite (bind_run _ _ _ _ _ Hps).
  rewrite (bind_run _ _ _ tt (Geo_model.set_model_list (MPredictor <$> ps) g, w1))
    by reflexivity.
  set (P := fun s : Geo_model.st =>
              exists ps, Geo_model.model_list s.1 = MPredictor <$> ps /\
                         Predictor.label <$> ps = take (Z.to_nat n) labels).
  assert (HP : P (Geo_model.set_model_list (MPredictor <$> ps) g, w1)).
  { exists ps. split; [by destruct g | done]. }
  revert HP. generalize (Geo_model.set_model_list (MPredictor <$> ps) g, w1).
  change (preserves P
    (ms <- Geo_model.self Geo_model.model_list ;;
     for_each
       (fun i =>
          a <- lift (getitem pspecs (Z.of_nat i)) ;;
          Geo_model.perform G i (Geo_model.DataProcess a) ;;;
          b <- lift (getitem qspecs (Z.of_nat i)) ;;
          Geo_model.perform G i (Geo_model.Predict b []))
       (seq 0 (length ms)))%py).
  apply preserves_bind; [intros s Hs; exact Hs | intros ms].
  apply preserves_for_each. intros i.
  apply preserves_bind; [apply preserves_lift | intros a].
  apply preserves_bind; [apply perform_keeps_labels | intros _].
  apply preserves_bind; [apply preserves_lift | intros b].
  apply perform_keeps_labels.
Qed.

Lemma init_prediction_layer_labels_witness :
  exists ps,
    Geo_model.model_list
      (Geo_model.init_prediction_layer Sample.as_written 2 ["A"; "B"; "C"]
         [(false, false, false, ARInt 1)] []
         (Sample.geo "2013-01-20", Sample.world0)).2.1
      = MPredictor <$> ps /\
    Predictor.label <$> ps = take (Z.to_nat 2) ["A"; "B"; "C"].
Proof.
  exact (init_prediction_layer_labels Sample.as_written 2 ["A"; "B"; "C"]
           [(false, false, false, ARInt 1)] []
           (Sample.geo "2013-01-20") Sample.world0 ltac:(cbn; lia)).
Defined.

(** * Loading *)

Ltac run_load :=
  unfold Geo_model_load.data_load, Geo_model_load.data_load_from_file,
    Geo_model_load.load_source, Geo_model_load.read_inputs,
    Geo_model_load.setitem_inputs, Geo_model_load.rebind_inputs, alloc_dict in *;
  run_prims.

(** X21. The target loader is the one loader whose failure is fatal: when
    it raises, [data_load] raises the same exception before any other
    source is read, and the model and every dictionary are as they were. *)
Theorem data_load_target_failure_is_fatal L R target_file gt_file ath_file fny_file g w e :
  load_target L target_file (Geo_model_load.geo_level R) (Geo_model_load.geo_id R)
    (Geo_model_load.use_data_from R) = Err e ->
  exists w',
    Geo_model_load.data_load L R target_file gt_file ath_file fny_file (g, w)
      = (Raise e, (g, w')) /\
    dicts w' = dicts w.
Proof.
  intros He. run_load. cbn. rewrite He.
  destruct (Geo_model.verbose g); cbn; eauto.
Qed.

Lemma data_load_target_failure_is_fatal_witness :
  exists w',
    Geo_model_load.data_load Examples.loaders Examples.national None (Some "gt.csv")
      None None Examples.blank
      = (Raise (LibraryError "no target file"), (Examples.blank.1, w')) /\
    dicts w' = dicts Examples.blank.2.
Proof.
  exact (data_load_target_failure_is_fatal Examples.loaders Examples.national None
           (Some "gt.csv") None None Examples.blank.1 Examples.blank.2 _ eq_refl).
Defined.

(** One optional source: the step always completes, and what it leaves in
    the inputs dictionary is [with_source]. *)
Lemma load_source_runs key file loader msg g w :
  exists w',
    Geo_model_load.load_source key file loader msg (g, w) = (Done tt, (g, w')) /\
    dict_at w' (Geo_model.inputs g)
      = with_source key file loader (dict_at w (Geo_model.inputs g)) /\
    forall l, l <> Geo_model.inputs g -> dicts w' !! l = dicts w !! l.
Proof.
  unfold with_source. run_load. cbn.
  destruct (Geo_model_load.given file) as [f |]; [| by eexists].
  destruct (loader f) as [a | e]; cbn; eexists; (split; [reflexivity |]).
  - split; [apply dict_at_set_dict |]. intros l Hl. cbn. by rewrite lookup_insert_ne.
  - done.
Qed.

(** [data_load] up to the validation. *)
Lemma data_load_steps L R target_file gt_file ath_file fny_file g w tg0 :
  load_target L target_file (Geo_model_load.geo_level R) (Geo_model_load.geo_id R)
    (Geo_model_load.use_data_from R) = Ok tg0 ->
  exists w1,
    dict_at w1 (Geo_model.inputs g)
      = merged L R gt_file ath_file fny_file (dict_at w (Geo_model.inputs g)) /\
    (forall l, l <> Geo_model.inputs g -> dicts w1 !! l = dicts w !! l) /\
    Geo_model_load.data_load L R target_file gt_file ath_file fny_file (g, w)
      = (r <- lift (validate_vars L (dict_at w1 (Geo_model.inputs g)) tg0) ;;
         Geo_model_load.rebind_inputs r.1 ;;;
         Geo_model.assign (Geo_model_load.set_target r.2) ;;;
         d <- Geo_model_load.read_inputs ;;
         tg <- Geo_model.self Geo_model.target ;;
         res <- Geo_model.self Geo_model.resolution ;;
         dl <- lift (create_datelist L d tg (Geo_model_load.use_data_from R) res) ;;
         Geo_model.assign (Geo_model_load.set_datelist dl))%py
        (Geo_model_load.set_target tg0 g, w1).
Proof.
  intros Htg. unfold Geo_model_load.data_load.
  set (w0 := if Geo_model.verbose g then emit [PS "Loading data sources:"] w else w).
  assert (Hw0 : dicts w0 = dicts w) by (subst w0; by destruct (Geo_model.verbose g)).
  set (g0 := Geo_model_load.set_target tg0 g).
  assert (Hin : Geo_model.inputs g0 = Geo_model.inputs g) by done.
  destruct (load_source_runs "gt" gt_file
              (fun f => load_gt L f (Geo_model_load.use_data_from R))
              "Error loading GT. " g0 w0) as (wa & Ha & Hda & Hoa).
  destruct (load_source_runs "ath" ath_file
              (fun f => load_athena L f (Geo_model_load.geo_level R)
                          (Geo_model_load.geo_id R) (Geo_model_load.use_data_from R))
              "Error loading ath. " g0 wa) as (wb & Hb & Hdb & Hob).
  destruct (load_source_runs "fny" fny_file
              (fun f => load_fny L f (Geo_model_load.use_data_from R))
              "Error loading FNY. " g0 wb) as (wc & Hc & Hdc & Hoc).
  exists wc. split_and!.
  - rewrite <- Hin, Hdc, Hdb, Hda. unfold merged, dict_at. by rewrite Hw0.
  - intros l Hl. rewrite Hoc, Hob, Hoa, Hw0 by by rewrite Hin. done.
  - rewrite (bind_run (Geo_model.self Geo_model.verbose) _ (g, w) _ (g, w) eq_refl).
    rewrite (bind_run (when _ _) _ (g, w) tt (g, w0)).
    2:{ subst w0. unfold when, print, modify, ret. cbn. by destruct (Geo_model.verbose g). }
    rewrite (bind_run (lift _) _ (g, w0) tg0 (g, w0)) by (by rewrite Htg).
    rewrite (bind_run (Geo_model.assign _) _ (g, w0) tt (g0, w0) eq_refl).
    rewrite (bind_run _ _ _ _ _ Ha), (bind_run _ _ _ _ _ Hb), (bind_run _ _ _ _ _ Hc).
    rewrite (bind_run Geo_model_load.read_inputs _ (g0, wc) _ (g0, wc) eq_refl).
    rewrite (bind_run (Geo_model.self Geo_model.target) _ (g0, wc) _ (g0, wc) eq_refl).
    reflexivity.
Qed.

(** ** What was printed does not matter *)

Section Blind.

Lemma blind_ret {A} (a : A) : blind (ret a).
Proof. by intros s s' H. Qed.

Lemma blind_raise {A} e : blind (raise (A := A) e).
Proof. by intros s s' H. Qed.

Lemma blind_lift {A} (r : result A) : blind (lift r).
Proof. destruct r; [apply blind_ret | apply blind_raise]. Qed.

Lemma blind_bind {A B} (m : M Geo_model.st A) (k : A -> M Geo_model.st B) :
  blind m -> (forall a, blind (k a)) -> blind (bind m k).
Proof.
  intros Hm Hk s s' Hs. unfold bind. destruct (Hm s s' Hs) as [Ho Ha].
  destruct (m s) as [[a | e |] s1], (m s') as [[a' | e' |] s1']; simplify_eq/=; try done.
  by apply Hk.
Qed.

Lemma blind_try_except {A} (body : M Geo_model.st A) handler :
  blind body -> (forall e, blind (handler e)) -> blind (try_except body handler).
Proof.
  intros Hm Hk s s' Hs. unfold try_except. destruct (Hm s s' Hs) as [Ho Ha].
  destruct (body s) as [[a | e |] s1], (body s') as [[a' | e' |] s1']; simplify_eq/=;
    try done.
  by apply Hk.
Qed.

Lemma blind_gets {A} (f : Geo_model.st -> A) :
  (forall s s', alike s s' -> f s = f s') -> blind (gets f).
Proof. intros Hf s s' Hs. unfold gets. cbn. split; [by rewrite (Hf s s') | done]. Qed.

Lemma blind_modify (f : Geo_model.st -> Geo_model.st) :
  (forall s s', alike s s' -> alike (f s) (f s')) -> blind (modify f).
Proof. intros Hf s s' Hs. unfold modify. cbn. split; [done | by apply Hf]. Qed.

Lemma blind_print line : blind (print (T := Geo_model.t) line).
Proof. apply blind_modify. intros [g w] [g' w'] [Hg Hw]. by split. Qed.

Lemma blind_when b (m : M Geo_model.st unit) : blind m -> blind (when b m).
Proof. destruct b; [done | intros _; apply blind_ret]. Qed.

Lemma blind_read_inputs : blind Geo_model_load.read_inputs.
Proof.
  apply blind_gets. intros [g w] [g' w'] [Hg Hw]. cbn in *. subst g'.
  unfold dict_at. by rewrite Hw.
Qed.

Lemma blind_setitem_inputs key a : blind (Geo_model_load.setitem_inputs key a).
Proof.
  apply blind_modify. intros [g w] [g' w'] [Hg Hw]. cbn in *. subst g'.
  split; [done |]. unfold dict_at. cbn. by rewrite Hw.
Qed.

Lemma blind_rebind_inputs d : blind (Geo_model_load.rebind_inputs d).
Proof.
  intros [g w] [g' w'] [Hg Hw]. cbn in *. subst g'.
  unfold Geo_model_load.rebind_inputs, alloc_dict, alike, set_dict. cbn [fst snd dicts].
  by rewrite Hw.
Qed.

Lemma blind_self {A} (f : Geo_model.t -> A) : blind (Geo_model.self f).
Proof. apply blind_gets. intros [g w] [g' w'] [Hg Hw]. cbn in *. by subst. Qed.

Lemma blind_assign f : blind (Geo_model.assign f).
Proof. apply blind_modify. intros [g w] [g' w'] [Hg Hw]. cbn in *. by subst. Qed.

Lemma blind_load_source key file loader msg :
  blind (Geo_model_load.load_source key file loader msg).
Proof.
  unfold Geo_model_load.load_source. destruct (Geo_model_load.given file); [| apply blind_ret].
  apply blind_try_except; [| intros e; apply blind_print].
  apply blind_bind; [apply blind_lift | intros a; apply blind_setitem_inputs].
Qed.

End Blind.

Create HintDb blind.
#[local] Hint Resolve blind_ret blind_raise blind_lift blind_print blind_read_inputs
  blind_setitem_inputs blind_rebind_inputs blind_self blind_assign blind_load_source : blind.

Ltac blind_auto :=
  repeat first
    [ apply blind_bind; [| intros ?]
    | apply blind_when
    | solve [auto with blind] ].

Lemma load_source_fails key file loader msg f e g w :
  Geo_model_load.given file = Some f -> loader f = Err e ->
  Geo_model_load.load_source key file loader msg (g, w)
    = (Done tt, (g, emit [PS msg; PE e] w)).
Proof. intros Hf He. run_load. by rewrite Hf, He. Qed.

(** X22. A source whose loader raises is the same as a source whose file
    was not given: the call goes on, and ends with the same outcome, the
    same model and the same dictionaries as the call without that file.
    This holds for each of the three optional sources. *)
Theorem data_load_source_failure_is_soft
    L R target_file gt_file ath_file fny_file s :
  let run := Geo_model_load.data_load L R target_file in
  let same (r r' : outcome unit * Geo_model.st) :=
    r.1 = r'.1 /\ alike r.2 r'.2 in
  (forall f e,
     Geo_model_load.given gt_file = Some f ->
     load_gt L f (Geo_model_load.use_data_from R) = Err e ->
     same (run gt_file ath_file fny_file s) (run None ath_file fny_file s)) /\
  (forall f e,
     Geo_model_load.given ath_file = Some f ->
     load_athena L f (Geo_model_load.geo_level R) (Geo_model_load.geo_id R)
       (Geo_model_load.use_data_from R) = Err e ->
     same (run gt_file ath_file fny_file s) (run gt_file None fny_file s)) /\
  (forall f e,
     Geo_model_load.given fny_file = Some f ->
     load_fny L f (Geo_model_load.use_data_from R) = Err e ->
     same (run gt_file ath_file fny_file s) (run gt_file ath_file None s)).
Proof.
  intros run same. subst run same. cbv beta.
  assert (Hstep : forall key file loader msg f e (k : M Geo_model.st unit) s0,
            Geo_model_load.given file = Some f -> loader f = Err e -> blind k ->
            ((Geo_model_load.load_source key file loader msg ;;; k)%py s0).1
              = ((Geo_model_load.load_source key None loader msg ;;; k)%py s0).1 /\
            alike ((Geo_model_load.load_source key file loader msg ;;; k)%py s0).2
                  ((Geo_model_load.load_source key None loader msg ;;; k)%py s0).2).
  { intros key file loader msg f e k [g0 w0] Hf He Hk.
    rewrite (bind_run _ _ _ _ _ (load_source_fails key file loader msg f e g0 w0 Hf He)).
    rewrite (bind_run (Geo_model_load.load_source key None loader msg) _ (g0, w0) tt
               (g0, w0) eq_refl).
    by apply Hk. }
  assert (Hpre : forall A (m : M Geo_model.st A) (k k' : A -> M Geo_model.st unit),
            (forall a s0, (k a s0).1 = (k' a s0).1 /\ alike (k a s0).2 (k' a s0).2) ->
            forall s0, (bind m k s0).1 = (bind m k' s0).1 /\
                       alike (bind m k s0).2 (bind m k' s0).2).
  { intros A m k k' Hk s0. unfold bind.
    destruct (m s0) as [[a | e |] s1]; [apply Hk | by repeat split..]. }
  unfold Geo_model_load.data_load.
  split_and!; intros f e Hf He.
  - do 4 (apply Hpre; intros ? ?). eapply Hstep; [done.. |]. blind_auto.
  - do 5 (apply Hpre; intros ? ?). eapply Hstep; [done.. |]. blind_auto.
  - do 6 (apply Hpre; intros ? ?). eapply Hstep; [done.. |]. blind_auto.
Qed.

Lemma data_load_source_failure_is_soft_witness :
  let r := Geo_model_load.data_load Examples.loaders Examples.national (Some "ili.csv")
             (Some "gt.csv") (Some "ath.csv") None Examples.blank in
  let r' := Geo_model_load.data_load Examples.loaders Examples.national (Some "ili.csv")
              (Some "gt.csv") None None Examples.blank in
  r.1 = r'.1 /\ alike r.2 r'.2.
Proof.
  exact (proj1 (proj2 (data_load_source_failure_is_soft Examples.loaders Examples.national
                         (Some "ili.csv") (Some "gt.csv") (Some "ath.csv") None
                         Examples.blank))
           "ath.csv" (LibraryError "no such file") eq_refl eq_refl).
Defined.

(** X23. What a completed [data_load] leaves: the sources it could load are
    merged into the dictionary the model already had (an earlier source
    that is not loaded again stays), the merged dictionary and the loaded
    target go through [validate_vars], the calendar is made from what that
    returned, and the units and the other dictionaries are left alone. *)
Theorem data_load_merges_sources
    L R target_file gt_file ath_file fny_file g w g' w' :
  Geo_model_load.data_load L R target_file gt_file ath_file fny_file (g, w)
    = (Done tt, (g', w')) ->
  exists tg0,
    load_target L target_file (Geo_model_load.geo_level R) (Geo_model_load.geo_id R)
      (Geo_model_load.use_data_from R) = Ok tg0 /\
    validate_vars L
      (merged L R gt_file ath_file fny_file (dict_at w (Geo_model.inputs g))) tg0
      = Ok (dict_at w' (Geo_model.inputs g'), Geo_model.target g') /\
    create_datelist L (dict_at w' (Geo_model.inputs g')) (Geo_model.target g')
      (Geo_model_load.use_data_from R) (Geo_model.resolution g)
      = Ok (Geo_model.datelist g') /\
    Geo_model.model_list g' = Geo_model.model_list g /\
    forall l, l <> Geo_model.inputs g -> is_Some (dicts w !! l) ->
              dicts w' !! l = dicts w !! l.
Proof.
  destruct (load_target L target_file (Geo_model_load.geo_level R)
              (Geo_model_load.geo_id R) (Geo_model_load.use_data_from R))
    as [tg0 | e] eqn:Htg.
  2:{ run_load. cbn. rewrite Htg. by destruct (Geo_model.verbose g). }
  destruct (data_load_steps L R _ gt_file ath_file fny_file g w tg0 Htg)
    as (w1 & Hd1 & Ho1 & ->).
  rewrite Hd1. intros Hrun. exists tg0. split; [done |]. revert Hrun.
  destruct (validate_vars L _ tg0) as [[d2 tg2] | e]; [| done].
  unfold Geo_model_load.read_inputs, Geo_model_load.rebind_inputs, alloc_dict,
    Geo_model.self, Geo_model.assign, bind, lift, gets, modify, ret, raise.
  cbn [fst snd Geo_model.inputs Geo_model_load.set_inputs
       Geo_model_load.set_target Geo_model.target Geo_model.resolution].
  rewrite dict_at_set_dict.
  destruct (create_datelist L d2 tg2 (Geo_model_load.use_data_from R)
              (Geo_model.resolution g)) as [dl | e] eqn:Hdl; [| done].
  intros [= <- <-]. cbn. rewrite dict_at_set_dict. split_and!; [done | done | done |].
  intros l Hl Hsome. rewrite lookup_insert_ne; [by apply Ho1 |].
  intros <-. rewrite <- Ho1 in Hsome by done.
  apply (is_fresh (dom (dicts w1))). by apply elem_of_dom.
Qed.

Lemma data_load_merges_sources_witness :
  let r := Geo_model_load.data_load Examples.loaders Examples.national (Some "ili.csv")
             (Some "gt.csv") (Some "ath.csv") None Examples.blank in
  exists tg0,
    load_target Examples.loaders (Some "ili.csv") "National" None "2013-01-06" = Ok tg0 /\
    validate_vars Examples.loaders
      (merged Examples.loaders Examples.national (Some "gt.csv") (Some "ath.csv") None
         (dict_at Examples.blank.2 (Geo_model.inputs Examples.blank.1))) tg0
      = Ok (dict_at r.2.2 (Geo_model.inputs r.2.1), Geo_model.target r.2.1) /\
    create_datelist Examples.loaders (dict_at r.2.2 (Geo_model.inputs r.2.1))
      (Geo_model.target r.2.1) "2013-01-06" (Geo_model.resolution Examples.blank.1)
      = Ok (Geo_model.datelist r.2.1) /\
    Geo_model.model_list r.2.1 = Geo_model.model_list Examples.blank.1 /\
    forall l, l <> Geo_model.inputs Examples.blank.1 ->
              is_Some (dicts Examples.blank.2 !! l) ->
              dicts r.2.2 !! l = dicts Examples.blank.2 !! l.
Proof.
  intros r.
  assert (Hrun : Geo_model_load.data_load Examples.loaders Examples.national
                   (Some "ili.csv") (Some "gt.csv") (Some "ath.csv") None
                   (Examples.blank.1, Examples.blank.2) = (Done tt, (r.2.1, r.2.2)))
    by (vm_compute; reflexivity).
  exact (data_load_merges_sources Examples.loaders Examples.national (Some "ili.csv")
           (Some "gt.csv") (Some "ath.csv") None Examples.blank.1 Examples.blank.2
           r.2.1 r.2.2 Hrun).
Defined.

(** X24. A failed validation is not rolled back: [data_load] raises what
    [validate_vars] raised and leaves the model with the newly loaded
    target and the merged inputs, next to the calendar it had before. *)
Theorem data_load_validation_failure
    L R target_file gt_file ath_file fny_file g w tg0 e :
  load_target L target_file (Geo_model_load.geo_level R) (Geo_model_load.geo_id R)
    (Geo_model_load.use_data_from R) = Ok tg0 ->
  validate_vars L
    (merged L R gt_file ath_file fny_file (dict_at w (Geo_model.inputs g))) tg0 = Err e ->
  exists w',
    Geo_model_load.data_load L R target_file gt_file ath_file fny_file (g, w)
      = (Raise e, (Geo_model_load.set_target tg0 g, w')) /\
    dict_at w' (Geo_model.inputs g)
      = merged L R gt_file ath_file fny_file (dict_at w (Geo_model.inputs g)) /\
    forall l, l <> Geo_model.inputs g -> dicts w' !! l = dicts w !! l.
Proof.
  intros Htg He.
  destruct (data_load_steps L R _ gt_file ath_file fny_file g w tg0 Htg)
    as (w1 & Hd1 & Ho1 & ->).
  exists w1. split_and!; [| done | done].
  rewrite Hd1. unfold bind, lift. by rewrite He.
Qed.

Lemma data_load_validation_failure_witness :
  exists w',
    Geo_model_load.data_load Examples.loaders Examples.national (Some "ili.csv")
      None None None Examples.blank
      = (Raise ValueError, (Geo_model_load.set_target Sample.series Examples.blank.1, w')) /\
    dict_at w' (Geo_model.inputs Examples.blank.1)
      = merged Examples.loaders Examples.national None None None
          (dict_at Examples.blank.2 (Geo_model.inputs Examples.blank.1)) /\
    forall l, l <> Geo_model.inputs Examples.blank.1 ->
              dicts w' !! l = dicts Examples.blank.2 !! l.
Proof.
  exact (data_load_validation_failure Examples.loaders Examples.national (Some "ili.csv")
           None None None Examples.blank.1 Examples.blank.2 Sample.series ValueError
           eq_refl eq_refl).
Defined.

(** X25. [data_load_from_file] binds the target and the inputs before it
    makes the calendar: when [create_datelist] raises, the call raises
    with the model already holding the target and the dictionary read from
    the file (the dictionary as a new object, the old one and every other
    being untouched) and still holding the calendar it had. *)
Theorem data_load_from_file_calendar_failure
    L file_loc date_col target_col otherdata g w tg d first_date e :
  load_singlefile L file_loc date_col target_col otherdata = Ok (tg, d, first_date) ->
  create_datelist L d tg first_date (Geo_model.resolution g) = Err e ->
  exists l w',
    Geo_model_load.data_load_from_file L file_loc date_col target_col otherdata (g, w)
      = (Raise e, (Geo_model_load.set_inputs l (Geo_model_load.set_target tg g), w')) /\
    dicts w !! l = None /\
    dicts w' = <[l := d]> (dicts w).
Proof.
  intros Hload He.
  exists (fresh (dom (dicts w))). eexists. split_and!.
  - run_load. cbn. rewrite Hload. cbn. rewrite dict_at_set_dict.
    destruct g as [res psd v inp tg' dl ms]. cbn in *. rewrite He. reflexivity.
  - apply not_elem_of_dom, is_fresh.
  - reflexivity.
Qed.

Lemma data_load_from_file_calendar_failure_witness :
  exists l w',
    Geo_model_load.data_load_from_file Examples.loaders "all.csv" "date" "ili" []
      Examples.blank
      = (Raise ValueError,
         (Geo_model_load.set_inputs l (Geo_model_load.set_target [] Examples.blank.1), w')) /\
    dicts Examples.blank.2 !! l = None /\
    dicts w' = <[l := ∅]> (dicts Examples.blank.2).
Proof.
  exact (data_load_from_file_calendar_failure Examples.loaders "all.csv" "date" "ili" []
           Examples.blank.1 Examples.blank.2 [] ∅ "2013-01-06" ValueError
           eq_refl eq_refl).
Defined.

(** * Sources that are not there *)

Lemma predict_unstackable G iv method horizon tl ins params p w e :
  Predictor.stacked (dict_at w (Predictor.X p)) iv = Err e ->
  exists w',
    Predictor.predict G iv method horizon tl ins params (p, w) = (Raise e, (p, w')) /\
    dicts w' = dicts w.
Proof.
  intros He. unfold Predictor.predict, Predictor.pre_prediction. run_prims.
  destruct p as [X tg tr lb sd dl res v flag pr]. unfold dict_at in *. simpl in *.
  destruct v; simpl; rewrite He; simpl; eauto.
Qed.

Lemma map_r_first_error (d : pydict) pre t post :
  Forall (fun key => is_Some (d !! key)) pre -> d !! t = None ->
  map_r (Predictor.dict_getitem d) (pre ++ t :: post) = Err (KeyError t).
Proof.
  intros Hpre Ht. induction Hpre as [| key pre [a Ha] _ IH]; cbn.
  - unfold Predictor.dict_getitem at 1. by rewrite Ht.
  - unfold Predictor.dict_getitem at 1. rewrite Ha. cbn. by rewrite IH.
Qed.

(** X26. A requested input block that the predictor does not hold stops
    [predict] at once: the call raises [KeyError] for the first missing
    name in the order of the request (['ath'], ['gt'], ['ar'] for
    [input_vars='all']), and the predictor and every dictionary are what
    they were. *)
Theorem predict_missing_input G iv method horizon tl ins params p w pre t post :
  match iv with
  | Predictor.IVAll => ["ath"; "gt"; "ar"]
  | Predictor.IVList terms => terms
  end = pre ++ t :: post ->
  Forall (fun key => is_Some (dict_at w (Predictor.X p) !! key)) pre ->
  dict_at w (Predictor.X p) !! t = None ->
  exists w',
    Predictor.predict G iv method horizon tl ins params (p, w)
      = (Raise (KeyError t), (p, w')) /\
    dicts w' = dicts w.
Proof.
  intros Hiv Hpre Ht. apply predict_unstackable.
  unfold Predictor.stacked. rewrite Hiv.
  by rewrite (map_r_first_error _ pre t post Hpre Ht).
Qed.

Lemma predict_missing_input_witness :
  exists w',
    Predictor.predict Sample.as_written (Predictor.IVList ["gt"; "fny"; "ar"]) "ARGO" 0
      (Predictor.TLInt 1) false [] (Sample.unit0, Sample.world0)
      = (Raise (KeyError "fny"), (Sample.unit0, w')) /\
    dicts w' = dicts Sample.world0.
Proof.
  refine (predict_missing_input Sample.as_written (Predictor.IVList ["gt"; "fny"; "ar"])
            "ARGO" 0 (Predictor.TLInt 1) false [] Sample.unit0 Sample.world0
            ["gt"] "fny" ["ar"] eq_refl _ eq_refl).
  repeat constructor. vm_compute. eauto.
Defined.

Lemma process_ath_absent G flag s :
  dict_at s.2 (Predictor.X s.1) !! "ath" = None ->
  Predictor.process_ath G flag s = (Done tt, s).
Proof.
  intros Hnone. unfold Predictor.process_ath. run_prims. cbn. rewrite Hnone.
  rewrite bool_decide_eq_false_2 by (by intros [? ?]). by destruct flag.
Qed.

Lemma process_gt_absent G flag s :
  dict_at s.2 (Predictor.X s.1) !! "gt" = None ->
  Predictor.process_gt G flag s = (Done tt, s).
Proof.
  intros Hnone. unfold Predictor.process_gt. run_prims. cbn. rewrite Hnone.
  rewrite bool_decide_eq_false_2 by (by intros [? ?]). by destruct flag.
Qed.

(** The steps before a transform do not add the block it works on. *)
Lemma target_step_keeps_inputs G flag s :
  dict_at ((Predictor.announce ;;; Predictor.process_target G flag)%py s).2.2
    (Predictor.X ((Predictor.announce ;;; Predictor.process_target G flag)%py s).2.1)
    = dict_at s.2 (Predictor.X s.1).
Proof.
  set (R := fun s s' : Predictor.st =>
              dict_at s'.2 (Predictor.X s'.1) = dict_at s.2 (Predictor.X s.1)).
  assert (Hrefl : forall s, R s s) by done.
  assert (Htrans : forall s1 s2 s3, R s1 s2 -> R s2 s3 -> R s1 s3).
  { unfold R. intros ??? H1 H2. congruence. }
  assert (Hk : keeps R (Predictor.announce ;;; Predictor.process_target G flag)%py).
  { unfold Predictor.announce, Predictor.process_target, Predictor.self,
      Predictor.assign, print.
    repeat keeps_step Hrefl Htrans.
    all: apply keeps_modify; by intros [[] ?]. }
  apply Hk.
Qed.

Lemma process_ath_keeps_gt G flag s :
  dict_at (Predictor.process_ath G flag s).2.2 (Predictor.X (Predictor.process_ath G flag s).2.1)
    !! "gt" = dict_at s.2 (Predictor.X s.1) !! "gt".
Proof.
  destruct s as [p w]. destruct flag; [| by unfold Predictor.process_ath].
  destruct (dict_at w (Predictor.X p) !! "ath") as [a |] eqn:Ha.
  2:{ by rewrite (process_ath_absent G true (p, w) Ha). }
  destruct (logit_percent_2d (g_processing G) a) as [r | e] eqn:Hr.
  2:{ by rewrite (process_ath_fails G p w a e Ha Hr). }
  destruct p as [X tg tr lb sd dl res v fl pr]. cbn [fst snd Predictor.X] in *.
  assert (Hgt : dict_at (set_dict X (<["ath" := r]> (dict_at w X)) w) X !! "gt"
                = dict_at w X !! "gt").
  { by rewrite dict_at_set_dict, lookup_insert_ne. }
  unfold Predictor.process_ath. run_prims. simpl.
  repeat (first [rewrite Ha | rewrite Hr | rewrite bool_decide_true by eauto]; simpl).
  by destruct v.
Qed.

(** X27. Asking for the transform of a source the predictor does not hold
    is not an error and does nothing: without an ['ath'] block
    [transform_ath=True] is the same call as [transform_ath=False], and
    without a ['gt'] block [transform_gt=True] is the same call as
    [transform_gt=False]. *)
Theorem data_process_absent_source_not_transformed G flag_t flag_a flag_g ar s :
  (dict_at s.2 (Predictor.X s.1) !! "ath" = None ->
   Predictor.data_process G flag_t true flag_g ar s
     = Predictor.data_process G flag_t false flag_g ar s) /\
  (dict_at s.2 (Predictor.X s.1) !! "gt" = None ->
   Predictor.data_process G flag_t flag_a true ar s
     = Predictor.data_process G flag_t flag_a false ar s).
Proof.
  unfold Predictor.data_process.
  pose proof (target_step_keeps_inputs G flag_t s) as Hkeep.
  destruct (announce_total s) as [s0 H0].
  destruct (process_target_total G flag_t s0) as [s1 H1].
  rewrite !(bind_run _ _ _ _ _ H0), !(bind_run _ _ _ _ _ H1) in *.
  rewrite H1 in Hkeep. cbn [snd] in Hkeep. split; intros Hnone.
  - rewrite <- Hkeep in Hnone.
    by rewrite !(bind_run _ _ _ _ _ (process_ath_absent G _ s1 Hnone)).
  - rewrite <- Hkeep, <- (process_ath_keeps_gt G flag_a s1) in Hnone.
    unfold bind at 1 3.
    destruct (Predictor.process_ath G flag_a s1) as [[[] | e |] s2]; [| done..].
    cbn [fst snd] in Hnone.
    by rewrite !(bind_run _ _ _ _ _ (process_gt_absent G _ s2 Hnone)).
Qed.

Lemma data_process_absent_source_not_transformed_witness :
  Predictor.data_process Sample.as_written true true true (ARInt 1)
    (Sample.unit0, Sample.world_gt)
  = Predictor.data_process Sample.as_written true false true (ARInt 1)
      (Sample.unit0, Sample.world_gt).
Proof.
  exact (proj1 (data_process_absent_source_not_transformed Sample.as_written true true true
                  (ARInt 1) (Sample.unit0, Sample.world_gt)) eq_refl).
Defined.
